(** * OneNote-RAG: the token lifecycle manager of [auth.py]

    A shallow embedding of the class [OneNoteAuth] (src/auth.py): the
    client-identifier resolver ([_get_client_id]), the credential store
    ([_resolve_token_path], [_ensure_token_dir], [_load_refresh_token],
    [_save_refresh_token]) and [get_access_token], with the constructor that
    ties them together.  [get_notebooks] and the command line are not
    modelled.

    Methods are computations in a state-and-exception monad over a [world]
    record that holds everything the Python code reaches outside its own
    object: the file system, the process environment, the platform name, the
    identity provider behind the MSAL client, the calls made so far and what
    was printed.  A Python exception is the [Raise] outcome; [try ... except]
    is [try_except].  Replies of the MSAL client are dicts; a transport
    failure inside the library is not modelled. *)

From Stdlib Require Import ZArith Ascii String.
From stdpp Require Import gmap strings list fin_maps.

Local Open Scope string_scope.
Local Open Scope Z_scope.

(** ** Python values *)

(** A Python [str] is the sequence of its code points; code points are below
    256 here.  A [dict] with string keys and string values, as MSAL returns
    them, is a finite map. *)
Abbreviation dict := (gmap string string).

(** Truthiness of a [str]: only the empty string is false. *)
Definition str_truthy (s : string) : bool :=
  match s with
  | EmptyString => false
  | String _ _ => true
  end.

(** [k in d] *)
Definition has_key (k : string) (d : dict) : bool := bool_decide (is_Some (d !! k)).

(** [d.get(k, default)] *)
Definition dict_get (d : dict) (k default : string) : string :=
  match d !! k with
  | Some v => v
  | None => default
  end.

(** [str.isspace] on one code point below 256: TAB, LF, VT, FF, CR, the four
    separators FS GS RS US, SPACE, NEL and NBSP. *)
Definition is_space (c : ascii) : bool :=
  let n := N_of_ascii c in
  ((9 <=? n) && (n <=? 13) || (28 <=? n) && (n <=? 32) || (n =? 133) || (n =? 160))%N.

Fixpoint lstrip (s : string) : string :=
  match s with
  | EmptyString => EmptyString
  | String c r => if is_space c then lstrip r else s
  end.

Fixpoint rstrip (s : string) : string :=
  match s with
  | EmptyString => EmptyString
  | String c r =>
      match rstrip r with
      | EmptyString => if is_space c then EmptyString else String c EmptyString
      | r' => String c r'
      end
  end.

(** [s.strip()] *)
Definition strip (s : string) : string := rstrip (lstrip s).

Definition LF : ascii := ascii_of_N 10.
Definition CR : ascii := ascii_of_N 13.

(** What a text-mode read does to line endings (universal newlines): CR LF
    and a lone CR both become LF. *)
Fixpoint universal_newlines (s : string) : string :=
  match s with
  | EmptyString => EmptyString
  | String c r =>
      if Ascii.eqb c CR then
        String LF
          match r with
          | String c2 r2 => if Ascii.eqb c2 LF then universal_newlines r2 else universal_newlines r
          | EmptyString => EmptyString
          end
      else String c (universal_newlines r)
  end.

(** ** Paths (pathlib, POSIX flavour) *)

(** A [Path] is its [parts] tuple: the anchor ["/"] (or ["//"]) first when the
    path is absolute, then the components. *)
Abbreviation path := (list string).

(** [s.split("/")] *)
Fixpoint split_slash (s : string) : list string :=
  match s with
  | EmptyString => [EmptyString]
  | String c r =>
      if Ascii.eqb c "/" then EmptyString :: split_slash r
      else match split_slash r with
           | x :: xs => String c x :: xs
           | [] => [String c EmptyString]
           end
  end.

Definition anchor_of (s : string) : list string :=
  match s with
  | String "/" (String "/" (String "/" _)) => ["/"]
  | String "/" (String "/" _) => ["//"]
  | String "/" _ => ["/"]
  | _ => []
  end.

Definition is_component (c : string) : bool :=
  negb (String.eqb c "") && negb (String.eqb c ".").

(** [Path(s)]: empty and ["."] components are dropped, [".."] is kept. *)
Definition Path (s : string) : path :=
  anchor_of s ++ filter (fun c => is_component c = true) (split_slash s).

Definition is_anchor (c : string) : bool := String.eqb c "/" || String.eqb c "//".

(** [p.parent]: an anchor and the empty path are their own parent. *)
Definition parent (p : path) : path :=
  match p with
  | [a] => if is_anchor a then p else []
  | _ => removelast p
  end.

(** [p / s] *)
Definition joinpath (p : path) (s : string) : path :=
  match anchor_of s with
  | [] => p ++ Path s
  | _ => Path s
  end.

(** ** Exceptions and printed lines *)

Inductive exn_class :=
| ValueError | Exception_ | KeyError | ImportError
| FileNotFoundError | FileExistsError | IsADirectoryError
| NotADirectoryError | PermissionError.

(** The argument of a raised exception: a message, a message followed by a
    formatted dict (line 139), or the path an [OSError] is about. *)
Inductive exn_args :=
| Msg (s : string)
| MsgDict (s : string) (d : dict)
| AtPath (p : path).

Inductive exn := Exn (c : exn_class) (a : exn_args).

Definition class_of (e : exn) : exn_class := let 'Exn c _ := e in c.

Global Instance exn_class_eq_dec : EqDecision exn_class.
Proof. solve_decision. Defined.

(** One constructor per formatted [print]; [Text] for the literal ones (the
    leading pictographs of the source are left out). *)
Inductive line :=
| Text (s : string)
| LoadedFrom (p : path)                     (* line 100 *)
| CouldNotLoad (p : path) (e : exn)         (* line 103 *)
| SavedTo (p : path)                        (* line 113 *)
| ErrorSaving (p : path) (e : exn)          (* line 115 *)
| SilentRefreshFailed (description : string) (* line 132 *)
| OpenOn (verification_uri : string)        (* line 144 *)
| EnterCode (user_code : string).           (* line 145 *)

(** ** The world *)

Inductive node :=
| File (mode : Z) (content : string)
| Dir (mode : Z).

(** Calls that leave the process, in order. *)
Inductive event :=
| Getenv (name : string)
| LoadDotenv
| PublicClientApplication (client_id authority : string)
| AcquireTokenByRefreshToken (refresh_token : string) (scopes : list string)
| InitiateDeviceFlow (scopes : list string)
| AcquireTokenByDeviceFlow (flow : dict).

(** The identity provider as the MSAL client shows it: each reply may depend
    on the arguments and on every call made before. *)
Record provider := Provider {
  refresh_reply : list event -> string -> list string -> dict;
  initiate_reply : list event -> list string -> dict;
  device_reply : list event -> dict -> dict
}.

Record world := World {
  fs : gmap path node;
  environ : gmap string string;
  os_name : string;
  umask : Z;
  home : string;                       (* what [Path.home()] is built from *)
  dotenv_installed : bool;             (* can [dotenv] be imported *)
  dotenv_file : option (list (string * string)); (* the [.env] file found, parsed *)
  idp : provider;
  calls : list event;
  stdout : list line
}.

Definition set_fs (f : gmap path node) (w : world) : world :=
  World f (environ w) (os_name w) (umask w) (home w) (dotenv_installed w)
        (dotenv_file w) (idp w) (calls w) (stdout w).

Definition set_environ (e : gmap string string) (w : world) : world :=
  World (fs w) e (os_name w) (umask w) (home w) (dotenv_installed w)
        (dotenv_file w) (idp w) (calls w) (stdout w).

Definition record (ev : event) (w : world) : world :=
  World (fs w) (environ w) (os_name w) (umask w) (home w) (dotenv_installed w)
        (dotenv_file w) (idp w) (calls w ++ [ev]) (stdout w).

Definition emit (l : line) (w : world) : world :=
  World (fs w) (environ w) (os_name w) (umask w) (home w) (dotenv_installed w)
        (dotenv_file w) (idp w) (calls w) (stdout w ++ [l]).

(** ** The monad *)

Inductive outcome (A : Type) :=
| Ok (a : A)
| Raise (e : exn).
Arguments Ok {A} a.
Arguments Raise {A} e.

Definition M (A : Type) : Type := world -> outcome A * world.

Definition ret {A} (a : A) : M A := fun w => (Ok a, w).

Definition raise {A} (e : exn) : M A := fun w => (Raise e, w).

Definition bind {A B} (m : M A) (k : A -> M B) : M B :=
  fun w =>
    match m w with
    | (Ok a, w') => k a w'
    | (Raise e, w') => (Raise e, w')
    end.

Declare Scope py_scope.
Delimit Scope py_scope with py.
Notation "x <- m ;; k" := (bind m (fun x => k))
  (at level 100, m at next level, right associativity) : py_scope.
Notation "m ;; k" := (bind m (fun _ => k))
  (at level 100, right associativity) : py_scope.
Local Open Scope py_scope.

(** [try: body  except Exception as e: handler e] *)
Definition try_except {A} (body : M A) (handler : exn -> M A) : M A :=
  fun w =>
    match body w with
    | (Ok a, w') => (Ok a, w')
    | (Raise e, w') => handler e w'
    end.

(** [try: body  except cls: handler] *)
Definition try_except_class {A} (cls : exn_class) (body : M A) (handler : M A) : M A :=
  fun w =>
    match body w with
    | (Raise e, w') => if decide (class_of e = cls) then handler w' else (Raise e, w')
    | r => r
    end.

Definition print (l : line) : M unit := fun w => (Ok tt, emit l w).

(** [d[k]] *)
Definition getitem (d : dict) (k : string) : M string :=
  match d !! k with
  | Some v => ret v
  | None => raise (Exn KeyError (Msg k))
  end.

(** ** File-system primitives (POSIX)

    The file system is a finite map from paths to nodes.  Paths are compared
    as pathlib compares them: no symbolic links, and [".."] is not resolved.
    The process owns every node and is not privileged, so the owner bits of a
    mode decide what it may do; search permission on ancestors is not
    checked.  A file holds the text written to it (the encoding is assumed
    to round-trip). *)

Definition S_IRUSR : Z := 256.  (* 0o400 *)
Definition S_IWUSR : Z := 128.  (* 0o200 *)
Definition S_IXUSR : Z := 64.   (* 0o100 *)

Definition has_bits (mode bits : Z) : bool := Z.land mode bits =? bits.

Definition oserror {A} (c : exn_class) (p : path) : M A := raise (Exn c (AtPath p)).

(** [p.exists()], [os.path.exists(p)] *)
Definition path_exists (p : path) : M bool :=
  fun w => (Ok (bool_decide (is_Some (fs w !! p))), w).

(** [p.is_dir()] *)
Definition is_dir (p : path) : M bool :=
  fun w => (Ok match fs w !! p with Some (Dir _) => true | _ => false end, w).

(** [os.mkdir(p)], mode [0o777] less the umask. *)
Definition os_mkdir (p : path) : M unit :=
  fun w =>
    if decide (parent p = p) then
      match fs w !! p with
      | Some _ => oserror FileExistsError p w
      | None => oserror FileNotFoundError p w
      end
    else
      match fs w !! parent p with
      | None => oserror FileNotFoundError p w
      | Some (File _ _) => oserror NotADirectoryError p w
      | Some (Dir m) =>
          match fs w !! p with
          | Some _ => oserror FileExistsError p w
          | None =>
              if has_bits m (S_IWUSR + S_IXUSR)
              then (Ok tt, set_fs (<[p := Dir (Z.land 511 (Z.lnot (umask w)))]> (fs w)) w)
              else oserror PermissionError p w
          end
      end.

(** [p.mkdir(parents=False, exist_ok=True)]: any [OSError] other than
    [FileNotFoundError] is dropped when [p] is a directory. *)
Definition mkdir_exist_ok (p : path) : M unit :=
  try_except (os_mkdir p)
    (fun e =>
       if decide (class_of e = FileNotFoundError) then raise e
       else d <- is_dir p ;; if d then ret tt else raise e).

(** [p.mkdir(parents=True, exist_ok=True)], by recursion on the parts of [p]
    from the last one: on [FileNotFoundError] the parent is made first. *)
Fixpoint mkdir_parents_rev (rp : list string) : M unit :=
  let p := rev rp in
  try_except (os_mkdir p)
    (fun e =>
       if decide (class_of e = FileNotFoundError) then
         if decide (parent p = p) then raise e
         else match rp with
              | _ :: rest => mkdir_parents_rev rest ;; mkdir_exist_ok p
              | [] => raise e
              end
       else d <- is_dir p ;; if d then ret tt else raise e).

Definition mkdir_parents (p : path) : M unit := mkdir_parents_rev (rev p).

Definition set_mode (mode : Z) (n : node) : node :=
  match n with
  | File _ c => File mode c
  | Dir _ => Dir mode
  end.

(** [os.chmod(p, mode)], [p.chmod(mode)] *)
Definition chmod (p : path) (mode : Z) : M unit :=
  fun w =>
    match fs w !! p with
    | None => oserror FileNotFoundError p w
    | Some n => (Ok tt, set_fs (<[p := set_mode mode n]> (fs w)) w)
    end.

(** [p.read_text()] *)
Definition read_text (p : path) : M string :=
  fun w =>
    match fs w !! p with
    | None => oserror FileNotFoundError p w
    | Some (Dir _) => oserror IsADirectoryError p w
    | Some (File m c) =>
        if has_bits m S_IRUSR then (Ok (universal_newlines c), w)
        else oserror PermissionError p w
    end.

(** [p.write_text(data)]: truncates or creates (mode [0o666] less the
    umask). *)
Definition write_text (p : path) (data : string) : M unit :=
  fun w =>
    match fs w !! p with
    | Some (Dir _) => oserror IsADirectoryError p w
    | Some (File m _) =>
        if has_bits m S_IWUSR then (Ok tt, set_fs (<[p := File m data]> (fs w)) w)
        else oserror PermissionError p w
    | None =>
        match fs w !! parent p with
        | None => oserror FileNotFoundError p w
        | Some (File _ _) => oserror NotADirectoryError p w
        | Some (Dir m) =>
            if has_bits m (S_IWUSR + S_IXUSR)
            then (Ok tt, set_fs (<[p := File (Z.land 438 (Z.lnot (umask w))) data]> (fs w)) w)
            else oserror PermissionError p w
        end
    end.

(** ** Environment, dotenv and the MSAL client *)

(** [os.getenv(name)] *)
Definition getenv (name : string) : M (option string) :=
  fun w => (Ok (environ w !! name), record (Getenv name) w).

(** [from dotenv import load_dotenv] *)
Definition import_dotenv : M unit :=
  fun w =>
    if dotenv_installed w then (Ok tt, w)
    else (Raise (Exn ImportError (Msg "No module named 'dotenv'")), w).

(** A variable already in the environment is not overridden. *)
Definition setdefault_env (e : gmap string string) (kv : string * string) : gmap string string :=
  match e !! kv.1 with
  | Some _ => e
  | None => <[kv.1 := kv.2]> e
  end.

(** The environment once the [.env] file, if one is found, has been loaded. *)
Definition dotenv_environ (w : world) : gmap string string :=
  match dotenv_file w with
  | None => environ w
  | Some kvs => foldl setdefault_env (environ w) kvs
  end.

(** [load_dotenv()] *)
Definition load_dotenv : M unit :=
  fun w => (Ok tt, set_environ (dotenv_environ w) (record LoadDotenv w)).

(** [msal.PublicClientApplication(client_id, authority=...)]; the object is
    kept as the arguments it was built from. *)
Record msal_app := MsalApp { app_client_id : string; app_authority : string }.

Definition new_PublicClientApplication (client_id authority : string) : M msal_app :=
  fun w => (Ok (MsalApp client_id authority),
            record (PublicClientApplication client_id authority) w).

Definition acquire_token_by_refresh_token (app : msal_app) (rt : string)
    (scopes : list string) : M dict :=
  fun w => (Ok (refresh_reply (idp w) (calls w) rt scopes),
            record (AcquireTokenByRefreshToken rt scopes) w).

Definition initiate_device_flow (app : msal_app) (scopes : list string) : M dict :=
  fun w => (Ok (initiate_reply (idp w) (calls w) scopes),
            record (InitiateDeviceFlow scopes) w).

Definition acquire_token_by_device_flow (app : msal_app) (flow : dict) : M dict :=
  fun w => (Ok (device_reply (idp w) (calls w) flow),
            record (AcquireTokenByDeviceFlow flow) w).

(** [os.name] *)
Definition get_os_name : M string := fun w => (Ok (os_name w), w).

(** [Path.home()] *)
Definition Path_home : M path := fun w => (Ok (Path (home w)), w).

(** ** class OneNoteAuth *)

Record OneNoteAuth := {
  is_container : bool;
  client_id : string;
  tenant_id : string;
  scope : list string;
  token_path : path;
  app : msal_app;
  refresh_token : option string
}.

(** The value an [if x:] test lets through: [x] when it is a non-empty
    string. *)
Definition truthy_value (o : option string) : option string :=
  match o with
  | Some s => if str_truthy s then Some s else None
  | None => None
  end.

Definition nl : string := String LF EmptyString.

(** The message of line 68. *)
Definition client_id_guidance : string :=
  "MS_CLIENT_ID must be set. Options:" ++ nl ++
  "1. Pass as argument: OneNoteAuth(client_id='...')" ++ nl ++
  "2. Set environment variable: export MS_CLIENT_ID='...'" ++ nl ++
  "3. Create .env file for local development (only if not in container)".

(** [_get_client_id], lines 45-73; it reads [self.is_container] only. *)
Definition _get_client_id (is_container : bool) (client_id : option string) : M string :=
  let missing : M string := raise (Exn ValueError (Msg client_id_guidance)) in
  match truthy_value client_id with
  | Some c => ret c
  | None =>
      env_client_id <- getenv "MS_CLIENT_ID" ;;
      match truthy_value env_client_id with
      | Some c => ret c
      | None =>
          if negb is_container then
            found <- try_except_class ImportError
                       (import_dotenv ;;
                        load_dotenv ;;
                        env_client_id <- getenv "MS_CLIENT_ID" ;;
                        ret (truthy_value env_client_id))
                       (ret None) ;;
            match found with
            | Some c => ret c
            | None => missing
            end
          else missing
      end
  end.

(** The Docker production path of line 81. *)
Definition docker_path : path := Path "/run/secrets/ms_refresh_token".

(** [_resolve_token_path], lines 75-86. *)
Definition _resolve_token_path (token_path : option string) : M path :=
  match truthy_value token_path with
  | Some s => ret (Path s)
  | None =>
      e <- path_exists (parent docker_path) ;;
      if e then ret docker_path
      else h <- Path_home ;;
           ret (joinpath (joinpath h ".onenote_rag") "refresh_token")
  end.

(** [_ensure_token_dir], lines 88-93. *)
Definition _ensure_token_dir (self : OneNoteAuth) : M unit :=
  e <- path_exists (parent (token_path self)) ;;
  if negb e then
    mkdir_parents (parent (token_path self)) ;;
    name <- get_os_name ;;
    if negb (String.eqb name "nt") then chmod (parent (token_path self)) 448 (* 0o700 *)
    else ret tt
  else ret tt.

(** [_load_refresh_token], lines 95-104. *)
Definition _load_refresh_token (self : OneNoteAuth) : M (option string) :=
  try_except
    (e <- path_exists (token_path self) ;;
     if e then
       text <- read_text (token_path self) ;;
       let token := strip text in
       print (LoadedFrom (token_path self)) ;;
       ret (if str_truthy token then Some token else None)
     else ret None)
    (fun e =>
       print (CouldNotLoad (token_path self) e) ;;
       ret None).

(** The [try] block of [_save_refresh_token], lines 109-113. *)
Definition save_body (self : OneNoteAuth) (token : string) : M unit :=
  _ensure_token_dir self ;;
  write_text (token_path self) token ;;
  name <- get_os_name ;;
  (if negb (String.eqb name "nt") then chmod (token_path self) 384 (* 0o600 *)
   else ret tt) ;;
  print (SavedTo (token_path self)).

(** [_save_refresh_token], lines 106-116. *)
Definition _save_refresh_token (self : OneNoteAuth) (token : string) : M unit :=
  try_except (save_body self token)
    (fun e =>
       print (ErrorSaving (token_path self) e) ;;
       raise e).

Definition rule : string :=
  "============================================================".

(** The device code flow, lines 136-159 of [get_access_token]. *)
Definition device_code_flow (self : OneNoteAuth) : M string :=
  flow <- initiate_device_flow (app self) (scope self) ;;
  if negb (has_key "user_code" flow) then
    raise (Exn ValueError (MsgDict "Failed to create device flow: " flow))
  else
    print (Text (nl ++ rule)) ;;
    print (Text "MICROSOFT AUTHENTICATION REQUIRED") ;;
    print (Text rule) ;;
    uri <- getitem flow "verification_uri" ;;
    print (OpenOn uri) ;;
    code <- getitem flow "user_code" ;;
    print (EnterCode code) ;;
    print (Text (rule ++ nl)) ;;
    result <- acquire_token_by_device_flow (app self) flow ;;
    if has_key "access_token" result then
      print (Text "Authentication successful!") ;;
      (if has_key "refresh_token" result then
         r <- getitem result "refresh_token" ;;
         _save_refresh_token self r
       else ret tt) ;;
      getitem result "access_token"
    else
      let error :=
        dict_get result "error_description" (dict_get result "error" "Unknown error") in
      raise (Exn Exception_ (Msg ("Authentication failed: " ++ error))).

(** [get_access_token], lines 118-159. *)
Definition get_access_token (self : OneNoteAuth) : M string :=
  match truthy_value (refresh_token self) with
  | Some rt =>
      print (Text "Attempting silent token refresh...") ;;
      result <- acquire_token_by_refresh_token (app self) rt (scope self) ;;
      if has_key "access_token" result then
        print (Text "Token refreshed silently") ;;
        (if has_key "refresh_token" result then
           r <- getitem result "refresh_token" ;;
           _save_refresh_token self r
         else ret tt) ;;
        getitem result "access_token"
      else
        print (SilentRefreshFailed (dict_get result "error_description" "Unknown error")) ;;
        print (Text "   Falling back to device code flow...") ;;
        device_code_flow self
  | None => device_code_flow self
  end.

(** [__init__], lines 10-43.  No other method assigns an attribute of
    [self], so the methods above take the instance as a value. *)
Definition __init__ (token_path client_id : option string) : M OneNoteAuth :=
  dockerenv <- path_exists (Path "/.dockerenv") ;;
  is_container <- (if dockerenv then ret true
                   else path_exists (Path "/run/.containerenv")) ;;
  client_id <- _get_client_id is_container client_id ;;
  let tenant_id := "common" in
  let scope := ["Notes.Read"] in
  token_path <- _resolve_token_path token_path ;;
  app <- new_PublicClientApplication client_id
           ("https://login.microsoftonline.com/" ++ tenant_id) ;;
  let self := Build_OneNoteAuth is_container client_id tenant_id scope token_path app None in
  refresh_token <- _load_refresh_token self ;;
  ret (Build_OneNoteAuth is_container client_id tenant_id scope token_path app refresh_token).

(** ** [get_notebooks] and the command line

    The rest of [auth.py]: the one call to the Graph API and [main].  They
    run in a second monad, over a [session] that adds to the [world] the
    HTTP server behind [requests], the requests sent, what [main] itself
    prints (kept apart from what the class prints) and what it prints on
    the error stream. *)

(** A parsed JSON body, as [resp.json()] returns it; a number is kept as
    its literal, and the entries of a dict have distinct keys. *)
#[warnings="-register-all"]
Inductive json :=
| JNull
| JBool (b : bool)
| JNum (literal : string)
| JStr (s : string)
| JList (items : list json)
| JDict (entries : list (string * json)).

(** The entry of a dict for a key. *)
Fixpoint assoc (k : string) (d : list (string * json)) : option json :=
  match d with
  | [] => None
  | (k', v) :: r => if String.eqb k k' then Some v else assoc k r
  end.

Record request := Request { req_url : string; req_authorization : string }.

(** A response: its status and its body, [None] when the body is not JSON. *)
Record response := Response { status_code : Z; resp_body : option json }.

(** What can be raised up to the command line: an exception of the class
    above, one of [requests], one of the listing, or [SystemExit]. *)
Inductive raised :=
| Std (e : exn)
| HTTPError (status : Z)
| RequestException (msg : string)
| JSONDecodeError
| AttributeError (msg : string)
| TypeError (msg : string)
| SystemExit (code : Z).

(** [isinstance(e, Exception)]: [SystemExit] is not one. *)
Definition is_Exception (r : raised) : bool :=
  match r with
  | SystemExit _ => false
  | _ => true
  end.

(** What [main] prints on the standard output, one constructor per
    formatted [print]; [Out] for the literal ones. *)
Inductive cli_line :=
| Out (s : string)
| TokenPreview (head tail : string)        (* line 194 *)
| TokenSavedTo (p : path)                  (* line 195 *)
| Retrieved (n : nat)                      (* line 202 *)
| Notebook (displayName id : json).        (* line 204 *)

Record session := Session {
  the_world : world;
  server : list request -> request -> string + response;
  sent : list request;
  console : list cli_line;
  stderr : list raised
}.

Definition set_world (w : world) (s : session) : session :=
  Session w (server s) (sent s) (console s) (stderr s).

Definition send (r : request) (s : session) : session :=
  Session (the_world s) (server s) (sent s ++ [r]) (console s) (stderr s).

Definition say (l : cli_line) (s : session) : session :=
  Session (the_world s) (server s) (sent s) (console s ++ [l]) (stderr s).

Definition complain (r : raised) (s : session) : session :=
  Session (the_world s) (server s) (sent s) (console s) (stderr s ++ [r]).

Inductive result (A : Type) :=
| Done (a : A)
| Failed (r : raised).
Arguments Done {A} a.
Arguments Failed {A} r.

Definition N (A : Type) : Type := session -> result A * session.

Definition retN {A} (a : A) : N A := fun s => (Done a, s).

Definition failN {A} (r : raised) : N A := fun s => (Failed r, s).

Definition bindN {A B} (m : N A) (k : A -> N B) : N B :=
  fun s =>
    match m s with
    | (Done a, s') => k a s'
    | (Failed r, s') => (Failed r, s')
    end.

(** A method of the class, run on the world of the session. *)
Definition lift {A} (m : M A) : N A :=
  fun s =>
    match m (the_world s) with
    | (Ok a, w) => (Done a, set_world w s)
    | (Raise e, w) => (Failed (Std e), set_world w s)
    end.

(** [try: body  except Exception as e: handler e] *)
Definition try_except_N {A} (body : N A) (handler : raised -> N A) : N A :=
  fun s =>
    match body s with
    | (Failed r, s') => if is_Exception r then handler r s' else (Failed r, s')
    | returned => returned
    end.

Declare Scope cli_scope.
Delimit Scope cli_scope with cli.
Notation "x <- m ;; k" := (bindN m (fun x => k))
  (at level 100, m at next level, right associativity) : cli_scope.
Notation "m ;; k" := (bindN m (fun _ => k))
  (at level 100, right associativity) : cli_scope.
Local Open Scope cli_scope.

(** [print(...)] in [main], [print(..., file=sys.stderr)], [sys.exit(code)] *)
Definition out (l : cli_line) : N unit := fun s => (Done tt, say l s).

Definition err (r : raised) : N unit := fun s => (Done tt, complain r s).

Definition sys_exit {A} (code : Z) : N A := failN (SystemExit code).

(** [requests.get(url, headers={"Authorization": authorization})]; a
    transport failure is a [RequestException]. *)
Definition requests_get (url authorization : string) : N response :=
  fun s =>
    let r := Request url authorization in
    match server s (sent s) r with
    | inl msg => (Failed (RequestException msg), send r s)
    | inr resp => (Done resp, send r s)
    end.

(** [resp.raise_for_status()]: the statuses from 400 to 599 raise. *)
Definition raise_for_status (resp : response) : N unit :=
  if (400 <=? status_code resp) && (status_code resp <? 600)
  then failN (HTTPError (status_code resp))
  else retN tt.

(** [resp.json()] *)
Definition resp_json (resp : response) : N json :=
  match resp_body resp with
  | Some j => retN j
  | None => failN JSONDecodeError
  end.

Definition notebooks_url : string :=
  "https://graph.microsoft.com/v1.0/me/onenote/notebooks".

(** [get_notebooks], lines 161-169. *)
Definition get_notebooks (self : OneNoteAuth) (access_token : option string) : N json :=
  token <- match truthy_value access_token with
           | Some t => retN t
           | None => lift (get_access_token self)
           end ;;
  resp <- requests_get notebooks_url ("Bearer " ++ token) ;;
  raise_for_status resp ;;
  resp_json resp.

(** [obj.get(key, default)]: only a dict has the method. *)
Definition py_get (obj : json) (key : string) (default : json) : N json :=
  match obj with
  | JDict d => retN match assoc key d with Some v => v | None => default end
  | _ => failN (AttributeError "get")
  end.

(** [len(obj)] *)
Definition py_len (obj : json) : N nat :=
  match obj with
  | JList l => retN (length l)
  | JDict d => retN (length d)
  | JStr s => retN (String.length s)
  | _ => failN (TypeError "len")
  end.

(** [iter(obj)]: the items of a list, the keys of a dict, the characters of
    a string. *)
Definition py_iter (obj : json) : N (list json) :=
  match obj with
  | JList l => retN l
  | JDict d => retN (map (fun kv => JStr kv.1) d)
  | JStr s => retN (map (fun c => JStr (String c EmptyString)) (list_ascii_of_string s))
  | _ => failN (TypeError "iter")
  end.

(** [obj[key]] for a string key. *)
Definition py_getitem (obj : json) (key : string) : N json :=
  match obj with
  | JDict d =>
      match assoc key d with
      | Some v => retN v
      | None => failN (Std (Exn KeyError (Msg key)))
      end
  | _ => failN (TypeError "subscript")
  end.

(** [for x in l: body x] *)
Fixpoint for_each {A} (l : list A) (body : A -> N unit) : N unit :=
  match l with
  | [] => retN tt
  | x :: r => body x ;; for_each r body
  end.

(** The parsed command line: [--client-id] and [--token-path], [None] when
    the option is not given. *)
Record args := Args { arg_client_id : option string; arg_token_path : option string }.

(** [token[:10]] and [token[-10:]] *)
Definition first10 (token : string) : string := substring 0 10 token.

Definition last10 (token : string) : string :=
  substring (String.length token - 10)%nat 10 token.

(** The [try] block of [main], lines 187-204. *)
Definition main_body (a : args) : N unit :=
  auth <- lift (__init__ (arg_token_path a) (arg_client_id a)) ;;
  token <- lift (get_access_token auth) ;;
  out (Out (nl ++ rule)) ;;
  out (Out "ACCESS TOKEN OBTAINED") ;;
  out (Out rule) ;;
  out (TokenPreview (first10 token) (last10 token)) ;;
  out (TokenSavedTo (token_path auth)) ;;
  out (Out (rule ++ nl)) ;;
  out (Out "Testing OneNote API call...") ;;
  notebooks_data <- get_notebooks auth (Some token) ;;
  notebooks <- py_get notebooks_data "value" (JList []) ;;
  n <- py_len notebooks ;;
  out (Retrieved n) ;;
  items <- py_iter notebooks ;;
  for_each items
    (fun nb =>
       name <- py_getitem nb "displayName" ;;
       id <- py_getitem nb "id" ;;
       out (Notebook name id)).

(** [parser.parse_args()], lines 175-184, before the [try]: argparse returns
    the arguments, or prints its own message and raises [SystemExit]
    (status 2 for a command line it rejects, 0 after [--help]).  What it
    makes of the command line of the process is [p]; what it prints is not
    recorded. *)
Inductive parsed :=
| Parsed (a : args)
| Exits (code : Z).

Definition parse_args (p : parsed) : N args :=
  match p with
  | Parsed a => retN a
  | Exits code => sys_exit code
  end.

(** [main], lines 173-208. *)
Definition main (p : parsed) : N unit :=
  a <- parse_args p ;;
  try_except_N (main_body a)
    (fun e =>
       err e ;;
       sys_exit 1).

(** The exit status of the process. *)
Definition exit_status (r : result unit) : Z :=
  match r with
  | Done _ => 0
  | Failed (SystemExit code) => code
  | Failed _ => 1
  end.

Local Close Scope cli_scope.

(** ** Vocabulary of the statements *)

(** Calls that reach the identity provider (building the MSAL client
    included); reading the environment is not one. *)
Definition is_network (ev : event) : bool :=
  match ev with
  | Getenv _ | LoadDotenv => false
  | _ => true
  end.

Definition is_refresh_call (ev : event) : bool :=
  match ev with
  | AcquireTokenByRefreshToken _ _ => true
  | _ => false
  end.

(** The container probe of [__init__], lines 26-28. *)
Definition detect_container (w : world) : bool :=
  bool_decide (is_Some (fs w !! Path "/.dockerenv"))
  || bool_decide (is_Some (fs w !! Path "/run/.containerenv")).

(** No source yields a client identifier: no non-empty explicit argument, no
    non-empty [MS_CLIENT_ID], and the [.env] file is out of reach (a
    container, or [dotenv] missing) or leaves the variable empty. *)
Definition unresolvable (is_container : bool) (explicit : option string) (w : world) : Prop :=
  truthy_value explicit = None
  /\ truthy_value (environ w !! "MS_CLIENT_ID") = None
  /\ (is_container = true
      \/ dotenv_installed w = false
      \/ truthy_value (dotenv_environ w !! "MS_CLIENT_ID") = None).

(** The world after step 3 has loaded the [.env] file and read the variable
    again. *)
Definition after_dotenv (w : world) : world :=
  record (Getenv "MS_CLIENT_ID")
    (set_environ (dotenv_environ (record (Getenv "MS_CLIENT_ID") w))
       (record LoadDotenv (record (Getenv "MS_CLIENT_ID") w))).

(** A computation that touches only the file system and the output: it
    makes no call and leaves the platform, the umask and the provider as
    they are. *)
Definition quiet {A} (m : M A) : Prop :=
  forall w, calls (m w).2 = calls w /\ os_name (m w).2 = os_name w
            /\ umask (m w).2 = umask w /\ idp (m w).2 = idp w.

(** [needle in haystack] *)
Definition contains (needle haystack : string) : bool :=
  match index 0 needle haystack with
  | Some _ => true
  | None => false
  end.

Fixpoint last_char (s : string) : option ascii :=
  match s with
  | EmptyString => None
  | String c EmptyString => Some c
  | String _ r => last_char r
  end.

Definition first_char (s : string) : option ascii :=
  match s with
  | EmptyString => None
  | String c _ => Some c
  end.

Fixpoint has_char (a : ascii) (s : string) : bool :=
  match s with
  | EmptyString => false
  | String c r => Ascii.eqb c a || has_char a r
  end.

Definition not_space (o : option ascii) : bool :=
  match o with
  | Some c => negb (is_space c)
  | None => false
  end.

(** A credential that a save and a load give back unchanged: not empty, no
    white space at either end, no carriage return. *)
Definition is_clean (s : string) : bool :=
  not_space (first_char s) && not_space (last_char s) && negb (has_char CR s).

(** What a load returns for a file holding [s]. *)
Definition loaded (s : string) : option string :=
  truthy_value (Some (strip (universal_newlines s))).

(** The world once the silent renewal has answered with an access
    credential (lines 121-126). *)
Definition after_silent_success (self : OneNoteAuth) (rt : string) (w : world) : world :=
  emit (Text "Token refreshed silently")
    (record (AcquireTokenByRefreshToken rt (scope self))
       (emit (Text "Attempting silent token refresh...") w)).

(** The world once the silent renewal has failed (lines 121-134). *)
Definition after_silent_failure (self : OneNoteAuth) (rt : string) (w : world) : world :=
  emit (Text "   Falling back to device code flow...")
    (emit (SilentRefreshFailed
             (dict_get (refresh_reply (idp w) (calls w) rt (scope self))
                       "error_description" "Unknown error"))
       (record (AcquireTokenByRefreshToken rt (scope self))
          (emit (Text "Attempting silent token refresh...") w))).

(** What the device flow answers from world [w]: the reply to the
    initiation, then the reply to the completion. *)
Definition flow_of (self : OneNoteAuth) (w : world) : dict :=
  initiate_reply (idp w) (calls w) (scope self).

Definition grant_of (self : OneNoteAuth) (w : world) : dict :=
  device_reply (idp w) (calls w ++ [InitiateDeviceFlow (scope self)]) (flow_of self w).

(** The world once the device flow has shown the code (lines 137-146), once
    the provider has answered the completion (line 148), and once that
    answer is known to carry an access credential (line 151). *)
Definition after_device_prompt (self : OneNoteAuth) (uri code : string) (w : world) : world :=
  emit (Text (rule ++ nl))
    (emit (EnterCode code)
       (emit (OpenOn uri)
          (emit (Text rule)
             (emit (Text "MICROSOFT AUTHENTICATION REQUIRED")
                (emit (Text (nl ++ rule))
                   (record (InitiateDeviceFlow (scope self)) w)))))).

Definition after_device_reply (self : OneNoteAuth) (uri code : string) (w : world) : world :=
  record (AcquireTokenByDeviceFlow (flow_of self w)) (after_device_prompt self uri code w).

Definition after_device_grant (self : OneNoteAuth) (uri code : string) (w : world) : world :=
  emit (Text "Authentication successful!") (after_device_reply self uri code w).

(** The reply a call of [get_access_token] takes its access credential
    from: the silent renewal's when it carries one, the device flow's
    otherwise. *)
Definition granting_reply (self : OneNoteAuth) (w : world) : dict :=
  match truthy_value (refresh_token self) with
  | Some rt =>
      let reply := refresh_reply (idp w) (calls w) rt (scope self) in
      if has_key "access_token" reply then reply
      else grant_of self (after_silent_failure self rt w)
  | None => grant_of self w
  end.

(** ** Concrete worlds *)

Definition mkfs (l : list (string * node)) : gmap path node :=
  list_to_map (map (fun sn => (Path sn.1, sn.2)) l).

(** Every node but an anchor sits in a directory. *)
Definition fs_wf (f : gmap path node) : bool :=
  forallb (fun pn =>
             match f !! parent pn.1 with
             | Some (Dir _) => true
             | _ => false
             end)
          (map_to_list f).

(** A provider that answers the same whatever was called before. *)
Definition scripted (refresh initiate device : dict) : provider :=
  Provider (fun _ _ _ => refresh) (fun _ _ => initiate) (fun _ _ => device).

Definition reply_tokens (access refresh : string) : dict :=
  <["access_token" := access]> (<["refresh_token" := refresh]> ∅).

Definition reply_invalid_grant : dict := <["error" := "invalid_grant"]> ∅.

Definition reply_flow : dict :=
  <["user_code" := "ABCD-EFGH"]>
    (<["verification_uri" := "https://microsoft.com/devicelogin"]> ∅).

Definition test_env : gmap string string := <["MS_CLIENT_ID" := "test-client-id"]> ∅.

Definition test_idp : provider :=
  scripted (reply_tokens "new-access-token-xyz" "new-refresh-token-abc")
           reply_flow
           (reply_tokens "device-flow-access-token" "device-flow-refresh-token").

Definition expired_idp : provider :=
  scripted reply_invalid_grant reply_flow
           (reply_tokens "device-flow-access-token" "device-flow-refresh-token").

(** A POSIX host, umask [0o022], home [/home/user], no [dotenv]. *)
Definition posix_world (f : gmap path node) (env : gmap string string) (p : provider) : world :=
  World f env "posix" 18 "/home/user" false None p [] [].

(** A container as Docker sets it up: the secret is mounted read-only
    (mode [0o444]) under [/run/secrets]. *)
Definition docker_fs : gmap path node :=
  mkfs [("/", Dir 493); ("/.dockerenv", File 493 "");
        ("/run", Dir 493); ("/run/secrets", Dir 493);
        ("/run/secrets/ms_refresh_token", File 292 "old-cached-token")].

Definition docker_world : world := posix_world docker_fs test_env test_idp.

(** The same container before any credential was provisioned; the secrets
    directory is read-only (mode [0o555]). *)
Definition docker_fs_unprovisioned : gmap path node :=
  mkfs [("/", Dir 493); ("/.dockerenv", File 493 "");
        ("/run", Dir 493); ("/run/secrets", Dir 365)].

Definition docker_world_unprovisioned : world :=
  posix_world docker_fs_unprovisioned test_env test_idp.

(** A workstation with a credential cached by an earlier run. *)
Definition home_fs : gmap path node :=
  mkfs [("/", Dir 493); ("/home", Dir 493); ("/home/user", Dir 493);
        ("/home/user/.onenote_rag", Dir 448);
        ("/home/user/.onenote_rag/refresh_token", File 384 "old-cached-token")].

Definition home_world : world := posix_world home_fs test_env test_idp.

Definition expired_world : world := posix_world home_fs test_env expired_idp.

(** A workstation on its first run. *)
Definition fresh_fs : gmap path node :=
  mkfs [("/", Dir 493); ("/home", Dir 493); ("/home/user", Dir 493)].

Definition fresh_world : world := posix_world fresh_fs test_env test_idp.

(** A workstation whose configuration directory exists, world-readable
    (mode [0o755]), without a credential in it. *)
Definition shared_dir_fs : gmap path node :=
  mkfs [("/", Dir 493); ("/home", Dir 493); ("/home/user", Dir 493);
        ("/home/user/.onenote_rag", Dir 493)].

Definition shared_dir_world : world := posix_world shared_dir_fs test_env test_idp.

(** A workstation with nothing configured. *)
Definition bare_world : world := posix_world fresh_fs ∅ test_idp.

Definition home_token_path : path :=
  ["/"; "home"; "user"; ".onenote_rag"; "refresh_token"].

Definition test_app : msal_app :=
  MsalApp "test-client-id" "https://login.microsoftonline.com/common".

(** The instances [OneNoteAuth()] builds in these worlds. *)
Definition docker_auth : OneNoteAuth :=
  Build_OneNoteAuth true "test-client-id" "common" ["Notes.Read"] docker_path
                    test_app (Some "old-cached-token").

Definition docker_auth_unprovisioned : OneNoteAuth :=
  Build_OneNoteAuth true "test-client-id" "common" ["Notes.Read"] docker_path
                    test_app None.

Definition home_auth : OneNoteAuth :=
  Build_OneNoteAuth false "test-client-id" "common" ["Notes.Read"] home_token_path
                    test_app (Some "old-cached-token").

Definition fresh_auth : OneNoteAuth :=
  Build_OneNoteAuth false "test-client-id" "common" ["Notes.Read"] home_token_path
                    test_app None.

(** [OneNoteAuth(token_path="/home/user")]: the location is a directory. *)
Definition dir_auth : OneNoteAuth :=
  Build_OneNoteAuth false "test-client-id" "common" ["Notes.Read"] ["/"; "home"; "user"]
                    test_app None.



(** The world a constructor call leaves behind. *)
Definition constructed (w : world) : world := (__init__ None None w).2.

(** ** Further vocabulary *)

(** How [get_access_token] reaches the device flow from world [w]: at once
    when no credential is cached, or from [w0] after a silent renewal that
    answered without an access credential. *)
Definition device_entry (self : OneNoteAuth) (w w0 : world) : Prop :=
  (truthy_value (refresh_token self) = None /\ w0 = w)
  \/ (exists rt, truthy_value (refresh_token self) = Some rt
                 /\ refresh_reply (idp w) (calls w) rt (scope self) !! "access_token" = None
                 /\ w0 = after_silent_failure self rt w).

(** A computation that leaves the environment alone and, in the file
    system, every node that exists other than the one at [p]. *)
Definition keeps {A} (p : path) (m : M A) : Prop :=
  forall w, environ (m w).2 = environ w
            /\ forall q n, q <> p -> fs w !! q = Some n -> fs (m w).2 !! q = Some n.

(** A computation that leaves the environment alone and every node that
    exists in the file system: it can only add nodes. *)
Definition grows {A} (m : M A) : Prop :=
  forall w, environ (m w).2 = environ w
            /\ forall q n, fs w !! q = Some n -> fs (m w).2 !! q = Some n.

Definition is_os_error (e : exn) : bool :=
  match e with
  | Exn (FileNotFoundError | FileExistsError | IsADirectoryError
         | NotADirectoryError | PermissionError) (AtPath _) => true
  | _ => false
  end.

(** A computation whose only exceptions are [OSError]s about a path. *)
Definition os_errors_only {A} (m : M A) : Prop :=
  forall w e w', m w = (Raise e, w') -> is_os_error e = true.

(** The mode [os.mkdir] gives a directory it creates. *)
Definition default_dir_mode (w : world) : Z := Z.land 511 (Z.lnot (umask w)).


(** The container of [docker_world] when the provider no longer accepts
    the cached credential. *)
Definition docker_expired_world : world := posix_world docker_fs test_env expired_idp.

(** A provider that issues an empty refresh credential. *)
Definition empty_refresh_idp : provider :=
  scripted (reply_tokens "new-access-token-xyz" "") reply_flow
           (reply_tokens "device-flow-access-token" "").

Definition empty_refresh_world : world := posix_world home_fs test_env empty_refresh_idp.

(** A [.env] file that sets the client identifier, and a workstation where
    [MS_CLIENT_ID] is exported empty. *)
Definition dotenv_world (env : gmap string string) : world :=
  World fresh_fs env "posix" 18 "/home/user" true
        (Some [("MS_CLIENT_ID", "client-from-dotenv"); ("OTHER", "x")]) test_idp [] [].

Definition empty_id_env : gmap string string := <["MS_CLIENT_ID" := ""]> ∅.

(** Provider scripts for the failure paths of the device flow. *)
Definition no_code_idp : provider := scripted reply_invalid_grant reply_invalid_grant ∅.

Definition denied_idp : provider :=
  scripted reply_invalid_grant reply_flow
           (<["error" := "authorization_declined"]>
              (<["error_description" := "The user declined"]> ∅)).

Definition no_uri_idp : provider :=
  scripted reply_invalid_grant (<["user_code" := "ABCD-EFGH"]> ∅) ∅.

Definition access_only_idp : provider :=
  scripted (<["access_token" := "new-access-token-xyz"]> ∅) reply_flow
           (<["access_token" := "device-flow-access-token"]> ∅).

(** A workstation whose token location lies two missing directories deep. *)
Definition deep_auth : OneNoteAuth :=
  Build_OneNoteAuth false "test-client-id" "common" ["Notes.Read"]
                    ["/"; "home"; "user"; "a"; "b"; "token"] test_app None.

(** ** Vocabulary for the command line *)

(** A computation of the command line that never raises [SystemExit],
    prints nothing on the error stream, and only adds to the output and to
    the requests sent. *)
Definition orderly {A} (m : N A) : Prop :=
  forall s,
    stderr (m s).2 = stderr s
    /\ (exists ls : list cli_line, console (m s).2 = (console s ++ ls)%list)
    /\ (exists rs : list request, sent (m s).2 = (sent s ++ rs)%list)
    /\ forall r, (m s).1 = Failed r -> is_Exception r = true.

(** The first two statements of the [try] block of [main] (lines 188-190):
    the instance and its access credential. *)
Definition acquire (a : args) : M (OneNoteAuth * string) :=
  auth <- __init__ (arg_token_path a) (arg_client_id a) ;;
  token <- get_access_token auth ;;
  ret (auth, token).

(** The output of one notebook (line 204) and the API test of [main]
    (lines 200-204). *)
Definition print_notebook (nb : json) : N unit :=
  (name <- py_getitem nb "displayName" ;;
   id <- py_getitem nb "id" ;;
   out (Notebook name id))%cli.

Definition list_notebooks (auth : OneNoteAuth) (token : string) : N unit :=
  (notebooks_data <- get_notebooks auth (Some token) ;;
   notebooks <- py_get notebooks_data "value" (JList []) ;;
   n <- py_len notebooks ;;
   out (Retrieved n) ;;
   items <- py_iter notebooks ;;
   for_each items print_notebook)%cli.

(** What the listing raises at an item that has no name or no identifier:
    a dict lacks a key, anything else cannot be subscripted by a string. *)
Definition item_error (nb : json) : raised :=
  match nb with
  | JDict d =>
      match assoc "displayName" d with
      | None => Std (Exn KeyError (Msg "displayName"))
      | Some _ => Std (Exn KeyError (Msg "id"))
      end
  | _ => TypeError "subscript"
  end.

(** The request [get_notebooks] sends for a token. *)
Definition notebooks_request (token : string) : request :=
  Request notebooks_url ("Bearer " ++ token).

(** The request and what becomes of the answer (lines 164-169). *)
Definition answer (s : session) (token : string) : result json :=
  match server s (sent s) (notebooks_request token) with
  | inl msg => Failed (RequestException msg)
  | inr resp =>
      if (400 <=? status_code resp) && (status_code resp <? 600)
      then Failed (HTTPError (status_code resp))
      else match resp_body resp with
           | Some j => Done j
           | None => Failed JSONDecodeError
           end
  end.

(** What [main] prints between the token and the API call (lines 191-199). *)
Definition banner (token : string) (p : path) : list cli_line :=
  [Out (nl ++ rule); Out "ACCESS TOKEN OBTAINED"; Out rule;
   TokenPreview (first10 token) (last10 token); TokenSavedTo p;
   Out (rule ++ nl); Out "Testing OneNote API call..."].

(** The line of a notebook that has a name and an identifier. *)
Definition notebook_line (nb : json) : option cli_line :=
  match nb with
  | JDict d =>
      match assoc "displayName" d, assoc "id" d with
      | Some name, Some id => Some (Notebook name id)
      | _, _ => None
      end
  | _ => None
  end.

(** The lines of a list of such notebooks. *)
Fixpoint listing (items : list json) : option (list cli_line) :=
  match items with
  | [] => Some []
  | nb :: r =>
      match notebook_line nb, listing r with
      | Some l, Some ls => Some (l :: ls)
      | _, _ => None
      end
  end.

(** The session once the token is obtained in world [w] and announced. *)
Definition announced (auth : OneNoteAuth) (token : string) (w : world) (s : session) : session :=
  Session w (server s) (sent s) (console s ++ banner token (token_path auth)) (stderr s).

(** The same after the one request and the lines [ls] of the listing. *)
Definition listed (auth : OneNoteAuth) (token : string) (w : world) (ls : list cli_line)
    (s : session) : session :=
  Session w (server s) (sent s ++ [notebooks_request token])
          (console s ++ banner token (token_path auth) ++ ls) (stderr s).

(** The [value] of a body, with the default of line 201. *)
Definition value_of (d : list (string * json)) : json :=
  match assoc "value" d with
  | Some v => v
  | None => JList []
  end.

(** A session at the start of the process. *)
Definition start (w : world) (srv : list request -> request -> string + response) : session :=
  Session w srv [] [] [].

Definition notebook (name id : string) : json :=
  JDict [("id", JStr id); ("displayName", JStr name)].

Definition two_notebooks : json :=
  JDict [("@odata.context", JStr "https://graph.microsoft.com/v1.0/$metadata");
         ("value", JList [notebook "Work" "1-abc"; notebook "Home" "2-def"])].

(** Servers that answer every request the same way. *)
Definition ok_server (body : json) : list request -> request -> string + response :=
  fun _ _ => inr (Response 200 (Some body)).

Definition status_server (status : Z) : list request -> request -> string + response :=
  fun _ _ => inr (Response status (Some (JDict []))).

Definition no_args : args := Args None None.

(** A provider whose access credential is six characters long. *)
Definition short_idp : provider :=
  scripted (reply_tokens "abc123" "new-refresh-token-abc") reply_flow
           (reply_tokens "abc123" "device-flow-refresh-token").

Definition short_world : world := posix_world home_fs test_env short_idp.

(** A body whose second notebook has no name. *)
Definition nameless_second : json :=
  JDict [("value", JList [notebook "Work" "1-abc"; JDict [("id", JStr "2-def")];
                          notebook "Home" "3-ghi"])].

(** * Properties *)

(** ** Dicts and truthiness *)

Lemma has_key_true (k : string) (d : dict) (v : string) :
  d !! k = Some v -> has_key k d = true.
Proof. intros H. unfold has_key. apply bool_decide_eq_true. by exists v. Qed.

Lemma has_key_false (k : string) (d : dict) :
  d !! k = None -> has_key k d = false.
Proof.
  intros H. unfold has_key. apply bool_decide_eq_false.
  rewrite H. by intros [? ?].
Qed.

Lemma truthy_value_some (s : string) : s <> "" -> truthy_value (Some s) = Some s.
Proof. by destruct s. Qed.

Lemma truthy_value_inv (o : option string) (s : string) :
  truthy_value o = Some s -> o = Some s /\ s <> "".
Proof. destruct o as [[|c r]|]; simpl; intros [= <-]; split; congruence. Qed.

(** ** Identity resolver *)

Lemma get_client_id_explicit (ic : bool) (c : string) (w : world) :
  c <> "" -> _get_client_id ic (Some c) w = (Ok c, w).
Proof. intros Hc. unfold _get_client_id. by rewrite (truthy_value_some c Hc). Qed.

Lemma get_client_id_environ (ic : bool) (explicit : option string) (c : string) (w : world) :
  truthy_value explicit = None ->
  truthy_value (environ w !! "MS_CLIENT_ID") = Some c ->
  _get_client_id ic explicit w = (Ok c, record (Getenv "MS_CLIENT_ID") w).
Proof.
  intros He Hv. unfold _get_client_id. rewrite He.
  unfold bind, getenv. by rewrite Hv.
Qed.

(** In a container the resolver stops after the environment variable. *)
Lemma get_client_id_container (explicit : option string) (w : world) :
  truthy_value explicit = None ->
  truthy_value (environ w !! "MS_CLIENT_ID") = None ->
  _get_client_id true explicit w
  = (Raise (Exn ValueError (Msg client_id_guidance)), record (Getenv "MS_CLIENT_ID") w).
Proof.
  intros He Hv. unfold _get_client_id. rewrite He.
  unfold bind, getenv. by rewrite Hv.
Qed.

(** Outside a container without [dotenv]: the import fails, nothing is
    loaded. *)
Lemma get_client_id_no_dotenv (explicit : option string) (w : world) :
  truthy_value explicit = None ->
  truthy_value (environ w !! "MS_CLIENT_ID") = None ->
  dotenv_installed w = false ->
  _get_client_id false explicit w
  = (Raise (Exn ValueError (Msg client_id_guidance)), record (Getenv "MS_CLIENT_ID") w).
Proof.
  intros He Hv Hd. unfold _get_client_id. rewrite He.
  unfold bind, getenv, try_except_class, import_dotenv. rewrite Hv. simpl.
  by rewrite Hd.
Qed.

Lemma get_client_id_dotenv (explicit : option string) (w : world) :
  truthy_value explicit = None ->
  truthy_value (environ w !! "MS_CLIENT_ID") = None ->
  dotenv_installed w = true ->
  _get_client_id false explicit w
  = (match truthy_value (dotenv_environ w !! "MS_CLIENT_ID") with
     | Some c => Ok c
     | None => Raise (Exn ValueError (Msg client_id_guidance))
     end, after_dotenv w).
Proof.
  intros He Hv Hd. unfold _get_client_id. rewrite He.
  unfold bind, getenv, try_except_class, import_dotenv, load_dotenv. rewrite Hv. simpl.
  rewrite Hd. simpl.
  change (dotenv_environ (record (Getenv "MS_CLIENT_ID") w)) with (dotenv_environ w).
  by destruct (truthy_value (dotenv_environ w !! "MS_CLIENT_ID")).
Qed.

Lemma get_client_id_unresolvable (ic : bool) (explicit : option string) (w : world) :
  unresolvable ic explicit w ->
  (_get_client_id ic explicit w).1 = Raise (Exn ValueError (Msg client_id_guidance))
  /\ exists evs : list event, calls (_get_client_id ic explicit w).2 = (calls w ++ evs)%list
                 /\ Forall (fun ev => is_network ev = false) evs.
Proof.
  intros (He & Hv & Hd). destruct ic.
  - rewrite get_client_id_container by done. split; [done|].
    exists [Getenv "MS_CLIENT_ID"]. split; [done|]. by repeat constructor.
  - destruct (dotenv_installed w) eqn:Hi.
    + destruct Hd as [Hd|[Hd|Hd]]; try discriminate.
      rewrite get_client_id_dotenv by done. rewrite Hd. split; [done|].
      exists [Getenv "MS_CLIENT_ID"; LoadDotenv; Getenv "MS_CLIENT_ID"].
      split; [|by repeat constructor].
      simpl. by rewrite <- !app_assoc.
    + rewrite get_client_id_no_dotenv by done. split; [done|].
      exists [Getenv "MS_CLIENT_ID"]. split; [done|]. by repeat constructor.
Qed.

Lemma guidance_names_the_options :
  contains "MS_CLIENT_ID must be set. Options:" client_id_guidance
  && contains "1. Pass as argument" client_id_guidance
  && contains "2. Set environment variable" client_id_guidance
  && contains "3. Create .env file" client_id_guidance = true.
Proof. vm_compute. reflexivity. Qed.

(** C5: the resolver follows the precedence order.  A non-empty explicit
    identifier is returned and the world is left as it was (neither the
    environment variable nor the [.env] file is looked at); failing that, a
    non-empty [MS_CLIENT_ID] is returned; the [.env] file is loaded only
    outside a container, and what it sets is then returned; when every
    source fails a [ValueError] is raised whose message lists the three
    options. *)
Theorem get_client_id_precedence (ic : bool) (explicit : option string) (w : world) :
  (forall c, explicit = Some c -> c <> "" ->
     _get_client_id ic explicit w = (Ok c, w))
  /\ (truthy_value explicit = None ->
      forall c, environ w !! "MS_CLIENT_ID" = Some c -> c <> "" ->
        _get_client_id ic explicit w = (Ok c, record (Getenv "MS_CLIENT_ID") w))
  /\ (In LoadDotenv (calls (_get_client_id ic explicit w).2) ->
      ~ In LoadDotenv (calls w) -> ic = false)
  /\ (truthy_value explicit = None ->
      truthy_value (environ w !! "MS_CLIENT_ID") = None ->
      ic = false -> dotenv_installed w = true ->
      forall c, truthy_value (dotenv_environ w !! "MS_CLIENT_ID") = Some c ->
        (_get_client_id ic explicit w).1 = Ok c)
  /\ (unresolvable ic explicit w ->
      (_get_client_id ic explicit w).1 = Raise (Exn ValueError (Msg client_id_guidance)))
  /\ contains "1. Pass as argument" client_id_guidance
     && contains "2. Set environment variable" client_id_guidance
     && contains "3. Create .env file" client_id_guidance = true.
Proof.
  repeat split.
  - intros c -> Hc. by apply get_client_id_explicit.
  - intros He c Hv Hc. apply get_client_id_environ; [done|].
    rewrite Hv. by apply truthy_value_some.
  - intros Hin Hnot. destruct ic; [|done]. exfalso. apply Hnot.
    destruct (truthy_value explicit) as [c|] eqn:He.
    + apply truthy_value_inv in He as [-> Hc].
      by rewrite get_client_id_explicit in Hin.
    + destruct (truthy_value (environ w !! "MS_CLIENT_ID")) as [c|] eqn:Hv.
      * rewrite (get_client_id_environ _ _ c) in Hin by done. simpl in Hin.
        apply in_app_or in Hin as [Hin|[Hin|[]]]; [done|discriminate].
      * rewrite get_client_id_container in Hin by done. simpl in Hin.
        apply in_app_or in Hin as [Hin|[Hin|[]]]; [done|discriminate].
  - intros He Hv -> Hd c Hc. rewrite get_client_id_dotenv by done. by rewrite Hc.
  - intros Hu. by apply get_client_id_unresolvable.
Qed.

(** ** The model on small inputs *)

Example Path_secret : Path "/run/secrets/ms_refresh_token" = ["/"; "run"; "secrets"; "ms_refresh_token"].
Proof. reflexivity. Qed.

Example Path_normalises : Path "a//b/./c/" = ["a"; "b"; "c"].
Proof. reflexivity. Qed.

Example parent_of_name : parent (Path "token") = [].
Proof. reflexivity. Qed.

Example parent_of_root : parent (Path "/") = ["/"].
Proof. reflexivity. Qed.

Example strip_both_ends : strip ("  ab c" ++ nl) = "ab c".
Proof. reflexivity. Qed.

Example universal_newlines_crlf :
  universal_newlines (String "a" (String CR (String LF (String CR "b"))))
  = String "a" (String LF (String LF "b")).
Proof. reflexivity. Qed.

(** [test_init_resolves_token_path_home], [test_load_refresh_token_missing_file] *)
Example init_fresh : (__init__ None None fresh_world).1 = Ok fresh_auth.
Proof. vm_compute. reflexivity. Qed.

(** [test_init_resolves_token_path_docker] *)
Example init_docker : (__init__ None None docker_world).1 = Ok docker_auth.
Proof. vm_compute. reflexivity. Qed.

(** [test_token_saved_with_correct_permissions] *)
Example save_mode :
  fs (_save_refresh_token fresh_auth "dummy_token_content" fresh_world).2
    !! token_path fresh_auth
  = Some (File 384 "dummy_token_content").
Proof. vm_compute. reflexivity. Qed.

(** [test_silent_token_refresh_success] *)
Example silent_refresh :
  (get_access_token home_auth home_world).1 = Ok "new-access-token-xyz".
Proof. vm_compute. reflexivity. Qed.

(** [test_silent_refresh_falls_back_to_device_flow] *)
Example fall_back :
  (get_access_token home_auth expired_world).1 = Ok "device-flow-access-token".
Proof. vm_compute. reflexivity. Qed.

(** Scenario E: no user code, no polling. *)
Example no_user_code :
  let w := posix_world fresh_fs test_env (scripted ∅ reply_invalid_grant ∅) in
  (get_access_token fresh_auth w).1
  = Raise (Exn ValueError (MsgDict "Failed to create device flow: " reply_invalid_grant))
  /\ calls (get_access_token fresh_auth w).2 = [InitiateDeviceFlow ["Notes.Read"]].
Proof. split; vm_compute; reflexivity. Qed.

Lemma get_client_id_precedence_witness :
  _get_client_id true (Some "explicit-id") docker_world = (Ok "explicit-id", docker_world)
  /\ _get_client_id false None home_world
     = (Ok "test-client-id", record (Getenv "MS_CLIENT_ID") home_world)
  /\ (_get_client_id true None bare_world).1
     = Raise (Exn ValueError (Msg client_id_guidance)).
Proof.
  split; [|split].
  - apply (get_client_id_precedence true (Some "explicit-id") docker_world); [reflexivity|discriminate].
  - apply (get_client_id_precedence false None home_world); [reflexivity|reflexivity|discriminate].
  - apply (get_client_id_precedence true None bare_world).
    split; [reflexivity|]. split; [reflexivity|]. left; reflexivity.
Defined.

(** The first two statements of [__init__] are the container probe; the
    third is the resolver. *)
Lemma init_starts_with_resolver (tp explicit : option string) (w : world) (e : exn) (w' : world) :
  _get_client_id (detect_container w) explicit w = (Raise e, w') ->
  __init__ tp explicit w = (Raise e, w').
Proof.
  intros H. unfold __init__, bind, path_exists, detect_container in *.
  destruct (bool_decide (is_Some (fs w !! Path "/.dockerenv"))); simpl in *; by rewrite H.
Qed.

(** C6: when no source yields a client identifier, construction raises the
    [ValueError] whose message lists the options, and the only calls made
    before are reads of the environment: the MSAL client is never built and
    the identity provider never reached. *)
Theorem init_without_client_id (tp explicit : option string) (w : world) :
  unresolvable (detect_container w) explicit w ->
  (__init__ tp explicit w).1 = Raise (Exn ValueError (Msg client_id_guidance))
  /\ (exists evs : list event,
         calls (__init__ tp explicit w).2 = (calls w ++ evs)%list
         /\ Forall (fun ev => is_network ev = false) evs)
  /\ contains "Options:" client_id_guidance
     && contains "1. Pass as argument" client_id_guidance
     && contains "2. Set environment variable" client_id_guidance
     && contains "3. Create .env file" client_id_guidance = true.
Proof.
  intros Hu. apply get_client_id_unresolvable in Hu as [Hr Hc].
  destruct (_get_client_id (detect_container w) explicit w) as [r w'] eqn:E.
  simpl in Hr. subst r.
  rewrite (init_starts_with_resolver tp explicit w _ w' E).
  split; [done|]. split; [exact Hc|]. vm_compute. reflexivity.
Qed.

Lemma init_without_client_id_witness :
  unresolvable (detect_container bare_world) None bare_world
  /\ (__init__ None None bare_world).1 = Raise (Exn ValueError (Msg client_id_guidance)).
Proof.
  assert (H : unresolvable (detect_container bare_world) None bare_world).
  { split; [reflexivity|]. split; [reflexivity|]. right; left; reflexivity. }
  split; [exact H|]. apply (init_without_client_id None None bare_world H).
Defined.

(** ** Storage location *)

Lemma secret_mount_paths :
  docker_path = ["/"; "run"; "secrets"; "ms_refresh_token"]
  /\ parent docker_path = ["/"; "run"; "secrets"].
Proof. split; reflexivity. Qed.

Lemma joinpath_name (p : path) (s : string) :
  anchor_of s = [] -> joinpath p s = (p ++ Path s)%list.
Proof. intros H. unfold joinpath. by rewrite H. Qed.

Lemma resolve_secret_mount (override : option string) (w : world) :
  truthy_value override = None ->
  is_Some (fs w !! ["/"; "run"; "secrets"]) ->
  _resolve_token_path override w = (Ok ["/"; "run"; "secrets"; "ms_refresh_token"], w).
Proof.
  intros Ho Hs. unfold _resolve_token_path, bind, path_exists. rewrite Ho.
  change (parent docker_path) with ["/"; "run"; "secrets"].
  by rewrite bool_decide_eq_true_2.
Qed.

Lemma resolve_home (override : option string) (w : world) :
  truthy_value override = None ->
  fs w !! ["/"; "run"; "secrets"] = None ->
  _resolve_token_path override w
  = (Ok (Path (home w) ++ [".onenote_rag"; "refresh_token"])%list, w).
Proof.
  intros Ho Hs. unfold _resolve_token_path, bind, path_exists, Path_home. rewrite Ho.
  change (parent docker_path) with ["/"; "run"; "secrets"].
  rewrite bool_decide_eq_false_2 by (rewrite Hs; by intros [? ?]).
  simpl. rewrite !joinpath_name by reflexivity.
  by rewrite <- app_assoc.
Qed.

(** C7, as stated, fails for an override that is given but empty: it is
    treated as no override, and the probe decides. *)
Lemma resolve_token_path_empty_override :
  _resolve_token_path (Some "") docker_world = (Ok docker_path, docker_world)
  /\ docker_path <> Path "".
Proof. split; [reflexivity|discriminate]. Qed.

(** C7 (amended): the location is a function of the override, of whether
    [/run/secrets] exists and of the home directory.  A non-empty override
    is returned as a path; without one, [/run/secrets/ms_refresh_token] is
    returned when [/run/secrets] exists, whatever lies under the home
    directory, and [~/.onenote_rag/refresh_token] otherwise. *)
Theorem resolve_token_path_cases (override : option string) (w : world) :
  (forall s, override = Some s -> s <> "" ->
     _resolve_token_path override w = (Ok (Path s), w))
  /\ (truthy_value override = None ->
      is_Some (fs w !! ["/"; "run"; "secrets"]) ->
      _resolve_token_path override w = (Ok ["/"; "run"; "secrets"; "ms_refresh_token"], w))
  /\ (truthy_value override = None ->
      fs w !! ["/"; "run"; "secrets"] = None ->
      _resolve_token_path override w
      = (Ok (Path (home w) ++ [".onenote_rag"; "refresh_token"])%list, w))
  /\ (forall w2,
        (is_Some (fs w !! ["/"; "run"; "secrets"]) <-> is_Some (fs w2 !! ["/"; "run"; "secrets"])) ->
        home w = home w2 ->
        (_resolve_token_path override w).1 = (_resolve_token_path override w2).1).
Proof.
  split; [|split; [|split]].
  - intros s -> Hs. unfold _resolve_token_path. by rewrite truthy_value_some.
  - apply resolve_secret_mount.
  - apply resolve_home.
  - intros w2 Hiff Hhome.
    destruct (truthy_value override) as [s|] eqn:Ho.
    + unfold _resolve_token_path. by rewrite Ho.
    + destruct (decide (is_Some (fs w !! ["/"; "run"; "secrets"]))) as [Hw|Hw].
      * rewrite (resolve_secret_mount _ w Ho Hw).
        by rewrite (resolve_secret_mount _ w2 Ho (proj1 Hiff Hw)).
      * assert (Hw2 : ~ is_Some (fs w2 !! ["/"; "run"; "secrets"])) by (by rewrite <- Hiff).
        apply eq_None_not_Some in Hw, Hw2.
        rewrite (resolve_home _ w Ho Hw), (resolve_home _ w2 Ho Hw2). by rewrite Hhome.
Qed.

Lemma resolve_token_path_cases_witness :
  _resolve_token_path (Some "/tmp/token") docker_world = (Ok ["/"; "tmp"; "token"], docker_world)
  /\ _resolve_token_path None docker_world = (Ok docker_path, docker_world)
  /\ _resolve_token_path None fresh_world = (Ok home_token_path, fresh_world).
Proof.
  split; [|split].
  - destruct (resolve_token_path_cases (Some "/tmp/token") docker_world) as (H & _).
    apply (H "/tmp/token"); [reflexivity|discriminate].
  - destruct (resolve_token_path_cases None docker_world) as (_ & H & _).
    apply H; [reflexivity|]. vm_compute. eexists. reflexivity.
  - destruct (resolve_token_path_cases None fresh_world) as (_ & _ & H & _).
    apply H; [reflexivity|]. vm_compute. reflexivity.
Defined.

(** ** Quiet computations *)

Lemma quiet_ret {A} (a : A) : quiet (ret a).
Proof. by intros w. Qed.

Lemma quiet_raise {A} (e : exn) : quiet (@raise A e).
Proof. by intros w. Qed.

Lemma quiet_print (l : line) : quiet (print l).
Proof. by intros w. Qed.

Lemma quiet_bind {A B} (m : M A) (k : A -> M B) :
  quiet m -> (forall a, quiet (k a)) -> quiet (bind m k).
Proof.
  intros Hm Hk w. unfold bind. specialize (Hm w).
  destruct (m w) as [[a|e] w1]; simpl in *; [|done].
  destruct (Hk a w1) as (-> & -> & -> & ->). done.
Qed.

Lemma quiet_try_except {A} (body : M A) (handler : exn -> M A) :
  quiet body -> (forall e, quiet (handler e)) -> quiet (try_except body handler).
Proof.
  intros Hm Hk w. unfold try_except. specialize (Hm w).
  destruct (body w) as [[a|e] w1]; simpl in *; [done|].
  destruct (Hk e w1) as (-> & -> & -> & ->). done.
Qed.

Lemma quiet_if {A} (b : bool) (m1 m2 : M A) :
  quiet m1 -> quiet m2 -> quiet (if b then m1 else m2).
Proof. by destruct b. Qed.

Ltac quiet_prim :=
  let w := fresh "w" in
  intros w; cbv beta delta [path_exists is_dir os_mkdir chmod read_text write_text
                            get_os_name oserror raise];
  repeat case_match; done.

Lemma quiet_path_exists (p : path) : quiet (path_exists p).
Proof. quiet_prim. Qed.

Lemma quiet_is_dir (p : path) : quiet (is_dir p).
Proof. quiet_prim. Qed.

Lemma quiet_os_mkdir (p : path) : quiet (os_mkdir p).
Proof. quiet_prim. Qed.

Lemma quiet_chmod (p : path) (mode : Z) : quiet (chmod p mode).
Proof. quiet_prim. Qed.

Lemma quiet_read_text (p : path) : quiet (read_text p).
Proof. quiet_prim. Qed.

Lemma quiet_write_text (p : path) (s : string) : quiet (write_text p s).
Proof. quiet_prim. Qed.

Lemma quiet_get_os_name : quiet get_os_name.
Proof. quiet_prim. Qed.

Create HintDb quiet.
#[local] Hint Resolve quiet_ret quiet_raise quiet_print quiet_path_exists quiet_is_dir
  quiet_os_mkdir quiet_chmod quiet_read_text quiet_write_text quiet_get_os_name : quiet.

Ltac quiet_step :=
  first [ apply quiet_bind; [|intros ?]
        | apply quiet_try_except; [|intros ?]
        | apply quiet_if
        | solve [auto with quiet]
        | match goal with |- quiet (if ?b then _ else _) => destruct b end
        | match goal with |- quiet (match ?x with _ => _ end) => destruct x end ].

Lemma quiet_mkdir_exist_ok (p : path) : quiet (mkdir_exist_ok p).
Proof. unfold mkdir_exist_ok. repeat quiet_step. Qed.

Lemma quiet_mkdir_parents_rev (rp : list string) : quiet (mkdir_parents_rev rp).
Proof.
  induction rp as [|c rest IH]; simpl.
  - repeat quiet_step.
  - apply quiet_try_except; [auto with quiet|]. intros e.
    repeat case_decide; repeat quiet_step.
Qed.

Lemma quiet_ensure_token_dir (self : OneNoteAuth) : quiet (_ensure_token_dir self).
Proof.
  unfold _ensure_token_dir, mkdir_parents.
  apply quiet_bind; [auto with quiet|]. intros e. destruct e; simpl; [auto with quiet|].
  apply quiet_bind; [apply quiet_mkdir_parents_rev|]. intros _.
  repeat quiet_step.
Qed.

Lemma quiet_save_refresh_token (self : OneNoteAuth) (token : string) :
  quiet (_save_refresh_token self token).
Proof.
  unfold _save_refresh_token, save_body.
  apply quiet_try_except; [|intros e; repeat quiet_step].
  apply quiet_bind; [apply quiet_ensure_token_dir|]. intros _.
  repeat quiet_step.
Qed.

Lemma quiet_load_refresh_token (self : OneNoteAuth) : quiet (_load_refresh_token self).
Proof. unfold _load_refresh_token. repeat quiet_step. Qed.

(** ** Inversion of the monad *)

Lemma bind_ok_inv {A B} (m : M A) (k : A -> M B) (w : world) (b : B) (w' : world) :
  bind m k w = (Ok b, w') ->
  exists a w1, m w = (Ok a, w1) /\ k a w1 = (Ok b, w').
Proof.
  unfold bind. destruct (m w) as [[a|e] w1]; [|discriminate].
  intros H. by exists a, w1.
Qed.

Lemma bind_ok {A B} (m : M A) (k : A -> M B) (w : world) (a : A) (w1 : world) :
  m w = (Ok a, w1) -> bind m k w = k a w1.
Proof. intros H. unfold bind. by rewrite H. Qed.

Lemma bind_raise {A B} (m : M A) (k : A -> M B) (w : world) (e : exn) (w1 : world) :
  m w = (Raise e, w1) -> bind m k w = (Raise e, w1).
Proof. intros H. unfold bind. by rewrite H. Qed.

(** A handler that returns makes the whole [try] return. *)
Lemma try_except_total {A} (body : M A) (handler : exn -> M A) (w : world) :
  (forall e w1, exists a w2, handler e w1 = (Ok a, w2)) ->
  exists a w', try_except body handler w = (Ok a, w').
Proof.
  intros Hh. unfold try_except. destruct (body w) as [[a|e] w1].
  - by exists a, w1.
  - apply Hh.
Qed.

(** ** File-system primitives *)

Lemma write_text_ok (p : path) (s : string) (w w' : world) :
  write_text p s w = (Ok tt, w') ->
  (exists m, fs w' = <[p := File m s]> (fs w))
  /\ (forall m, fs w !! p <> Some (Dir m)).
Proof.
  unfold write_text, oserror, raise. intros H.
  repeat case_match; simplify_eq; simpl; split; eauto; congruence.
Qed.

Lemma chmod_ok (p : path) (mode : Z) (w w' : world) :
  chmod p mode w = (Ok tt, w') ->
  exists n, fs w !! p = Some n /\ fs w' = <[p := set_mode mode n]> (fs w).
Proof.
  unfold chmod, oserror, raise. intros H.
  case_match; simplify_eq; simpl; eauto.
Qed.

Lemma os_mkdir_ok (p : path) (w w' : world) :
  os_mkdir p w = (Ok tt, w') -> exists m, fs w' !! p = Some (Dir m).
Proof.
  unfold os_mkdir, oserror, raise. intros H.
  repeat case_match; simplify_eq; simpl.
  eexists. apply lookup_insert_eq.
Qed.

Lemma is_dir_true (p : path) (w w' : world) :
  is_dir p w = (Ok true, w') -> w' = w /\ exists m, fs w !! p = Some (Dir m).
Proof.
  unfold is_dir. intros H. repeat case_match; simplify_eq; eauto.
Qed.

(** What is left to do when [os.mkdir] has raised: re-raise, or accept an
    existing directory. *)
Lemma accept_existing_dir_ok (p : path) (e : exn) (w w' : world) :
  (d <- is_dir p ;; if d then ret tt else raise e) w = (Ok tt, w') ->
  exists m, fs w' !! p = Some (Dir m).
Proof.
  intros H. apply bind_ok_inv in H as (d & w1 & Hd & H).
  destruct d; [|discriminate].
  apply is_dir_true in Hd as [-> Hm]. by injection H as <-.
Qed.

Lemma mkdir_exist_ok_ok (p : path) (w w' : world) :
  mkdir_exist_ok p w = (Ok tt, w') -> exists m, fs w' !! p = Some (Dir m).
Proof.
  unfold mkdir_exist_ok, try_except. intros H.
  destruct (os_mkdir p w) as [[[]|e] w1] eqn:E.
  - injection H as <-. by apply os_mkdir_ok in E.
  - case_decide; [discriminate|]. by apply accept_existing_dir_ok in H.
Qed.

Lemma mkdir_parents_rev_eq (rp : list string) :
  mkdir_parents_rev rp
  = try_except (os_mkdir (rev rp))
      (fun e =>
         if decide (class_of e = FileNotFoundError) then
           if decide (parent (rev rp) = rev rp) then raise e
           else match rp with
                | _ :: rest => mkdir_parents_rev rest ;; mkdir_exist_ok (rev rp)
                | [] => raise e
                end
         else d <- is_dir (rev rp) ;; if d then ret tt else raise e).
Proof. by destruct rp. Qed.

Lemma mkdir_parents_rev_ok (rp : list string) (w w' : world) :
  mkdir_parents_rev rp w = (Ok tt, w') -> exists m, fs w' !! rev rp = Some (Dir m).
Proof.
  rewrite mkdir_parents_rev_eq. unfold try_except. intros H.
  destruct (os_mkdir (rev rp) w) as [[[]|e] w1] eqn:E.
  - injection H as <-. by apply os_mkdir_ok in E.
  - repeat case_decide; try discriminate.
    + destruct rp as [|c rest]; [discriminate|].
      apply bind_ok_inv in H as ([] & w2 & _ & H). by apply mkdir_exist_ok_ok in H.
    + by apply accept_existing_dir_ok in H.
Qed.

Lemma mkdir_parents_ok (p : path) (w w' : world) :
  mkdir_parents p w = (Ok tt, w') -> exists m, fs w' !! p = Some (Dir m).
Proof.
  unfold mkdir_parents. intros H. apply mkdir_parents_rev_ok in H.
  by rewrite rev_involutive in H.
Qed.

(** ** Credential store *)

Lemma not_nt (w : world) : os_name w <> "nt" -> String.eqb (os_name w) "nt" = false.
Proof. intros H. by apply String.eqb_neq. Qed.

Lemma ensure_token_dir_ok (self : OneNoteAuth) (w w1 : world) :
  _ensure_token_dir self w = (Ok tt, w1) ->
  (is_Some (fs w !! parent (token_path self)) -> w1 = w)
  /\ (fs w !! parent (token_path self) = None -> os_name w <> "nt" ->
      fs w1 !! parent (token_path self) = Some (Dir 448)).
Proof.
  unfold _ensure_token_dir. intros H.
  apply bind_ok_inv in H as (e & w0 & He & H).
  unfold path_exists in He. injection He as <- <-.
  case_bool_decide as Hex; simpl in H.
  - split; [intros _; by injection H|].
    intros Hn. rewrite Hn in Hex. by destruct Hex.
  - split; [done|]. intros _ Hnt.
    apply bind_ok_inv in H as ([] & w2 & Hmk & H).
    apply bind_ok_inv in H as (name & w3 & Hname & H).
    unfold get_os_name in Hname. injection Hname as <- <-.
    destruct (quiet_mkdir_parents_rev (rev (parent (token_path self))) w) as (_ & Hos & _).
    unfold mkdir_parents in Hmk. rewrite Hmk in Hos. simpl in Hos.
    rewrite Hos, (not_nt w Hnt) in H. simpl in H.
    apply mkdir_parents_rev_ok in Hmk as [m Hm]. rewrite rev_involutive in Hm.
    apply chmod_ok in H as (n & Hn & ->). rewrite Hm in Hn. injection Hn as <-.
    apply lookup_insert_eq.
Qed.

Lemma save_ok_inv (self : OneNoteAuth) (token : string) (w w' : world) :
  _save_refresh_token self token w = (Ok tt, w') ->
  exists w1 w2 w3,
    _ensure_token_dir self w = (Ok tt, w1)
    /\ write_text (token_path self) token w1 = (Ok tt, w2)
    /\ (if String.eqb (os_name w) "nt" then w3 = w2
        else chmod (token_path self) 384 w2 = (Ok tt, w3))
    /\ w' = emit (SavedTo (token_path self)) w3.
Proof.
  unfold _save_refresh_token, try_except. intros H.
  destruct (save_body self token w) as [[[]|e] w0] eqn:E.
  2:{ unfold bind, print, raise in H. discriminate. }
  injection H as <-. unfold save_body in E.
  apply bind_ok_inv in E as ([] & w1 & H1 & E).
  apply bind_ok_inv in E as ([] & w2 & H2 & E).
  apply bind_ok_inv in E as (name & w2' & Hname & E).
  unfold get_os_name in Hname. injection Hname as <- <-.
  apply bind_ok_inv in E as ([] & w3 & H3 & E).
  unfold print in E. injection E as <-.
  exists w1, w2, w3. repeat split; try done.
  destruct (quiet_ensure_token_dir self w) as (_ & Hos1 & _).
  destruct (quiet_write_text (token_path self) token w1) as (_ & Hos2 & _).
  rewrite H1 in Hos1. rewrite H2 in Hos2. simpl in *. rewrite <- Hos1, <- Hos2.
  destruct (String.eqb (os_name w2) "nt"); simpl in H3; [by injection H3|done].
Qed.

Lemma save_stores (self : OneNoteAuth) (token : string) (w w' : world) :
  _save_refresh_token self token w = (Ok tt, w') ->
  exists m, fs w' !! token_path self = Some (File m token)
            /\ (os_name w <> "nt" -> m = 384).
Proof.
  intros H. apply save_ok_inv in H as (w1 & w2 & w3 & _ & Hw & Hc & ->). simpl.
  apply write_text_ok in Hw as [[m Hw] _].
  destruct (String.eqb (os_name w) "nt") eqn:Hnt.
  - subst w3. exists m. rewrite Hw, lookup_insert_eq. split; [done|].
    intros Hne. apply not_nt in Hne. congruence.
  - apply chmod_ok in Hc as (n & Hn & ->). rewrite Hw, lookup_insert_eq in Hn.
    injection Hn as <-. exists 384. by rewrite lookup_insert_eq.
Qed.

Lemma load_file (self : OneNoteAuth) (w : world) (m : Z) (c : string) :
  fs w !! token_path self = Some (File m c) ->
  has_bits m S_IRUSR = true ->
  _load_refresh_token self w = (Ok (loaded c), emit (LoadedFrom (token_path self)) w).
Proof.
  intros Hf Hm. unfold _load_refresh_token, try_except, bind, path_exists.
  rewrite bool_decide_eq_true_2 by (by rewrite Hf).
  unfold read_text. rewrite Hf, Hm. done.
Qed.

Lemma load_missing (self : OneNoteAuth) (w : world) :
  fs w !! token_path self = None -> _load_refresh_token self w = (Ok None, w).
Proof.
  intros Hf. unfold _load_refresh_token, try_except, bind, path_exists.
  rewrite bool_decide_eq_false_2; [done|]. rewrite Hf. by intros [? ?].
Qed.

Lemma load_read_failure (self : OneNoteAuth) (w w1 : world) (e : exn) :
  is_Some (fs w !! token_path self) ->
  read_text (token_path self) w = (Raise e, w1) ->
  _load_refresh_token self w = (Ok None, emit (CouldNotLoad (token_path self) e) w1).
Proof.
  intros Hf Hr. unfold _load_refresh_token, try_except, bind, path_exists.
  rewrite bool_decide_eq_true_2 by done. by rewrite Hr.
Qed.

Lemma load_total (self : OneNoteAuth) (w : world) :
  exists v w', _load_refresh_token self w = (Ok v, w').
Proof.
  unfold _load_refresh_token. apply try_except_total.
  intros e w1. by eexists _, _.
Qed.

Lemma save_reraises (self : OneNoteAuth) (token : string) (w w1 : world) (e : exn) :
  save_body self token w = (Raise e, w1) ->
  _save_refresh_token self token w
  = (Raise e, emit (ErrorSaving (token_path self) e) w1).
Proof. intros H. unfold _save_refresh_token, try_except. by rewrite H. Qed.

Lemma save_raise_inv (self : OneNoteAuth) (token : string) (w w' : world) (e : exn) :
  _save_refresh_token self token w = (Raise e, w') ->
  exists w1, save_body self token w = (Raise e, w1)
             /\ w' = emit (ErrorSaving (token_path self) e) w1.
Proof.
  unfold _save_refresh_token, try_except.
  destruct (save_body self token w) as [[[]|e0] w0]; [discriminate|].
  unfold bind, print, raise. intros [= <- <-]. by exists w0.
Qed.

(** ** Trimming *)

Lemma universal_newlines_no_cr (s : string) :
  has_char CR s = false -> universal_newlines s = s.
Proof.
  induction s as [|c r IH]; [done|]. simpl. intros H.
  apply orb_false_iff in H as [Hc Hr]. rewrite Hc. by rewrite IH.
Qed.

Lemma lstrip_first (s : string) : not_space (first_char s) = true -> lstrip s = s.
Proof. destruct s as [|c r]; simpl; [done|]. by destruct (is_space c). Qed.

Lemma rstrip_last (s : string) : not_space (last_char s) = true -> rstrip s = s.
Proof.
  induction s as [|c r IH]; [done|]. destruct r as [|c2 r2].
  - simpl. by destruct (is_space c).
  - intros H. change (last_char (String c (String c2 r2))) with (last_char (String c2 r2)) in H.
    specialize (IH H). change (rstrip (String c (String c2 r2)))
      with (match rstrip (String c2 r2) with
            | EmptyString => if is_space c then EmptyString else String c EmptyString
            | r' => String c r'
            end).
    by rewrite IH.
Qed.

Lemma loaded_clean (s : string) : is_clean s = true -> loaded s = Some s.
Proof.
  unfold is_clean, loaded, strip. intros H.
  apply andb_true_iff in H as [H Hcr]. apply andb_true_iff in H as [Hf Hl].
  apply negb_true_iff in Hcr.
  rewrite universal_newlines_no_cr, lstrip_first, rstrip_last by done.
  destruct s; [discriminate|done].
Qed.

(** On a platform other than Windows a returned save leaves the credential
    in a file of mode [0o600], which a load then reads back. *)
Lemma save_load_roundtrip (self : OneNoteAuth) (token : string) (w w1 : world) :
  os_name w <> "nt" ->
  _save_refresh_token self token w = (Ok tt, w1) ->
  fs w1 !! token_path self = Some (File 384 token)
  /\ _load_refresh_token self w1
     = (Ok (loaded token), emit (LoadedFrom (token_path self)) w1).
Proof.
  intros Hnt Hsave. apply save_stores in Hsave as (m & Hf & Hm).
  rewrite (Hm Hnt) in Hf. split; [done|].
  by apply (load_file self w1 384 token).
Qed.

(** What a load returns is absent or a non-empty string: an instance holds a
    cached credential exactly when [refresh_token] is [Some] of one. *)
Lemma load_result_truthy (self : OneNoteAuth) (w w' : world) (v : option string) :
  _load_refresh_token self w = (Ok v, w') -> truthy_value v = v.
Proof.
  destruct (fs w !! token_path self) as [[m c|m]|] eqn:Hf.
  - destruct (has_bits m S_IRUSR) eqn:Hm.
    + rewrite (load_file self w m c Hf Hm). intros [= <- _].
      unfold loaded. simpl. by destruct (strip (universal_newlines c)).
    + rewrite (load_read_failure self w w (Exn PermissionError (AtPath (token_path self)))).
      * by intros [= <- _].
      * by rewrite Hf.
      * unfold read_text. by rewrite Hf, Hm.
  - rewrite (load_read_failure self w w (Exn IsADirectoryError (AtPath (token_path self)))).
    + by intros [= <- _].
    + by rewrite Hf.
    + unfold read_text. by rewrite Hf.
  - rewrite (load_missing self w Hf). by intros [= <- _].
Qed.

(** ** What a save leaves of the credential file where no mode is set *)

Lemma os_mkdir_other (p q : path) (w : world) :
  q <> p -> fs (os_mkdir p w).2 !! q = fs w !! q.
Proof.
  intros Hne. unfold os_mkdir, oserror, raise.
  repeat case_match; simpl; try done. by rewrite lookup_insert_ne.
Qed.

Lemma mkdir_exist_ok_other (p q : path) (w : world) :
  q <> p -> fs (mkdir_exist_ok p w).2 !! q = fs w !! q.
Proof.
  intros Hne. unfold mkdir_exist_ok, try_except.
  pose proof (os_mkdir_other p q w Hne) as Ho.
  destruct (os_mkdir p w) as [[[]|e] w1]; simpl in *; [done|].
  case_decide; [done|]. unfold bind, is_dir. simpl. by case_match.
Qed.

Lemma mkdir_parents_rev_longer (rp : list string) (q : path) (w : world) :
  (length rp < length q)%nat ->
  fs (mkdir_parents_rev rp w).2 !! q = fs w !! q.
Proof.
  revert w. induction rp as [|c rest IH]; intros w Hlen.
  - rewrite mkdir_parents_rev_eq. unfold try_except.
    assert (Hne : q <> rev []) by (intros ->; simpl in Hlen; lia).
    pose proof (os_mkdir_other (rev []) q w Hne) as Ho.
    destruct (os_mkdir (rev []) w) as [[[]|e] w1]; simpl in *; [done|].
    repeat case_decide; try done. unfold bind, is_dir. simpl. by case_match.
  - rewrite mkdir_parents_rev_eq. unfold try_except.
    assert (Hne : q <> rev (c :: rest)).
    { intros ->. rewrite length_rev in Hlen. lia. }
    simpl in Hlen. set (p := rev (c :: rest)) in *.
    pose proof (os_mkdir_other p q w Hne) as Ho.
    destruct (os_mkdir p w) as [[[]|e] w1]; simpl in Ho |- *; [done|].
    repeat case_decide; try done.
    + unfold bind. specialize (IH w1).
      destruct (mkdir_parents_rev rest w1) as [[[]|e2] w2]; simpl in IH.
      * rewrite (mkdir_exist_ok_other p q w2 Hne), IH by lia. done.
      * simpl. rewrite IH by lia. done.
    + unfold bind, is_dir. simpl. by case_match.
Qed.






Lemma run_ok {A} (m : M A) (w : world) (a : A) :
  (m w).1 = Ok a -> m w = (Ok a, (m w).2).
Proof. destruct (m w) as [r w1]. simpl. by intros ->. Qed.

Lemma run_raise {A} (m : M A) (w : world) (e : exn) :
  (m w).1 = Raise e -> m w = (Raise e, (m w).2).
Proof. destruct (m w) as [r w1]. simpl. by intros ->. Qed.




(** C9: [load] never raises.  It returns absent when the location does not
    exist, when the file is empty once stripped, and when the read fails
    (the failure is printed); whereas a failure inside [save] is printed and
    the same exception raised again. *)
Theorem load_recovers_save_reraises (self : OneNoteAuth) (w : world) :
  (exists v w', _load_refresh_token self w = (Ok v, w'))
  /\ (fs w !! token_path self = None ->
      _load_refresh_token self w = (Ok None, w))
  /\ (forall m c, fs w !! token_path self = Some (File m c) ->
        has_bits m S_IRUSR = true ->
        strip (universal_newlines c) = "" ->
        _load_refresh_token self w = (Ok None, emit (LoadedFrom (token_path self)) w))
  /\ (forall e w1, is_Some (fs w !! token_path self) ->
        read_text (token_path self) w = (Raise e, w1) ->
        _load_refresh_token self w
        = (Ok None, emit (CouldNotLoad (token_path self) e) w1))
  /\ (forall token e w1, save_body self token w = (Raise e, w1) ->
        _save_refresh_token self token w
        = (Raise e, emit (ErrorSaving (token_path self) e) w1))
  /\ (forall token e w', _save_refresh_token self token w = (Raise e, w') ->
        last (stdout w') = Some (ErrorSaving (token_path self) e)).
Proof.
  split; [apply load_total|]. split; [apply load_missing|].
  split; [|split; [|split]].
  - intros m c Hf Hm Hs. rewrite (load_file self w m c Hf Hm).
    unfold loaded. by rewrite Hs.
  - intros e w1. apply load_read_failure.
  - intros token e w1. apply save_reraises.
  - intros token e w' H. apply save_raise_inv in H as (w1 & _ & ->).
    simpl. apply last_snoc.
Qed.

Lemma load_recovers_save_reraises_witness :
  _load_refresh_token fresh_auth fresh_world = (Ok None, fresh_world)
  /\ _load_refresh_token dir_auth fresh_world
     = (Ok None,
        emit (CouldNotLoad ["/"; "home"; "user"]
                (Exn IsADirectoryError (AtPath ["/"; "home"; "user"]))) fresh_world)
  /\ last (stdout (_save_refresh_token docker_auth "new-refresh-token-abc" docker_world).2)
     = Some (ErrorSaving docker_path (Exn PermissionError (AtPath docker_path))).
Proof.
  split; [|split].
  - destruct (load_recovers_save_reraises fresh_auth fresh_world) as (_ & H & _).
    apply H. vm_compute. reflexivity.
  - destruct (load_recovers_save_reraises dir_auth fresh_world) as (_ & _ & _ & H & _).
    apply H; [vm_compute; eexists; reflexivity|]. vm_compute. reflexivity.
  - destruct (load_recovers_save_reraises docker_auth docker_world) as (_ & _ & _ & _ & _ & H).
    apply (H "new-refresh-token-abc"). apply run_raise. vm_compute. reflexivity.
Defined.

(** C10, as stated, fails: a directory that is already there keeps its
    mode. *)
Lemma save_keeps_existing_directory_mode :
  (__init__ None None shared_dir_world).1 = Ok fresh_auth
  /\ fs_wf (fs shared_dir_world) = true
  /\ os_name shared_dir_world <> "nt"
  /\ fs shared_dir_world !! parent (token_path fresh_auth) = Some (Dir 493)
  /\ (_save_refresh_token fresh_auth "device-flow-refresh-token" shared_dir_world).1 = Ok tt
  /\ fs (_save_refresh_token fresh_auth "device-flow-refresh-token" shared_dir_world).2
       !! parent (token_path fresh_auth)
     = Some (Dir 493).
Proof. repeat split; try (vm_compute; reflexivity). discriminate. Qed.

(** C10 (amended): on a platform other than Windows, once [save] has
    returned, a parent directory that did not exist before has been created
    with mode [0o700]; one that existed keeps the mode it had. *)
Theorem save_parent_directory_mode (self : OneNoteAuth) (token : string) (w w' : world) :
  os_name w <> "nt" ->
  _save_refresh_token self token w = (Ok tt, w') ->
  (fs w !! parent (token_path self) = None ->
   fs w' !! parent (token_path self) = Some (Dir 448))
  /\ (forall m, fs w !! parent (token_path self) = Some (Dir m) ->
      fs w' !! parent (token_path self) = Some (Dir m)).
Proof.
  intros Hnt H. apply save_ok_inv in H as (w1 & w2 & w3 & He & Hw & Hc & ->).
  rewrite (not_nt w Hnt) in Hc. simpl.
  apply ensure_token_dir_ok in He as [Hkeep Hmk].
  apply write_text_ok in Hw as [[m0 Hw] Hnd].
  apply chmod_ok in Hc as (n & _ & ->).
  assert (Hframe : forall m, fs w1 !! parent (token_path self) = Some (Dir m) ->
            <[token_path self := set_mode 384 n]> (fs w2) !! parent (token_path self)
            = Some (Dir m)).
  { intros m Hp.
    assert (Hne : token_path self <> parent (token_path self)).
    { intros Heq. rewrite <- Heq in Hp. by apply Hnd in Hp. }
    by rewrite lookup_insert_ne, Hw, lookup_insert_ne. }
  split.
  - intros Hn. apply Hframe. by apply Hmk.
  - intros m Hp. apply Hframe. rewrite Hkeep; [done|]. by rewrite Hp.
Qed.

Lemma save_parent_directory_mode_witness :
  os_name fresh_world <> "nt"
  /\ fs fresh_world !! parent (token_path fresh_auth) = None
  /\ (_save_refresh_token fresh_auth "device-flow-refresh-token" fresh_world).1 = Ok tt
  /\ fs (_save_refresh_token fresh_auth "device-flow-refresh-token" fresh_world).2
       !! parent (token_path fresh_auth)
     = Some (Dir 448).
Proof.
  assert (Hnt : os_name fresh_world <> "nt") by discriminate.
  assert (Hn : fs fresh_world !! parent (token_path fresh_auth) = None)
    by (vm_compute; reflexivity).
  assert (Hs : (_save_refresh_token fresh_auth "device-flow-refresh-token" fresh_world).1
               = Ok tt) by (vm_compute; reflexivity).
  split; [exact Hnt|]. split; [exact Hn|]. split; [exact Hs|].
  destruct (save_parent_directory_mode fresh_auth "device-flow-refresh-token" fresh_world _
              Hnt (run_ok _ _ _ Hs)) as (H & _).
  exact (H Hn).
Defined.

(** ** Token lifecycle *)

Lemma bind_print {B} (l : line) (k : unit -> M B) (w : world) :
  bind (print l) k w = k tt (emit l w).
Proof. reflexivity. Qed.

Lemma bind_ret {A B} (a : A) (k : A -> M B) (w : world) : bind (ret a) k w = k a w.
Proof. reflexivity. Qed.

Lemma getitem_some (d : dict) (k v : string) : d !! k = Some v -> getitem d k = ret v.
Proof. intros H. unfold getitem. by rewrite H. Qed.

Lemma getitem_none (d : dict) (k : string) :
  d !! k = None -> getitem d k = raise (Exn KeyError (Msg k)).
Proof. intros H. unfold getitem. by rewrite H. Qed.

(** What both success branches do with the reply they got: save the
    refresh credential if there is one, then return the access credential. *)
Lemma persist_and_return (self : OneNoteAuth) (reply : dict) (a : string) (w : world) :
  reply !! "access_token" = Some a ->
  ((if has_key "refresh_token" reply
    then r <- getitem reply "refresh_token" ;; _save_refresh_token self r
    else ret tt) ;;
   getitem reply "access_token") w
  = match reply !! "refresh_token" with
    | Some r => (_save_refresh_token self r ;; ret a) w
    | None => (Ok a, w)
    end.
Proof.
  intros Ha. rewrite (getitem_some _ _ _ Ha).
  destruct (reply !! "refresh_token") as [r|] eqn:Hr.
  - by rewrite (has_key_true _ _ _ Hr), (getitem_some _ _ _ Hr).
  - by rewrite (has_key_false _ _ Hr).
Qed.

Lemma device_code_flow_no_code (self : OneNoteAuth) (w : world) :
  flow_of self w !! "user_code" = None ->
  device_code_flow self w
  = (Raise (Exn ValueError (MsgDict "Failed to create device flow: " (flow_of self w))),
     record (InitiateDeviceFlow (scope self)) w).
Proof.
  intros Hcode. unfold device_code_flow.
  rewrite (bind_ok _ _ w (flow_of self w) (record (InitiateDeviceFlow (scope self)) w))
    by reflexivity.
  by rewrite (has_key_false _ _ Hcode).
Qed.

Lemma device_code_flow_no_uri (self : OneNoteAuth) (w : world) (code : string) :
  flow_of self w !! "user_code" = Some code ->
  flow_of self w !! "verification_uri" = None ->
  device_code_flow self w
  = (Raise (Exn KeyError (Msg "verification_uri")),
     emit (Text rule)
       (emit (Text "MICROSOFT AUTHENTICATION REQUIRED")
          (emit (Text (nl ++ rule)) (record (InitiateDeviceFlow (scope self)) w)))).
Proof.
  intros Hcode Huri. unfold device_code_flow.
  rewrite (bind_ok _ _ w (flow_of self w) (record (InitiateDeviceFlow (scope self)) w))
    by reflexivity.
  rewrite (has_key_true _ _ _ Hcode). cbn [negb].
  by rewrite (getitem_none _ _ Huri).
Qed.

(** From the initiation to the provider's answer to the completion. *)
Lemma device_code_flow_reply (self : OneNoteAuth) (w : world) (uri code : string) :
  flow_of self w !! "user_code" = Some code ->
  flow_of self w !! "verification_uri" = Some uri ->
  device_code_flow self w
  = (if has_key "access_token" (grant_of self w) then
       print (Text "Authentication successful!") ;;
       (if has_key "refresh_token" (grant_of self w) then
          r <- getitem (grant_of self w) "refresh_token" ;;
          _save_refresh_token self r
        else ret tt) ;;
       getitem (grant_of self w) "access_token"
     else
       raise (Exn Exception_
                (Msg ("Authentication failed: "
                      ++ dict_get (grant_of self w) "error_description"
                           (dict_get (grant_of self w) "error" "Unknown error")))))
      (after_device_reply self uri code w).
Proof.
  intros Hcode Huri. unfold device_code_flow.
  rewrite (bind_ok _ _ w (flow_of self w) (record (InitiateDeviceFlow (scope self)) w))
    by reflexivity.
  rewrite (has_key_true _ _ _ Hcode). cbn [negb].
  rewrite (getitem_some _ _ _ Hcode), (getitem_some _ _ _ Huri).
  repeat (rewrite bind_print || rewrite bind_ret).
  by erewrite (bind_ok _ _ _ (grant_of self w)) by reflexivity.
Qed.

Lemma device_code_flow_denied (self : OneNoteAuth) (w : world) (uri code : string) :
  flow_of self w !! "user_code" = Some code ->
  flow_of self w !! "verification_uri" = Some uri ->
  grant_of self w !! "access_token" = None ->
  device_code_flow self w
  = (Raise (Exn Exception_
              (Msg ("Authentication failed: "
                    ++ dict_get (grant_of self w) "error_description"
                         (dict_get (grant_of self w) "error" "Unknown error")))),
     after_device_reply self uri code w).
Proof.
  intros Hcode Huri Ha. rewrite (device_code_flow_reply self w uri code Hcode Huri).
  by rewrite (has_key_false _ _ Ha).
Qed.

Lemma device_code_flow_grant (self : OneNoteAuth) (w : world) (uri code a : string) :
  flow_of self w !! "user_code" = Some code ->
  flow_of self w !! "verification_uri" = Some uri ->
  grant_of self w !! "access_token" = Some a ->
  device_code_flow self w
  = match grant_of self w !! "refresh_token" with
    | Some r => (_save_refresh_token self r ;; ret a) (after_device_grant self uri code w)
    | None => (Ok a, after_device_grant self uri code w)
    end.
Proof.
  intros Hcode Huri Ha. rewrite (device_code_flow_reply self w uri code Hcode Huri).
  rewrite (has_key_true _ _ _ Ha), bind_print.
  by rewrite (persist_and_return self _ a _ Ha).
Qed.

Lemma silent_success (self : OneNoteAuth) (w : world) (rt a : string) :
  truthy_value (refresh_token self) = Some rt ->
  refresh_reply (idp w) (calls w) rt (scope self) !! "access_token" = Some a ->
  get_access_token self w
  = match refresh_reply (idp w) (calls w) rt (scope self) !! "refresh_token" with
    | Some r => (_save_refresh_token self r ;; ret a) (after_silent_success self rt w)
    | None => (Ok a, after_silent_success self rt w)
    end.
Proof.
  intros Hrt Ha. unfold get_access_token. rewrite Hrt, bind_print.
  erewrite (bind_ok _ _ _ (refresh_reply (idp w) (calls w) rt (scope self))) by reflexivity.
  rewrite (has_key_true _ _ _ Ha), bind_print.
  by rewrite (persist_and_return self _ a _ Ha).
Qed.

Lemma silent_failure (self : OneNoteAuth) (w : world) (rt : string) :
  truthy_value (refresh_token self) = Some rt ->
  refresh_reply (idp w) (calls w) rt (scope self) !! "access_token" = None ->
  get_access_token self w = device_code_flow self (after_silent_failure self rt w).
Proof.
  intros Hrt Ha. unfold get_access_token. rewrite Hrt, bind_print.
  erewrite (bind_ok _ _ _ (refresh_reply (idp w) (calls w) rt (scope self))) by reflexivity.
  by rewrite (has_key_false _ _ Ha).
Qed.

Lemma no_cached_credential (self : OneNoteAuth) (w : world) :
  truthy_value (refresh_token self) = None ->
  get_access_token self w = device_code_flow self w.
Proof. intros Hrt. unfold get_access_token. by rewrite Hrt. Qed.

(** Saving and returning makes no call. *)
Lemma save_ret_calls (self : OneNoteAuth) (r a : string) (w : world) :
  calls ((_save_refresh_token self r ;; ret a) w).2 = calls w.
Proof.
  apply (quiet_bind _ (fun _ => ret a)); [apply quiet_save_refresh_token|].
  intros _. apply quiet_ret.
Qed.

Lemma save_ret_ok (self : OneNoteAuth) (r a : string) (w w' : world) :
  _save_refresh_token self r w = (Ok tt, w') ->
  (_save_refresh_token self r ;; ret a) w = (Ok a, w').
Proof. intros H. by rewrite (bind_ok _ _ _ _ _ H). Qed.

Lemma save_ret_raise (self : OneNoteAuth) (r a : string) (w w' : world) (e : exn) :
  _save_refresh_token self r w = (Raise e, w') ->
  (_save_refresh_token self r ;; ret a) w = (Raise e, w').
Proof. intros H. by rewrite (bind_raise _ _ _ _ _ H). Qed.

Lemma save_ret_ok_inv (self : OneNoteAuth) (r a b : string) (w w' : world) :
  (_save_refresh_token self r ;; ret a) w = (Ok b, w') ->
  b = a /\ _save_refresh_token self r w = (Ok tt, w').
Proof.
  intros H. apply bind_ok_inv in H as ([] & w1 & Hs & H).
  unfold ret in H. by injection H as <- <-.
Qed.

(** The calls of the device flow: the initiation always, the completion
    when the initiation answered with a user code and a verification URI. *)
Lemma device_code_flow_calls (self : OneNoteAuth) (w : world) :
  calls (device_code_flow self w).2
  = (calls w ++ InitiateDeviceFlow (scope self)
       :: match flow_of self w !! "user_code", flow_of self w !! "verification_uri" with
          | Some _, Some _ => [AcquireTokenByDeviceFlow (flow_of self w)]
          | _, _ => []
          end)%list.
Proof.
  destruct (flow_of self w !! "user_code") as [code|] eqn:Hcode.
  2:{ by rewrite (device_code_flow_no_code self w Hcode). }
  destruct (flow_of self w !! "verification_uri") as [uri|] eqn:Huri.
  2:{ by rewrite (device_code_flow_no_uri self w code Hcode Huri). }
  assert (Hc : calls (after_device_grant self uri code w)
               = (calls w ++ [InitiateDeviceFlow (scope self);
                              AcquireTokenByDeviceFlow (flow_of self w)])%list).
  { simpl. by rewrite <- app_assoc. }
  destruct (grant_of self w !! "access_token") as [a|] eqn:Ha.
  - rewrite (device_code_flow_grant self w uri code a Hcode Huri Ha).
    destruct (grant_of self w !! "refresh_token") as [r|]; [|done].
    by rewrite save_ret_calls.
  - by rewrite (device_code_flow_denied self w uri code Hcode Huri Ha).
Qed.

(** A device flow that returns has gone all the way. *)
Lemma device_code_flow_ok_inv (self : OneNoteAuth) (w w' : world) (a : string) :
  device_code_flow self w = (Ok a, w') ->
  exists uri code,
    flow_of self w !! "user_code" = Some code
    /\ flow_of self w !! "verification_uri" = Some uri
    /\ grant_of self w !! "access_token" = Some a
    /\ match grant_of self w !! "refresh_token" with
       | Some r => _save_refresh_token self r (after_device_grant self uri code w) = (Ok tt, w')
       | None => w' = after_device_grant self uri code w
       end.
Proof.
  intros H.
  destruct (flow_of self w !! "user_code") as [code|] eqn:Hcode.
  2:{ by rewrite (device_code_flow_no_code self w Hcode) in H. }
  destruct (flow_of self w !! "verification_uri") as [uri|] eqn:Huri.
  2:{ by rewrite (device_code_flow_no_uri self w code Hcode Huri) in H. }
  destruct (grant_of self w !! "access_token") as [a'|] eqn:Ha.
  2:{ by rewrite (device_code_flow_denied self w uri code Hcode Huri Ha) in H. }
  rewrite (device_code_flow_grant self w uri code a' Hcode Huri Ha) in H.
  exists uri, code. repeat split; try done.
  - destruct (grant_of self w !! "refresh_token") as [r|].
    + apply save_ret_ok_inv in H as [-> _]. done.
    + by injection H as <- _.
  - destruct (grant_of self w !! "refresh_token") as [r|].
    + by apply save_ret_ok_inv in H as [_ H].
    + by injection H as _ <-.
Qed.

(** C1, as stated, fails where the store cannot be written: in a container
    whose secret is mounted read-only, the silent renewal answers with both
    credentials and [get_access_token] raises the [PermissionError] of the
    save instead of returning. *)
Lemma silent_renewal_read_only_store :
  (__init__ None None docker_world).1 = Ok docker_auth
  /\ fs_wf (fs docker_world) = true
  /\ truthy_value (refresh_token docker_auth) = Some "old-cached-token"
  /\ refresh_reply (idp (constructed docker_world)) (calls (constructed docker_world))
       "old-cached-token" (scope docker_auth)
     = reply_tokens "new-access-token-xyz" "new-refresh-token-abc"
  /\ (get_access_token docker_auth (constructed docker_world)).1
     = Raise (Exn PermissionError (AtPath docker_path)).
Proof. repeat split; vm_compute; reflexivity. Qed.

(** C1 (amended): with a cached refresh credential and a silent renewal
    that answers with an access and a refresh credential, the only call is
    the refresh exchange (the device flow is never started) and the new
    refresh credential is handed to [save]; when that save returns,
    [get_access_token] returns the access credential and the file holds the
    new refresh credential; when it raises, the exception reaches the
    caller. *)
Theorem silent_renewal_success (self : OneNoteAuth) (w : world) (rt a r : string) :
  truthy_value (refresh_token self) = Some rt ->
  refresh_reply (idp w) (calls w) rt (scope self) !! "access_token" = Some a ->
  refresh_reply (idp w) (calls w) rt (scope self) !! "refresh_token" = Some r ->
  (forall w2, _save_refresh_token self r (after_silent_success self rt w) = (Ok tt, w2) ->
     get_access_token self w = (Ok a, w2)
     /\ exists m, fs w2 !! token_path self = Some (File m r))
  /\ (forall e w2, _save_refresh_token self r (after_silent_success self rt w) = (Raise e, w2) ->
        get_access_token self w = (Raise e, w2))
  /\ calls (get_access_token self w).2
     = (calls w ++ [AcquireTokenByRefreshToken rt (scope self)])%list.
Proof.
  intros Hrt Ha Hr. rewrite (silent_success self w rt a Hrt Ha), Hr.
  split; [|split].
  - intros w2 Hs. split; [by apply save_ret_ok|].
    apply save_stores in Hs as (m & Hm & _). by exists m.
  - intros e w2 Hs. by apply save_ret_raise.
  - by rewrite save_ret_calls.
Qed.

Lemma silent_renewal_success_witness :
  truthy_value (refresh_token home_auth) = Some "old-cached-token"
  /\ refresh_reply (idp home_world) (calls home_world) "old-cached-token" (scope home_auth)
     = reply_tokens "new-access-token-xyz" "new-refresh-token-abc"
  /\ (get_access_token home_auth home_world).1 = Ok "new-access-token-xyz"
  /\ calls (get_access_token home_auth home_world).2
     = [AcquireTokenByRefreshToken "old-cached-token" ["Notes.Read"]].
Proof.
  split; [reflexivity|]. split; [reflexivity|].
  destruct (silent_renewal_success home_auth home_world "old-cached-token"
              "new-access-token-xyz" "new-refresh-token-abc" eq_refl eq_refl eq_refl)
    as (Hok & _ & Hcalls).
  split; [|exact Hcalls].
  assert (Hs : (_save_refresh_token home_auth "new-refresh-token-abc"
                  (after_silent_success home_auth "old-cached-token" home_world)).1 = Ok tt)
    by (vm_compute; reflexivity).
  destruct (Hok _ (run_ok _ _ _ Hs)) as [H _]. exact (f_equal fst H).
Defined.

(** C2, as stated, fails where the store cannot be written: in a container
    with no credential provisioned the device flow completes with both
    credentials and [get_access_token] raises the [PermissionError] of the
    save instead of returning. *)
Lemma device_flow_read_only_store :
  (__init__ None None docker_world_unprovisioned).1 = Ok docker_auth_unprovisioned
  /\ fs_wf (fs docker_world_unprovisioned) = true
  /\ refresh_token docker_auth_unprovisioned = None
  /\ grant_of docker_auth_unprovisioned (constructed docker_world_unprovisioned)
     = reply_tokens "device-flow-access-token" "device-flow-refresh-token"
  /\ (get_access_token docker_auth_unprovisioned (constructed docker_world_unprovisioned)).1
     = Raise (Exn PermissionError (AtPath docker_path)).
Proof. repeat split; vm_compute; reflexivity. Qed.

(** C2 (amended): without a cached refresh credential the refresh exchange
    is never called: the calls are the initiation of the device flow and,
    when it answered with a user code and a verification URI, its
    completion.  When the completion answers with an access and a refresh
    credential, the refresh credential is handed to [save]; when that save
    returns, [get_access_token] returns the access credential and the file
    holds the refresh credential; when it raises, the exception reaches the
    caller. *)
Theorem device_flow_without_cache (self : OneNoteAuth) (w : world) :
  truthy_value (refresh_token self) = None ->
  (exists evs : list event,
      calls (get_access_token self w).2 = (calls w ++ InitiateDeviceFlow (scope self) :: evs)%list
      /\ Forall (fun ev => is_refresh_call ev = false) evs)
  /\ (forall uri code a r,
        flow_of self w !! "user_code" = Some code ->
        flow_of self w !! "verification_uri" = Some uri ->
        grant_of self w !! "access_token" = Some a ->
        grant_of self w !! "refresh_token" = Some r ->
        (forall w2, _save_refresh_token self r (after_device_grant self uri code w) = (Ok tt, w2) ->
           get_access_token self w = (Ok a, w2)
           /\ exists m, fs w2 !! token_path self = Some (File m r))
        /\ (forall e w2,
              _save_refresh_token self r (after_device_grant self uri code w) = (Raise e, w2) ->
              get_access_token self w = (Raise e, w2))
        /\ calls (get_access_token self w).2
           = (calls w ++ [InitiateDeviceFlow (scope self);
                          AcquireTokenByDeviceFlow (flow_of self w)])%list).
Proof.
  intros Hrt. rewrite (no_cached_credential self w Hrt). split.
  - rewrite device_code_flow_calls. eexists. split; [reflexivity|].
    repeat case_match; by repeat constructor.
  - intros uri code a r Hcode Huri Ha Hr.
    rewrite device_code_flow_calls, Hcode, Huri.
    rewrite (device_code_flow_grant self w uri code a Hcode Huri Ha), Hr.
    split; [|split; [|done]].
    + intros w2 Hs. split; [by apply save_ret_ok|].
      apply save_stores in Hs as (m & Hm & _). by exists m.
    + intros e w2 Hs. by apply save_ret_raise.
Qed.

Lemma device_flow_without_cache_witness :
  truthy_value (refresh_token fresh_auth) = None
  /\ grant_of fresh_auth fresh_world
     = reply_tokens "device-flow-access-token" "device-flow-refresh-token"
  /\ (get_access_token fresh_auth fresh_world).1 = Ok "device-flow-access-token"
  /\ fs (get_access_token fresh_auth fresh_world).2 !! token_path fresh_auth
     = Some (File 384 "device-flow-refresh-token")
  /\ calls (get_access_token fresh_auth fresh_world).2
     = [InitiateDeviceFlow ["Notes.Read"]; AcquireTokenByDeviceFlow reply_flow].
Proof.
  split; [reflexivity|]. split; [reflexivity|].
  destruct (device_flow_without_cache fresh_auth fresh_world eq_refl) as (_ & H).
  destruct (H "https://microsoft.com/devicelogin" "ABCD-EFGH"
              "device-flow-access-token" "device-flow-refresh-token"
              eq_refl eq_refl eq_refl eq_refl)
    as (Hok & _ & Hcalls).
  assert (Hs : (_save_refresh_token fresh_auth "device-flow-refresh-token"
                  (after_device_grant fresh_auth "https://microsoft.com/devicelogin"
                     "ABCD-EFGH" fresh_world)).1 = Ok tt)
    by (vm_compute; reflexivity).
  destruct (Hok _ (run_ok _ _ _ Hs)) as [Hg _].
  split; [exact (f_equal fst Hg)|]. split; [vm_compute; reflexivity|exact Hcalls].
Defined.

(** C3, as stated, fails where the store cannot be written: in a container
    whose secret is mounted read-only and whose cached credential the
    provider rejects, the device flow answers with an access credential and
    a refresh credential, and [get_access_token] raises the
    [PermissionError] of the save instead of returning the access
    credential. *)
Lemma silent_failure_read_only_store :
  (__init__ None None docker_expired_world).1 = Ok docker_auth
  /\ fs_wf (fs docker_expired_world) = true
  /\ truthy_value (refresh_token docker_auth) = Some "old-cached-token"
  /\ refresh_reply (idp (constructed docker_expired_world))
       (calls (constructed docker_expired_world)) "old-cached-token" (scope docker_auth)
     = reply_invalid_grant
  /\ grant_of docker_auth
       (after_silent_failure docker_auth "old-cached-token" (constructed docker_expired_world))
     = reply_tokens "device-flow-access-token" "device-flow-refresh-token"
  /\ (get_access_token docker_auth (constructed docker_expired_world)).1
     = Raise (Exn PermissionError (AtPath docker_path)).
Proof. repeat split; vm_compute; reflexivity. Qed.

(** C3 (amended): with a cached refresh credential and a silent renewal
    that answers without an access credential, nothing is raised at that
    point: the error description is printed and [get_access_token] goes on
    as the device flow.  The initiation is called next; the completion
    follows when the initiation answered with a user code and a
    verification URI; whenever the call returns, it returns the access
    credential of the completion's answer.  When that answer carries an
    access credential, the call returns it if the answer carries no refresh
    credential or the save of it returns; when that save raises, the
    exception reaches the caller. *)
Theorem silent_failure_falls_back (self : OneNoteAuth) (w : world) (rt : string) :
  truthy_value (refresh_token self) = Some rt ->
  refresh_reply (idp w) (calls w) rt (scope self) !! "access_token" = None ->
  get_access_token self w = device_code_flow self (after_silent_failure self rt w)
  /\ stdout (after_silent_failure self rt w)
     = (stdout w ++
        [Text "Attempting silent token refresh...";
         SilentRefreshFailed
           (dict_get (refresh_reply (idp w) (calls w) rt (scope self))
                     "error_description" "Unknown error");
         Text "   Falling back to device code flow..."])%list
  /\ (exists evs : list event,
         calls (get_access_token self w).2
         = (calls w ++ AcquireTokenByRefreshToken rt (scope self)
              :: InitiateDeviceFlow (scope self) :: evs)%list)
  /\ (forall uri code,
        flow_of self (after_silent_failure self rt w) !! "user_code" = Some code ->
        flow_of self (after_silent_failure self rt w) !! "verification_uri" = Some uri ->
        calls (get_access_token self w).2
        = (calls w ++
           [AcquireTokenByRefreshToken rt (scope self);
            InitiateDeviceFlow (scope self);
            AcquireTokenByDeviceFlow (flow_of self (after_silent_failure self rt w))])%list)
  /\ (forall a w', get_access_token self w = (Ok a, w') ->
        grant_of self (after_silent_failure self rt w) !! "access_token" = Some a)
  /\ (forall uri code a,
        flow_of self (after_silent_failure self rt w) !! "user_code" = Some code ->
        flow_of self (after_silent_failure self rt w) !! "verification_uri" = Some uri ->
        grant_of self (after_silent_failure self rt w) !! "access_token" = Some a ->
        (grant_of self (after_silent_failure self rt w) !! "refresh_token" = None ->
         get_access_token self w
         = (Ok a, after_device_grant self uri code (after_silent_failure self rt w)))
        /\ (forall r w2,
              grant_of self (after_silent_failure self rt w) !! "refresh_token" = Some r ->
              _save_refresh_token self r
                (after_device_grant self uri code (after_silent_failure self rt w))
              = (Ok tt, w2) ->
              get_access_token self w = (Ok a, w2))
        /\ (forall r e w2,
              grant_of self (after_silent_failure self rt w) !! "refresh_token" = Some r ->
              _save_refresh_token self r
                (after_device_grant self uri code (after_silent_failure self rt w))
              = (Raise e, w2) ->
              get_access_token self w = (Raise e, w2))).
Proof.
  intros Hrt Ha. rewrite (silent_failure self w rt Hrt Ha).
  set (w1 := after_silent_failure self rt w).
  assert (Hc1 : calls w1 = (calls w ++ [AcquireTokenByRefreshToken rt (scope self)])%list)
    by reflexivity.
  split; [done|]. split.
  { simpl. by rewrite <- !app_assoc. }
  split; [|split; [|split]].
  - rewrite device_code_flow_calls, Hc1, <- app_assoc. simpl. by eexists.
  - intros uri code Hcode Huri.
    rewrite device_code_flow_calls, Hcode, Huri, Hc1, <- app_assoc. done.
  - intros a w' H. by apply device_code_flow_ok_inv in H as (uri & code & _ & _ & H & _).
  - intros uri code a Hcode Huri Hg.
    rewrite (device_code_flow_grant self w1 uri code a Hcode Huri Hg).
    split; [|split].
    + by intros ->.
    + intros r w2 -> Hs. by apply save_ret_ok.
    + intros r e w2 -> Hs. by apply save_ret_raise.
Qed.

Lemma silent_failure_falls_back_witness :
  truthy_value (refresh_token home_auth) = Some "old-cached-token"
  /\ refresh_reply (idp expired_world) (calls expired_world) "old-cached-token"
       (scope home_auth) = reply_invalid_grant
  /\ (get_access_token home_auth expired_world).1 = Ok "device-flow-access-token"
  /\ calls (get_access_token home_auth expired_world).2
     = [AcquireTokenByRefreshToken "old-cached-token" ["Notes.Read"];
        InitiateDeviceFlow ["Notes.Read"];
        AcquireTokenByDeviceFlow reply_flow].
Proof.
  split; [reflexivity|]. split; [reflexivity|].
  destruct (silent_failure_falls_back home_auth expired_world "old-cached-token"
              eq_refl eq_refl)
    as (_ & _ & _ & Hcalls & _ & Hret).
  assert (Hcode : flow_of home_auth (after_silent_failure home_auth "old-cached-token"
                                       expired_world) !! "user_code" = Some "ABCD-EFGH")
    by (vm_compute; reflexivity).
  assert (Huri : flow_of home_auth (after_silent_failure home_auth "old-cached-token"
                                      expired_world) !! "verification_uri"
                 = Some "https://microsoft.com/devicelogin")
    by (vm_compute; reflexivity).
  assert (Ha : grant_of home_auth (after_silent_failure home_auth "old-cached-token"
                                     expired_world) !! "access_token"
               = Some "device-flow-access-token")
    by (vm_compute; reflexivity).
  assert (Hr : grant_of home_auth (after_silent_failure home_auth "old-cached-token"
                                     expired_world) !! "refresh_token"
               = Some "device-flow-refresh-token")
    by (vm_compute; reflexivity).
  assert (Hs : (_save_refresh_token home_auth "device-flow-refresh-token"
                  (after_device_grant home_auth "https://microsoft.com/devicelogin"
                     "ABCD-EFGH"
                     (after_silent_failure home_auth "old-cached-token" expired_world))).1
               = Ok tt) by (vm_compute; reflexivity).
  split.
  - destruct (Hret _ _ _ Hcode Huri Ha) as (_ & Hsave & _).
    exact (f_equal fst (Hsave _ _ Hr (run_ok _ _ _ Hs))).
  - exact (Hcalls _ _ Hcode Huri).
Defined.

(** What a returned save leaves in the store. *)
Lemma stored_after_save (self : OneNoteAuth) (r : string) (w w1 : world) :
  _save_refresh_token self r w = (Ok tt, w1) ->
  (exists m, fs w1 !! token_path self = Some (File m r))
  /\ (os_name w <> "nt" ->
      fs w1 !! token_path self = Some (File 384 r)
      /\ _load_refresh_token self w1
         = (Ok (loaded r), emit (LoadedFrom (token_path self)) w1)).
Proof.
  intros Hs. split.
  - apply save_stores in Hs as (m & Hm & _). by exists m.
  - intros Hnt. by apply save_load_roundtrip with w.
Qed.

Lemma device_code_flow_stores (self : OneNoteAuth) (w w1 : world) (a : string) :
  device_code_flow self w = (Ok a, w1) ->
  grant_of self w !! "access_token" = Some a
  /\ (forall r, grant_of self w !! "refresh_token" = Some r ->
        (exists m, fs w1 !! token_path self = Some (File m r))
        /\ (os_name w <> "nt" ->
            fs w1 !! token_path self = Some (File 384 r)
            /\ _load_refresh_token self w1
               = (Ok (loaded r), emit (LoadedFrom (token_path self)) w1))).
Proof.
  intros H. apply device_code_flow_ok_inv in H as (uri & code & _ & _ & Ha & Hs).
  split; [done|]. intros r Hr. rewrite Hr in Hs.
  by apply stored_after_save in Hs.
Qed.

(** The first call a [get_access_token] makes is decided by the instance
    alone. *)
Lemma first_call_with_credential (self : OneNoteAuth) (w : world) (rt : string) :
  truthy_value (refresh_token self) = Some rt ->
  exists evs : list event,
    calls (get_access_token self w).2
    = (calls w ++ AcquireTokenByRefreshToken rt (scope self) :: evs)%list.
Proof.
  intros Hrt.
  destruct (refresh_reply (idp w) (calls w) rt (scope self) !! "access_token") as [a|] eqn:Ha.
  - rewrite (silent_success self w rt a Hrt Ha). exists [].
    destruct (refresh_reply (idp w) (calls w) rt (scope self) !! "refresh_token"); [|done].
    by rewrite save_ret_calls.
  - rewrite (silent_failure self w rt Hrt Ha), device_code_flow_calls.
    eexists. simpl. by rewrite <- app_assoc.
Qed.

Lemma first_call_without_credential (self : OneNoteAuth) (w : world) :
  truthy_value (refresh_token self) = None ->
  exists evs : list event,
    calls (get_access_token self w).2
    = (calls w ++ InitiateDeviceFlow (scope self) :: evs)%list.
Proof.
  intros Hrt. rewrite (no_cached_credential self w Hrt), device_code_flow_calls.
  by eexists.
Qed.

(** C4, as stated, fails: [get_access_token] saves the credential the
    provider issued but never assigns [self.refresh_token].  On a
    workstation with a cached credential the first call stores the new one,
    and the second call on the same instance sends the old one again; on a
    first run the second call starts the device flow again. *)
Lemma second_call_uses_construction_credential :
  (__init__ None None home_world).1 = Ok home_auth
  /\ fs_wf (fs home_world) = true
  /\ (get_access_token home_auth (constructed home_world)).1 = Ok "new-access-token-xyz"
  /\ fs (get_access_token home_auth (constructed home_world)).2 !! token_path home_auth
     = Some (File 384 "new-refresh-token-abc")
  /\ calls (get_access_token home_auth
              (get_access_token home_auth (constructed home_world)).2).2
     = [Getenv "MS_CLIENT_ID";
        PublicClientApplication "test-client-id" "https://login.microsoftonline.com/common";
        AcquireTokenByRefreshToken "old-cached-token" ["Notes.Read"];
        AcquireTokenByRefreshToken "old-cached-token" ["Notes.Read"]]
  /\ (__init__ None None fresh_world).1 = Ok fresh_auth
  /\ fs (get_access_token fresh_auth (constructed fresh_world)).2 !! token_path fresh_auth
     = Some (File 384 "device-flow-refresh-token")
  /\ calls (get_access_token fresh_auth
              (get_access_token fresh_auth (constructed fresh_world)).2).2
     = [Getenv "MS_CLIENT_ID";
        PublicClientApplication "test-client-id" "https://login.microsoftonline.com/common";
        InitiateDeviceFlow ["Notes.Read"]; AcquireTokenByDeviceFlow reply_flow;
        InitiateDeviceFlow ["Notes.Read"]; AcquireTokenByDeviceFlow reply_flow].
Proof. repeat split; vm_compute; reflexivity. Qed.

(** C4 (amended): when [get_access_token] returns, the access credential is
    the one of the reply that granted it, and a refresh credential in that
    reply has been saved: the file holds exactly it.  On a platform other
    than Windows the file has mode [0o600] and a load from the store, as the
    next construction does, returns the credential stripped: the credential
    itself when it is not empty, has no white space at either end and no
    carriage return, and nothing when nothing is left of it.  The instance
    itself is not updated: any later call on it sends the refresh credential
    loaded at construction again, and starts the device flow again when
    none was loaded. *)
Theorem issued_credential_is_stored (self : OneNoteAuth) (w w1 : world) (a : string) :
  get_access_token self w = (Ok a, w1) ->
  granting_reply self w !! "access_token" = Some a
  /\ (forall r, granting_reply self w !! "refresh_token" = Some r ->
        (exists m, fs w1 !! token_path self = Some (File m r))
        /\ (os_name w <> "nt" ->
            fs w1 !! token_path self = Some (File 384 r)
            /\ _load_refresh_token self w1
               = (Ok (loaded r), emit (LoadedFrom (token_path self)) w1)
            /\ (is_clean r = true ->
                _load_refresh_token self w1
                = (Ok (Some r), emit (LoadedFrom (token_path self)) w1))
            /\ (strip (universal_newlines r) = "" ->
                _load_refresh_token self w1
                = (Ok None, emit (LoadedFrom (token_path self)) w1))))
  /\ (forall w2 rt, truthy_value (refresh_token self) = Some rt ->
        exists evs : list event,
          calls (get_access_token self w2).2
          = (calls w2 ++ AcquireTokenByRefreshToken rt (scope self) :: evs)%list)
  /\ (forall w2, truthy_value (refresh_token self) = None ->
        exists evs : list event,
          calls (get_access_token self w2).2
          = (calls w2 ++ InitiateDeviceFlow (scope self) :: evs)%list).
Proof.
  intros H.
  assert (Hstored : granting_reply self w !! "access_token" = Some a
            /\ (forall r, granting_reply self w !! "refresh_token" = Some r ->
                  (exists m, fs w1 !! token_path self = Some (File m r))
                  /\ (os_name w <> "nt" ->
                      fs w1 !! token_path self = Some (File 384 r)
                      /\ _load_refresh_token self w1
                         = (Ok (loaded r), emit (LoadedFrom (token_path self)) w1)))).
  { unfold granting_reply.
    destruct (truthy_value (refresh_token self)) as [rt|] eqn:Hrt.
    - cbv zeta.
      destruct (refresh_reply (idp w) (calls w) rt (scope self) !! "access_token")
        as [a'|] eqn:Ha.
      + rewrite (has_key_true _ _ _ Ha).
        rewrite (silent_success self w rt a' Hrt Ha) in H.
        destruct (refresh_reply (idp w) (calls w) rt (scope self) !! "refresh_token")
          as [r'|] eqn:Hr.
        * apply save_ret_ok_inv in H as [-> Hs]. split; [done|].
          intros r [= <-]. by apply stored_after_save in Hs.
        * injection H as <- <-. split; [done|]. by intros r.
      + rewrite (has_key_false _ _ Ha).
        rewrite (silent_failure self w rt Hrt Ha) in H.
        by apply device_code_flow_stores in H.
    - rewrite (no_cached_credential self w Hrt) in H.
      by apply device_code_flow_stores in H. }
  destruct Hstored as [Hacc Hst].
  split; [done|]. split; [|split].
  - intros r Hr. destruct (Hst r Hr) as [Hfile Hposix]. split; [done|].
    intros Hnt. destruct (Hposix Hnt) as [Hmode Hload].
    split; [done|]. split; [done|]. split.
    + intros Hc. by rewrite Hload, (loaded_clean r Hc).
    + intros He. rewrite Hload. unfold loaded. by rewrite He.
  - intros w2 rt Hrt. by apply first_call_with_credential.
  - intros w2 Hrt. by apply first_call_without_credential.
Qed.

Lemma issued_credential_is_stored_witness :
  (get_access_token home_auth home_world).1 = Ok "new-access-token-xyz"
  /\ granting_reply home_auth home_world !! "refresh_token" = Some "new-refresh-token-abc"
  /\ fs (get_access_token home_auth home_world).2 !! token_path home_auth
     = Some (File 384 "new-refresh-token-abc")
  /\ (_load_refresh_token home_auth (get_access_token home_auth home_world).2).1
     = Ok (Some "new-refresh-token-abc")
  /\ (exists evs : list event,
        calls (get_access_token home_auth (get_access_token home_auth home_world).2).2
        = (calls (get_access_token home_auth home_world).2
             ++ AcquireTokenByRefreshToken "old-cached-token" ["Notes.Read"] :: evs)%list)
  /\ (get_access_token home_auth empty_refresh_world).1 = Ok "new-access-token-xyz"
  /\ granting_reply home_auth empty_refresh_world !! "refresh_token" = Some ""
  /\ (_load_refresh_token home_auth (get_access_token home_auth empty_refresh_world).2).1
     = Ok None.
Proof.
  assert (Hg : (get_access_token home_auth home_world).1 = Ok "new-access-token-xyz")
    by (vm_compute; reflexivity).
  assert (Hr : granting_reply home_auth home_world !! "refresh_token"
               = Some "new-refresh-token-abc") by (vm_compute; reflexivity).
  assert (Hnt : os_name home_world <> "nt") by discriminate.
  assert (Hg' : (get_access_token home_auth empty_refresh_world).1 = Ok "new-access-token-xyz")
    by (vm_compute; reflexivity).
  assert (Hr' : granting_reply home_auth empty_refresh_world !! "refresh_token" = Some "")
    by (vm_compute; reflexivity).
  assert (Hnt' : os_name empty_refresh_world <> "nt") by discriminate.
  split; [exact Hg|]. split; [exact Hr|].
  destruct (issued_credential_is_stored home_auth home_world _ _ (run_ok _ _ _ Hg))
    as (_ & Hst & Hnext & _).
  destruct (Hst _ Hr) as (_ & Hposix).
  destruct (Hposix Hnt) as (Hmode & _ & Hclean & _).
  split; [exact Hmode|].
  split; [exact (f_equal fst (Hclean eq_refl))|].
  split; [apply (Hnext _ "old-cached-token"); reflexivity|].
  split; [exact Hg'|]. split; [exact Hr'|].
  destruct (issued_credential_is_stored home_auth empty_refresh_world _ _ (run_ok _ _ _ Hg'))
    as (_ & Hst' & _).
  destruct (Hst' _ Hr') as (_ & Hposix').
  destruct (Hposix' Hnt') as (_ & _ & _ & Hempty).
  exact (f_equal fst (Hempty eq_refl)).
Defined.

(** * Further properties *)

(** ** The device flow's failure paths *)

Lemma device_entry_flow (self : OneNoteAuth) (w w0 : world) :
  device_entry self w w0 -> get_access_token self w = device_code_flow self w0.
Proof.
  intros [[Hrt ->]|(rt & Hrt & Ha & ->)].
  - by apply no_cached_credential.
  - by apply silent_failure.
Qed.

Lemma device_entry_fs (self : OneNoteAuth) (w w0 : world) :
  device_entry self w w0 -> fs w0 = fs w /\ environ w0 = environ w.
Proof. by intros [[_ ->]|(rt & _ & _ & ->)]. Qed.

(** An initiation reply without a user code: [get_access_token] raises
    [ValueError] carrying that reply right after the initiation; the
    completion is never called, nothing more is printed and the file system
    is as it was. *)
Theorem initiation_without_user_code (self : OneNoteAuth) (w w0 : world) :
  device_entry self w w0 ->
  flow_of self w0 !! "user_code" = None ->
  get_access_token self w
  = (Raise (Exn ValueError (MsgDict "Failed to create device flow: " (flow_of self w0))),
     record (InitiateDeviceFlow (scope self)) w0)
  /\ calls (get_access_token self w).2 = (calls w0 ++ [InitiateDeviceFlow (scope self)])%list
  /\ stdout (get_access_token self w).2 = stdout w0
  /\ fs (get_access_token self w).2 = fs w.
Proof.
  intros He Hcode. rewrite (device_entry_flow self w w0 He).
  rewrite (device_code_flow_no_code self w0 Hcode).
  repeat split. simpl. by apply device_entry_fs in He as [-> _].
Qed.

Lemma initiation_without_user_code_witness :
  device_entry fresh_auth (posix_world fresh_fs test_env no_code_idp)
               (posix_world fresh_fs test_env no_code_idp)
  /\ (get_access_token fresh_auth (posix_world fresh_fs test_env no_code_idp)).1
     = Raise (Exn ValueError (MsgDict "Failed to create device flow: " reply_invalid_grant))
  /\ calls (get_access_token fresh_auth (posix_world fresh_fs test_env no_code_idp)).2
     = [InitiateDeviceFlow ["Notes.Read"]].
Proof.
  assert (He : device_entry fresh_auth (posix_world fresh_fs test_env no_code_idp)
                 (posix_world fresh_fs test_env no_code_idp)) by (left; split; reflexivity).
  split; [exact He|].
  destruct (initiation_without_user_code fresh_auth _ _ He eq_refl) as (H & Hc & _).
  split; [exact (f_equal fst H)|exact Hc].
Defined.

(** An initiation reply with a user code but no verification URI: the
    subscript of line 144 raises [KeyError] after the first three lines of
    the banner; the completion is never called and the file system is as it
    was. *)
Theorem initiation_without_verification_uri (self : OneNoteAuth) (w w0 : world) (code : string) :
  device_entry self w w0 ->
  flow_of self w0 !! "user_code" = Some code ->
  flow_of self w0 !! "verification_uri" = None ->
  (get_access_token self w).1 = Raise (Exn KeyError (Msg "verification_uri"))
  /\ calls (get_access_token self w).2 = (calls w0 ++ [InitiateDeviceFlow (scope self)])%list
  /\ stdout (get_access_token self w).2
     = (stdout w0 ++ [Text (nl ++ rule); Text "MICROSOFT AUTHENTICATION REQUIRED"; Text rule])%list
  /\ fs (get_access_token self w).2 = fs w.
Proof.
  intros He Hcode Huri. rewrite (device_entry_flow self w w0 He).
  rewrite (device_code_flow_no_uri self w0 code Hcode Huri).
  repeat split.
  - simpl. by rewrite <- !app_assoc.
  - simpl. by apply device_entry_fs in He as [-> _].
Qed.

Lemma initiation_without_verification_uri_witness :
  device_entry fresh_auth (posix_world fresh_fs test_env no_uri_idp)
               (posix_world fresh_fs test_env no_uri_idp)
  /\ (get_access_token fresh_auth (posix_world fresh_fs test_env no_uri_idp)).1
     = Raise (Exn KeyError (Msg "verification_uri")).
Proof.
  assert (He : device_entry fresh_auth (posix_world fresh_fs test_env no_uri_idp)
                 (posix_world fresh_fs test_env no_uri_idp)) by (left; split; reflexivity).
  split; [exact He|].
  exact (proj1 (initiation_without_verification_uri fresh_auth _ _ "ABCD-EFGH" He
                  eq_refl eq_refl)).
Defined.

(** A completion reply without an access credential: [get_access_token]
    raises [Exception] whose message is "Authentication failed: " followed
    by the reply's [error_description], else its [error], else "Unknown
    error"; both device-flow calls were made and nothing was saved. *)
Theorem completion_without_access_token (self : OneNoteAuth) (w w0 : world) (uri code : string) :
  device_entry self w w0 ->
  flow_of self w0 !! "user_code" = Some code ->
  flow_of self w0 !! "verification_uri" = Some uri ->
  grant_of self w0 !! "access_token" = None ->
  (get_access_token self w).1
  = Raise (Exn Exception_
             (Msg ("Authentication failed: "
                   ++ match grant_of self w0 !! "error_description", grant_of self w0 !! "error" with
                      | Some d, _ => d
                      | None, Some e => e
                      | None, None => "Unknown error"
                      end)))
  /\ calls (get_access_token self w).2
     = (calls w0 ++ [InitiateDeviceFlow (scope self);
                     AcquireTokenByDeviceFlow (flow_of self w0)])%list
  /\ fs (get_access_token self w).2 = fs w.
Proof.
  intros He Hcode Huri Ha. rewrite (device_entry_flow self w w0 He).
  rewrite (device_code_flow_denied self w0 uri code Hcode Huri Ha).
  repeat split.
  - simpl. by rewrite <- app_assoc.
  - simpl. by apply device_entry_fs in He as [-> _].
Qed.

Lemma completion_without_access_token_witness :
  device_entry fresh_auth (posix_world fresh_fs test_env denied_idp)
               (posix_world fresh_fs test_env denied_idp)
  /\ (get_access_token fresh_auth (posix_world fresh_fs test_env denied_idp)).1
     = Raise (Exn Exception_ (Msg "Authentication failed: The user declined")).
Proof.
  assert (He : device_entry fresh_auth (posix_world fresh_fs test_env denied_idp)
                 (posix_world fresh_fs test_env denied_idp)) by (left; split; reflexivity).
  split; [exact He|].
  exact (proj1 (completion_without_access_token fresh_auth _ _
                  "https://microsoft.com/devicelogin" "ABCD-EFGH" He eq_refl eq_refl eq_refl)).
Defined.

(** ** What a save leaves alone *)

Lemma grows_ret {A} (a : A) : grows (ret a).
Proof. by intros w. Qed.

Lemma grows_raise {A} (e : exn) : grows (@raise A e).
Proof. by intros w. Qed.

Lemma grows_bind {A B} (m : M A) (k : A -> M B) :
  grows m -> (forall a, grows (k a)) -> grows (bind m k).
Proof.
  intros Hm Hk w. unfold bind. destruct (Hm w) as [He Hf].
  destruct (m w) as [[a|e] w1]; simpl in *; [|done].
  destruct (Hk a w1) as [He' Hf']. split; [congruence|].
  intros q n Hq. by apply Hf', Hf.
Qed.

Lemma grows_try_except {A} (body : M A) (handler : exn -> M A) :
  grows body -> (forall e, grows (handler e)) -> grows (try_except body handler).
Proof.
  intros Hm Hk w. unfold try_except. destruct (Hm w) as [He Hf].
  destruct (body w) as [[a|e] w1]; simpl in *; [done|].
  destruct (Hk e w1) as [He' Hf']. split; [congruence|].
  intros q n Hq. by apply Hf', Hf.
Qed.

Lemma grows_is_dir (p : path) : grows (is_dir p).
Proof. by intros w. Qed.

Lemma grows_os_mkdir (p : path) : grows (os_mkdir p).
Proof.
  intros w. unfold os_mkdir, oserror, raise.
  repeat case_match; simpl; split; try done.
  intros q nq Hq. rewrite lookup_insert_ne; [done|]. congruence.
Qed.

Lemma grows_accept_existing_dir (p : path) (e : exn) :
  grows (d <- is_dir p ;; if d then ret tt else raise e).
Proof.
  apply grows_bind; [apply grows_is_dir|]. intros [|]; [apply grows_ret|apply grows_raise].
Qed.

Lemma grows_mkdir_exist_ok (p : path) : grows (mkdir_exist_ok p).
Proof.
  unfold mkdir_exist_ok. apply grows_try_except; [apply grows_os_mkdir|].
  intros e. case_decide; [apply grows_raise|apply grows_accept_existing_dir].
Qed.

Lemma grows_mkdir_parents_rev (rp : list string) : grows (mkdir_parents_rev rp).
Proof.
  induction rp as [|c rest IH]; rewrite mkdir_parents_rev_eq;
    (apply grows_try_except; [apply grows_os_mkdir|]); intros e;
    repeat case_decide; try apply grows_raise; try apply grows_accept_existing_dir.
  apply grows_bind; [exact IH|]. intros _. apply grows_mkdir_exist_ok.
Qed.

(** [_ensure_token_dir] restricts the directory only when it has just made
    it, so no node that existed before is changed. *)
Lemma grows_ensure_token_dir (self : OneNoteAuth) : grows (_ensure_token_dir self).
Proof.
  intros w.
  assert (Heq : _ensure_token_dir self w
                = if bool_decide (is_Some (fs w !! parent (token_path self))) then (Ok tt, w)
                  else (mkdir_parents (parent (token_path self)) ;;
                        name <- get_os_name ;;
                        if negb (String.eqb name "nt")
                        then chmod (parent (token_path self)) 448
                        else ret tt) w).
  { unfold _ensure_token_dir, path_exists. unfold bind at 1. by case_bool_decide. }
  rewrite Heq. clear Heq. case_bool_decide as Hex; [done|].
  destruct (grows_mkdir_parents_rev (rev (parent (token_path self))) w) as [He Hf].
  unfold bind, mkdir_parents, get_os_name.
  destruct (mkdir_parents_rev (rev (parent (token_path self))) w) as [[[]|e] w1];
    simpl in *; [|done].
  destruct (negb (String.eqb (os_name w1) "nt")); simpl; [|done].
  unfold chmod, oserror, raise. case_match; simpl; [|done].
  split; [done|]. intros q nq Hq. rewrite lookup_insert_ne; [by apply Hf|].
  intros <-. apply Hex. by rewrite Hq.
Qed.

Lemma keeps_grows {A} (p : path) (m : M A) : grows m -> keeps p m.
Proof. intros H w. destruct (H w) as [He Hf]. split; [done|]. intros q n _. apply Hf. Qed.

Lemma keeps_bind {A B} (p : path) (m : M A) (k : A -> M B) :
  keeps p m -> (forall a, keeps p (k a)) -> keeps p (bind m k).
Proof.
  intros Hm Hk w. unfold bind. destruct (Hm w) as [He Hf].
  destruct (m w) as [[a|e] w1]; simpl in *; [|done].
  destruct (Hk a w1) as [He' Hf']. split; [congruence|].
  intros q n Hne Hq. by apply Hf', Hf.
Qed.

Lemma keeps_try_except {A} (p : path) (body : M A) (handler : exn -> M A) :
  keeps p body -> (forall e, keeps p (handler e)) -> keeps p (try_except body handler).
Proof.
  intros Hm Hk w. unfold try_except. destruct (Hm w) as [He Hf].
  destruct (body w) as [[a|e] w1]; simpl in *; [done|].
  destruct (Hk e w1) as [He' Hf']. split; [congruence|].
  intros q n Hne Hq. by apply Hf', Hf.
Qed.

Lemma keeps_same {A} (p : path) (m : M A) :
  (forall w, fs (m w).2 = fs w /\ environ (m w).2 = environ w) -> keeps p m.
Proof. intros H w. destruct (H w) as [-> ->]. done. Qed.

Lemma keeps_write_text (p : path) (s : string) : keeps p (write_text p s).
Proof.
  intros w. unfold write_text, oserror, raise.
  repeat case_match; simpl; split; try done;
    intros q nq Hne Hq; by rewrite lookup_insert_ne.
Qed.

Lemma keeps_chmod (p : path) (mode : Z) : keeps p (chmod p mode).
Proof.
  intros w. unfold chmod, oserror, raise.
  case_match; simpl; split; try done.
  intros q nq Hne Hq. by rewrite lookup_insert_ne.
Qed.

Lemma keeps_save_refresh_token (self : OneNoteAuth) (token : string) :
  keeps (token_path self) (_save_refresh_token self token).
Proof.
  unfold _save_refresh_token, save_body.
  apply keeps_try_except.
  - apply keeps_bind; [apply keeps_grows, grows_ensure_token_dir|]. intros _.
    apply keeps_bind; [apply keeps_write_text|]. intros _.
    apply keeps_bind; [by apply keeps_same|]. intros name.
    apply keeps_bind; [|intros _; by apply keeps_same].
    destruct (negb (String.eqb name "nt")); [apply keeps_chmod|by apply keeps_same].
  - intros e. apply keeps_bind; [by apply keeps_same|]. intros _. by apply keeps_same.
Qed.

(** Whatever its outcome, a save changes or removes no file or directory
    that existed before, the credential file apart, and leaves the
    environment as it was: besides writing that file it can only add the
    missing directories above it. *)
Theorem save_leaves_other_nodes (self : OneNoteAuth) (token : string) (w : world)
    (q : path) (n : node) :
  q <> token_path self ->
  fs w !! q = Some n ->
  fs (_save_refresh_token self token w).2 !! q = Some n
  /\ environ (_save_refresh_token self token w).2 = environ w
  /\ calls (_save_refresh_token self token w).2 = calls w.
Proof.
  intros Hne Hq. destruct (keeps_save_refresh_token self token w) as [He Hf].
  destruct (quiet_save_refresh_token self token w) as (Hc & _).
  split; [by apply Hf|]. by split.
Qed.

Lemma save_leaves_other_nodes_witness :
  ["/"; "home"; "user"] <> token_path fresh_auth
  /\ fs fresh_world !! ["/"; "home"; "user"] = Some (Dir 493)
  /\ fs (_save_refresh_token fresh_auth "tok" fresh_world).2 !! ["/"; "home"; "user"]
     = Some (Dir 493).
Proof.
  assert (Hne : ["/"; "home"; "user"] <> token_path fresh_auth) by discriminate.
  assert (Hq : fs fresh_world !! ["/"; "home"; "user"] = Some (Dir 493))
    by (vm_compute; reflexivity).
  split; [exact Hne|]. split; [exact Hq|].
  exact (proj1 (save_leaves_other_nodes fresh_auth "tok" fresh_world _ _ Hne Hq)).
Defined.

Lemma keeps_device_code_flow (self : OneNoteAuth) :
  keeps (token_path self) (device_code_flow self).
Proof.
  unfold device_code_flow.
  apply keeps_bind; [by apply keeps_same|]. intros flow.
  destruct (negb (has_key "user_code" flow)); [by apply keeps_same|].
  repeat (apply keeps_bind; [by apply keeps_same|]; intros _).
  apply keeps_bind; [unfold getitem; case_match; by apply keeps_same|]. intros uri.
  apply keeps_bind; [by apply keeps_same|]. intros _.
  apply keeps_bind; [unfold getitem; case_match; by apply keeps_same|]. intros code.
  repeat (apply keeps_bind; [by apply keeps_same|]; intros _).
  apply keeps_bind; [by apply keeps_same|]. intros result.
  destruct (has_key "access_token" result); [|by apply keeps_same].
  apply keeps_bind; [by apply keeps_same|]. intros _.
  apply keeps_bind; [|intros _; unfold getitem; case_match; by apply keeps_same].
  destruct (has_key "refresh_token" result); [|by apply keeps_same].
  apply keeps_bind; [unfold getitem; case_match; by apply keeps_same|]. intros r.
  apply keeps_save_refresh_token.
Qed.

Lemma keeps_get_access_token (self : OneNoteAuth) :
  keeps (token_path self) (get_access_token self).
Proof.
  unfold get_access_token. destruct (truthy_value (refresh_token self)) as [rt|].
  2:{ apply keeps_device_code_flow. }
  apply keeps_bind; [by apply keeps_same|]. intros _.
  apply keeps_bind; [by apply keeps_same|]. intros result.
  destruct (has_key "access_token" result).
  - apply keeps_bind; [by apply keeps_same|]. intros _.
    apply keeps_bind; [|intros _; unfold getitem; case_match; by apply keeps_same].
    destruct (has_key "refresh_token" result); [|by apply keeps_same].
    apply keeps_bind; [unfold getitem; case_match; by apply keeps_same|]. intros r.
    apply keeps_save_refresh_token.
  - repeat (apply keeps_bind; [by apply keeps_same|]; intros _).
    apply keeps_device_code_flow.
Qed.

(** Whatever its outcome, [get_access_token] changes or removes no file or
    directory that existed before, the credential file apart, and leaves
    the environment as it was. *)
Theorem get_access_token_leaves_other_nodes (self : OneNoteAuth) (w : world)
    (q : path) (n : node) :
  q <> token_path self ->
  fs w !! q = Some n ->
  fs (get_access_token self w).2 !! q = Some n
  /\ environ (get_access_token self w).2 = environ w.
Proof.
  intros Hne Hq. destruct (keeps_get_access_token self w) as [He Hf].
  split; [by apply Hf|done].
Qed.

Lemma get_access_token_leaves_other_nodes_witness :
  ["/"; ".dockerenv"] <> token_path docker_auth
  /\ fs docker_world !! ["/"; ".dockerenv"] = Some (File 493 "")
  /\ fs (get_access_token docker_auth docker_world).2 !! ["/"; ".dockerenv"]
     = Some (File 493 "").
Proof.
  assert (Hne : ["/"; ".dockerenv"] <> token_path docker_auth) by discriminate.
  assert (Hq : fs docker_world !! ["/"; ".dockerenv"] = Some (File 493 ""))
    by (vm_compute; reflexivity).
  split; [exact Hne|]. split; [exact Hq|].
  exact (proj1 (get_access_token_leaves_other_nodes docker_auth docker_world _ _ Hne Hq)).
Defined.

(** ** Calls, and what is saved *)

(** [get_access_token] never retries: besides the refresh exchange it makes
    when a credential is cached, it calls the initiation at most once and
    the completion at most once, in that order, and nothing else. *)
Theorem provider_calls_bounded (self : OneNoteAuth) (w : world) :
  exists pre post : list event,
    calls (get_access_token self w).2 = (calls w ++ pre ++ post)%list
    /\ pre = match truthy_value (refresh_token self) with
             | Some rt => [AcquireTokenByRefreshToken rt (scope self)]
             | None => []
             end
    /\ (post = []
        \/ post = [InitiateDeviceFlow (scope self)]
        \/ exists flow, post = [InitiateDeviceFlow (scope self); AcquireTokenByDeviceFlow flow])
    /\ (truthy_value (refresh_token self) = None -> post <> []).
Proof.
  assert (Hdev : forall w0, exists post : list event,
            calls (device_code_flow self w0).2 = (calls w0 ++ post)%list
            /\ (post = [InitiateDeviceFlow (scope self)]
                \/ exists flow, post = [InitiateDeviceFlow (scope self);
                                        AcquireTokenByDeviceFlow flow])).
  { intros w0. rewrite device_code_flow_calls. eexists. split; [reflexivity|].
    repeat case_match; eauto. }
  destruct (truthy_value (refresh_token self)) as [rt|] eqn:Hrt.
  - exists [AcquireTokenByRefreshToken rt (scope self)].
    destruct (refresh_reply (idp w) (calls w) rt (scope self) !! "access_token")
      as [a|] eqn:Ha.
    + exists []. rewrite (silent_success self w rt a Hrt Ha).
      repeat split; [|by left|done].
      destruct (refresh_reply (idp w) (calls w) rt (scope self) !! "refresh_token");
        [by rewrite save_ret_calls|done].
    + rewrite (silent_failure self w rt Hrt Ha).
      destruct (Hdev (after_silent_failure self rt w)) as (post & -> & Hpost).
      exists post. repeat split; [|by right|done].
      simpl. by rewrite <- app_assoc.
  - exists []. rewrite (no_cached_credential self w Hrt).
    destruct (Hdev w) as (post & -> & Hpost). exists post.
    repeat split; [by right|]. intros _. by destruct Hpost as [->|[flow ->]].
Qed.

(** When the reply that granted the access credential carries no refresh
    credential, nothing is saved: the call returns with the file system as
    it was. *)
Theorem nothing_saved_without_refresh_credential (self : OneNoteAuth) (w w1 : world)
    (a : string) :
  get_access_token self w = (Ok a, w1) ->
  granting_reply self w !! "refresh_token" = None ->
  fs w1 = fs w.
Proof.
  intros H. unfold granting_reply.
  assert (Hdev : forall w0, fs w0 = fs w -> device_code_flow self w0 = (Ok a, w1) ->
            grant_of self w0 !! "refresh_token" = None -> fs w1 = fs w).
  { intros w0 Hfs Hd Hr. apply device_code_flow_ok_inv in Hd as (uri & code & _ & _ & _ & Hs).
    rewrite Hr in Hs. by subst w1. }
  destruct (truthy_value (refresh_token self)) as [rt|] eqn:Hrt.
  - cbv zeta.
    destruct (refresh_reply (idp w) (calls w) rt (scope self) !! "access_token")
      as [a'|] eqn:Ha.
    + rewrite (has_key_true _ _ _ Ha). intros Hr.
      rewrite (silent_success self w rt a' Hrt Ha), Hr in H. by injection H as _ <-.
    + rewrite (has_key_false _ _ Ha).
      rewrite (silent_failure self w rt Hrt Ha) in H. by apply Hdev.
  - rewrite (no_cached_credential self w Hrt) in H. by apply Hdev.
Qed.

Lemma nothing_saved_without_refresh_credential_witness :
  (get_access_token home_auth (posix_world home_fs test_env access_only_idp)).1
  = Ok "new-access-token-xyz"
  /\ granting_reply home_auth (posix_world home_fs test_env access_only_idp)
       !! "refresh_token" = None
  /\ fs (get_access_token home_auth (posix_world home_fs test_env access_only_idp)).2
     = home_fs.
Proof.
  assert (Hg : (get_access_token home_auth (posix_world home_fs test_env access_only_idp)).1
               = Ok "new-access-token-xyz") by (vm_compute; reflexivity).
  assert (Hr : granting_reply home_auth (posix_world home_fs test_env access_only_idp)
                 !! "refresh_token" = None) by (vm_compute; reflexivity).
  split; [exact Hg|]. split; [exact Hr|].
  exact (nothing_saved_without_refresh_credential home_auth _ _ _ (run_ok _ _ _ Hg) Hr).
Defined.

(** ** The exceptions of [get_access_token] *)

Lemma os_errors_only_bind {A B} (m : M A) (k : A -> M B) :
  os_errors_only m -> (forall a, os_errors_only (k a)) -> os_errors_only (bind m k).
Proof.
  intros Hm Hk w e w'. unfold bind. destruct (m w) as [[a|e0] w1] eqn:E.
  - apply Hk.
  - intros [= <- <-]. by apply (Hm w e0 w1).
Qed.

Lemma os_errors_only_try_except {A} (body : M A) (handler : exn -> M A) :
  os_errors_only body ->
  (forall e, is_os_error e = true -> os_errors_only (handler e)) ->
  os_errors_only (try_except body handler).
Proof.
  intros Hm Hk w e w'. unfold try_except. destruct (body w) as [[a|e0] w1] eqn:E.
  - discriminate.
  - apply Hk. by apply (Hm w e0 w1).
Qed.

Lemma os_errors_only_never {A} (m : M A) :
  (forall w, exists a w', m w = (Ok a, w')) -> os_errors_only m.
Proof. intros H w e w' Hr. destruct (H w) as (a & w1 & Hw). congruence. Qed.

Lemma os_errors_only_raise {A} (e : exn) :
  is_os_error e = true -> os_errors_only (@raise A e).
Proof. intros He w e' w'. unfold raise. by intros [= <- _]. Qed.

Ltac os_prim :=
  let w := fresh "w" in
  let e := fresh "e" in
  let w' := fresh "w'" in
  intros w e w'; cbv beta delta [os_mkdir chmod read_text write_text oserror raise];
  repeat case_match; intros [= <- _]; done.

Lemma os_errors_only_os_mkdir (p : path) : os_errors_only (os_mkdir p).
Proof. os_prim. Qed.

Lemma os_errors_only_chmod (p : path) (mode : Z) : os_errors_only (chmod p mode).
Proof. os_prim. Qed.

Lemma os_errors_only_write_text (p : path) (s : string) : os_errors_only (write_text p s).
Proof. os_prim. Qed.

Lemma os_errors_only_accept_existing_dir (p : path) (e : exn) :
  is_os_error e = true ->
  os_errors_only (d <- is_dir p ;; if d then ret tt else raise e).
Proof.
  intros He. apply os_errors_only_bind.
  - apply os_errors_only_never. intros w. by eexists _, _.
  - intros [|]; [|by apply os_errors_only_raise].
    apply os_errors_only_never. intros w. by eexists _, _.
Qed.

Lemma os_errors_only_mkdir_exist_ok (p : path) : os_errors_only (mkdir_exist_ok p).
Proof.
  unfold mkdir_exist_ok. apply os_errors_only_try_except; [apply os_errors_only_os_mkdir|].
  intros e He. case_decide; [by apply os_errors_only_raise|].
  by apply os_errors_only_accept_existing_dir.
Qed.

Lemma os_errors_only_mkdir_parents_rev (rp : list string) :
  os_errors_only (mkdir_parents_rev rp).
Proof.
  induction rp as [|c rest IH]; rewrite mkdir_parents_rev_eq;
    (apply os_errors_only_try_except; [apply os_errors_only_os_mkdir|]); intros e He;
    repeat case_decide; try (by apply os_errors_only_raise);
    try (by apply os_errors_only_accept_existing_dir).
  apply os_errors_only_bind; [exact IH|]. intros _. apply os_errors_only_mkdir_exist_ok.
Qed.

Lemma os_errors_only_save_refresh_token (self : OneNoteAuth) (token : string) :
  os_errors_only (_save_refresh_token self token).
Proof.
  unfold _save_refresh_token. apply os_errors_only_try_except.
  - unfold save_body, _ensure_token_dir, mkdir_parents.
    apply os_errors_only_bind.
    { apply os_errors_only_bind.
      - apply os_errors_only_never. intros w. by eexists _, _.
      - intros [|]; simpl.
        + apply os_errors_only_never. intros w. by eexists _, _.
        + apply os_errors_only_bind; [apply os_errors_only_mkdir_parents_rev|]. intros _.
          apply os_errors_only_bind.
          * apply os_errors_only_never. intros w. by eexists _, _.
          * intros name. destruct (negb (String.eqb name "nt")).
            -- apply os_errors_only_chmod.
            -- apply os_errors_only_never. intros w. by eexists _, _. }
    intros _. apply os_errors_only_bind; [apply os_errors_only_write_text|]. intros _.
    apply os_errors_only_bind.
    { apply os_errors_only_never. intros w. by eexists _, _. }
    intros name. apply os_errors_only_bind.
    { destruct (negb (String.eqb name "nt")).
      - apply os_errors_only_chmod.
      - apply os_errors_only_never. intros w. by eexists _, _. }
    intros _. apply os_errors_only_never. intros w. by eexists _, _.
  - intros e He. apply os_errors_only_bind.
    + apply os_errors_only_never. intros w. by eexists _, _.
    + intros _. by apply os_errors_only_raise.
Qed.

Lemma save_ret_raise_inv (self : OneNoteAuth) (r a : string) (w w' : world) (e : exn) :
  (_save_refresh_token self r ;; ret a) w = (Raise e, w') ->
  is_os_error e = true /\ last (stdout w') = Some (ErrorSaving (token_path self) e).
Proof.
  unfold bind. destruct (_save_refresh_token self r w) as [[[]|e0] w1] eqn:E; [discriminate|].
  intros [= <- <-]. split.
  - by apply (os_errors_only_save_refresh_token self r w e0 w1).
  - apply save_raise_inv in E as (w2 & _ & ->). simpl. apply last_snoc.
Qed.

(** The exceptions [get_access_token] can raise are four: the [ValueError]
    of an initiation without a user code, the [KeyError] of an initiation
    without a verification URI, the [Exception] "Authentication failed: ..."
    of a completion without an access credential, and the [OSError] of a
    failed save, which is then the last thing printed. *)
Theorem get_access_token_failures (self : OneNoteAuth) (w w' : world) (e : exn) :
  get_access_token self w = (Raise e, w') ->
  (exists flow, e = Exn ValueError (MsgDict "Failed to create device flow: " flow)
                /\ flow !! "user_code" = None)
  \/ e = Exn KeyError (Msg "verification_uri")
  \/ (exists m, e = Exn Exception_ (Msg ("Authentication failed: " ++ m)))
  \/ (is_os_error e = true
      /\ last (stdout w') = Some (ErrorSaving (token_path self) e)).
Proof.
  assert (Hdev : forall w0, device_code_flow self w0 = (Raise e, w') ->
    (exists flow, e = Exn ValueError (MsgDict "Failed to create device flow: " flow)
                  /\ flow !! "user_code" = None)
    \/ e = Exn KeyError (Msg "verification_uri")
    \/ (exists m, e = Exn Exception_ (Msg ("Authentication failed: " ++ m)))
    \/ (is_os_error e = true
        /\ last (stdout w') = Some (ErrorSaving (token_path self) e))).
  { intros w0 H.
    destruct (flow_of self w0 !! "user_code") as [code|] eqn:Hcode.
    2:{ rewrite (device_code_flow_no_code self w0 Hcode) in H. injection H as <- _.
        left. by eexists. }
    destruct (flow_of self w0 !! "verification_uri") as [uri|] eqn:Huri.
    2:{ rewrite (device_code_flow_no_uri self w0 code Hcode Huri) in H.
        injection H as <- _. by right; left. }
    destruct (grant_of self w0 !! "access_token") as [a|] eqn:Ha.
    2:{ rewrite (device_code_flow_denied self w0 uri code Hcode Huri Ha) in H.
        injection H as <- _. right; right; left. by eexists. }
    rewrite (device_code_flow_grant self w0 uri code a Hcode Huri Ha) in H.
    destruct (grant_of self w0 !! "refresh_token") as [r|]; [|discriminate].
    right; right; right. by apply save_ret_raise_inv in H. }
  intros H. destruct (truthy_value (refresh_token self)) as [rt|] eqn:Hrt.
  - destruct (refresh_reply (idp w) (calls w) rt (scope self) !! "access_token")
      as [a|] eqn:Ha.
    + rewrite (silent_success self w rt a Hrt Ha) in H.
      destruct (refresh_reply (idp w) (calls w) rt (scope self) !! "refresh_token")
        as [r|]; [|discriminate].
      right; right; right. by apply save_ret_raise_inv in H.
    + rewrite (silent_failure self w rt Hrt Ha) in H. by apply Hdev in H.
  - rewrite (no_cached_credential self w Hrt) in H. by apply Hdev in H.
Qed.

Lemma get_access_token_failures_witness :
  (get_access_token docker_auth docker_world).1
  = Raise (Exn PermissionError (AtPath docker_path))
  /\ last (stdout (get_access_token docker_auth docker_world).2)
     = Some (ErrorSaving (token_path docker_auth) (Exn PermissionError (AtPath docker_path))).
Proof.
  assert (Hg : (get_access_token docker_auth docker_world).1
               = Raise (Exn PermissionError (AtPath docker_path)))
    by (vm_compute; reflexivity).
  split; [exact Hg|].
  destruct (get_access_token_failures docker_auth docker_world _ _ (run_raise _ _ _ Hg))
    as [(flow & Hf & _)|[Hk|[(m & Hm)|[_ Hl]]]]; try discriminate.
  exact Hl.
Defined.

(** ** What a load returns *)

Lemma has_char_lstrip (a : ascii) (s : string) :
  has_char a s = false -> has_char a (lstrip s) = false.
Proof.
  induction s as [|c r IH]; [done|]. simpl. intros H.
  apply orb_false_iff in H as [Hc Hr].
  destruct (is_space c); [by apply IH|]. simpl. by rewrite Hc, Hr.
Qed.

Lemma has_char_rstrip (a : ascii) (s : string) :
  has_char a s = false -> has_char a (rstrip s) = false.
Proof.
  induction s as [|c r IH]; [done|]. simpl. intros H.
  apply orb_false_iff in H as [Hc Hr]. specialize (IH Hr).
  destruct (rstrip r) as [|c2 r2].
  - destruct (is_space c); [done|]. simpl. by rewrite Hc.
  - simpl in *. by rewrite Hc, IH.
Qed.

Lemma universal_newlines_has_no_cr_upto (n : nat) (s : string) :
  (String.length s <= n)%nat -> has_char CR (universal_newlines s) = false.
Proof.
  revert s. induction n as [|n IH]; intros s Hn.
  - destruct s; [done|]. simpl in Hn. lia.
  - destruct s as [|c r]; [done|]. simpl in Hn. simpl.
    destruct (Ascii.eqb c CR) eqn:Hc.
    + simpl. destruct r as [|c2 r2]; [done|].
      simpl in Hn. destruct (Ascii.eqb c2 LF).
      * apply IH. lia.
      * apply IH. simpl. lia.
    + simpl. rewrite Hc. apply IH. lia.
Qed.

Lemma universal_newlines_has_no_cr (s : string) :
  has_char CR (universal_newlines s) = false.
Proof. by apply (universal_newlines_has_no_cr_upto (String.length s)). Qed.

Lemma lstrip_first_char (s : string) :
  lstrip s <> "" -> not_space (first_char (lstrip s)) = true.
Proof.
  induction s as [|c r IH]; [done|]. simpl.
  destruct (is_space c) eqn:Hc; [done|]. intros _. simpl. by rewrite Hc.
Qed.

Lemma rstrip_first_char (s : string) :
  rstrip s <> "" -> first_char (rstrip s) = first_char s.
Proof.
  destruct s as [|c r]; [done|]. simpl.
  destruct (rstrip r); [|done]. by destruct (is_space c).
Qed.

Lemma rstrip_last_char (s : string) :
  rstrip s <> "" -> not_space (last_char (rstrip s)) = true.
Proof.
  induction s as [|c r IH]; [done|]. simpl.
  destruct (rstrip r) as [|c2 r2] eqn:Hr.
  - destruct (is_space c) eqn:Hc; [done|]. intros _. simpl. by rewrite Hc.
  - intros _. apply IH. done.
Qed.

Lemma rstrip_empty_inv (s : string) : rstrip s <> "" -> s <> "".
Proof. by destruct s. Qed.

Lemma strip_is_clean (s : string) :
  has_char CR s = false -> strip s <> "" -> is_clean (strip s) = true.
Proof.
  intros Hcr Hne. unfold is_clean, strip in *.
  rewrite (rstrip_first_char _ Hne), (rstrip_last_char _ Hne).
  rewrite (lstrip_first_char _ (rstrip_empty_inv _ Hne)).
  by rewrite (has_char_rstrip _ _ (has_char_lstrip _ _ Hcr)).
Qed.

Lemma loaded_is_clean (c t : string) : loaded c = Some t -> is_clean t = true.
Proof.
  unfold loaded. intros H. apply truthy_value_inv in H as [[= <-] Hne].
  apply strip_is_clean; [apply universal_newlines_has_no_cr|done].
Qed.

Lemma load_inv (self : OneNoteAuth) (w w' : world) (t : string) :
  _load_refresh_token self w = (Ok (Some t), w') ->
  exists m c, fs w !! token_path self = Some (File m c)
              /\ loaded c = Some t
              /\ w' = emit (LoadedFrom (token_path self)) w.
Proof.
  destruct (fs w !! token_path self) as [[m c|m]|] eqn:Hf.
  - destruct (has_bits m S_IRUSR) eqn:Hm.
    + rewrite (load_file self w m c Hf Hm). intros [= Hl <-]. by exists m, c.
    + rewrite (load_read_failure self w w (Exn PermissionError (AtPath (token_path self)))).
      * discriminate.
      * done.
      * unfold read_text. by rewrite Hf, Hm.
  - rewrite (load_read_failure self w w (Exn IsADirectoryError (AtPath (token_path self)))).
    + discriminate.
    + done.
    + unfold read_text. by rewrite Hf.
  - rewrite (load_missing self w Hf). discriminate.
Qed.

Lemma load_fs (self : OneNoteAuth) (w : world) :
  fs (_load_refresh_token self w).2 = fs w
  /\ environ (_load_refresh_token self w).2 = environ w.
Proof.
  destruct (fs w !! token_path self) as [[m c|m]|] eqn:Hf.
  - destruct (has_bits m S_IRUSR) eqn:Hm.
    + by rewrite (load_file self w m c Hf Hm).
    + rewrite (load_read_failure self w w (Exn PermissionError (AtPath (token_path self))));
        [done|done|].
      unfold read_text. by rewrite Hf, Hm.
  - rewrite (load_read_failure self w w (Exn IsADirectoryError (AtPath (token_path self))));
      [done|done|].
    unfold read_text. by rewrite Hf.
  - by rewrite (load_missing self w Hf).
Qed.

(** A credential that [load] returns is clean: not empty, without white
    space at either end and without carriage return.  Reading changes
    neither the file system nor the environment and makes no call; and on a
    platform other than Windows, saving what was loaded and loading again
    gives the same credential. *)
Theorem load_returns_clean_credential (self : OneNoteAuth) (w w' : world) (t : string) :
  _load_refresh_token self w = (Ok (Some t), w') ->
  is_clean t = true
  /\ fs w' = fs w /\ environ w' = environ w /\ calls w' = calls w
  /\ (forall w2 w3, os_name w2 <> "nt" ->
        _save_refresh_token self t w2 = (Ok tt, w3) ->
        (_load_refresh_token self w3).1 = Ok (Some t)).
Proof.
  intros H. assert (Hc : is_clean t = true).
  { apply load_inv in H as (m & c & _ & Hl & _). by apply loaded_is_clean in Hl. }
  destruct (load_fs self w) as [Hfs Henv].
  destruct (quiet_load_refresh_token self w) as (Hcalls & _).
  rewrite H in Hfs, Henv, Hcalls. simpl in *.
  repeat split; try done.
  intros w2 w3 Hnt Hs.
  destruct (save_load_roundtrip self t w2 w3 Hnt Hs) as [_ Hload].
  by rewrite Hload, (loaded_clean t Hc).
Qed.

Lemma load_returns_clean_credential_witness :
  (_load_refresh_token home_auth
     (posix_world (mkfs [("/", Dir 493); ("/home", Dir 493); ("/home/user", Dir 493);
                         ("/home/user/.onenote_rag", Dir 448);
                         ("/home/user/.onenote_rag/refresh_token",
                          File 384 ("  padded token" ++ nl))])
        test_env test_idp)).1 = Ok (Some "padded token")
  /\ is_clean "padded token" = true.
Proof.
  assert (H : (_load_refresh_token home_auth
     (posix_world (mkfs [("/", Dir 493); ("/home", Dir 493); ("/home/user", Dir 493);
                         ("/home/user/.onenote_rag", Dir 448);
                         ("/home/user/.onenote_rag/refresh_token",
                          File 384 ("  padded token" ++ nl))])
        test_env test_idp)).1 = Ok (Some "padded token")) by (vm_compute; reflexivity).
  split; [exact H|].
  exact (proj1 (load_returns_clean_credential home_auth _ _ _ (run_ok _ _ _ H))).
Defined.

(** ** The resolver and the environment *)

Lemma foldl_setdefault_env_keeps (kvs : list (string * string)) (e : gmap string string)
    (k v : string) :
  e !! k = Some v -> foldl setdefault_env e kvs !! k = Some v.
Proof.
  revert e. induction kvs as [|kv kvs IH]; [done|]. intros e He. simpl. apply IH.
  unfold setdefault_env. destruct (e !! kv.1) eqn:Hkv; [done|].
  rewrite lookup_insert_ne; [done|]. congruence.
Qed.

Lemma dotenv_environ_keeps (w : world) (k v : string) :
  environ w !! k = Some v -> dotenv_environ w !! k = Some v.
Proof.
  unfold dotenv_environ. destruct (dotenv_file w); [|done].
  apply foldl_setdefault_env_keeps.
Qed.

(** The world the resolver leaves, in each of its five ways out. *)
Lemma get_client_id_world (ic : bool) (explicit : option string) (w : world) :
  (_get_client_id ic explicit w).2 = w
  \/ (_get_client_id ic explicit w).2 = record (Getenv "MS_CLIENT_ID") w
  \/ (ic = false /\ dotenv_installed w = true
      /\ (_get_client_id ic explicit w).2 = after_dotenv w).
Proof.
  destruct (truthy_value explicit) as [c|] eqn:He.
  { apply truthy_value_inv in He as [-> Hc]. left. by rewrite get_client_id_explicit. }
  destruct (truthy_value (environ w !! "MS_CLIENT_ID")) as [c|] eqn:Hv.
  { right; left. by rewrite (get_client_id_environ ic explicit c). }
  destruct ic.
  { right; left. by rewrite get_client_id_container. }
  destruct (dotenv_installed w) eqn:Hd.
  - right; right. by rewrite get_client_id_dotenv.
  - right; left. by rewrite get_client_id_no_dotenv.
Qed.

(** The resolver never changes or removes a variable that is in the
    environment, and never touches the file system: all it can do is add
    the variables of the [.env] file that were not set. *)
Theorem resolver_keeps_environment (ic : bool) (explicit : option string) (w : world)
    (k v : string) :
  environ w !! k = Some v ->
  environ (_get_client_id ic explicit w).2 !! k = Some v
  /\ fs (_get_client_id ic explicit w).2 = fs w.
Proof.
  intros Hk.
  destruct (get_client_id_world ic explicit w) as [->|[->|(_ & _ & ->)]]; try done.
  split; [|done]. simpl. by apply dotenv_environ_keeps.
Qed.

Lemma resolver_keeps_environment_witness :
  environ (dotenv_world empty_id_env) !! "MS_CLIENT_ID" = Some ""
  /\ environ (_get_client_id false None (dotenv_world empty_id_env)).2 !! "MS_CLIENT_ID"
     = Some "".
Proof.
  assert (H : environ (dotenv_world empty_id_env) !! "MS_CLIENT_ID" = Some "")
    by reflexivity.
  split; [exact H|].
  exact (proj1 (resolver_keeps_environment false None (dotenv_world empty_id_env) _ _ H)).
Defined.

(** A client identifier exported empty hides the one of the [.env] file:
    [load_dotenv] does not override a variable that is set, so without an
    explicit identifier the resolver raises, whatever the file holds. *)
Theorem empty_variable_masks_dotenv (ic : bool) (explicit : option string) (w : world) :
  truthy_value explicit = None ->
  environ w !! "MS_CLIENT_ID" = Some "" ->
  (_get_client_id ic explicit w).1 = Raise (Exn ValueError (Msg client_id_guidance)).
Proof.
  intros He Hv. apply get_client_id_unresolvable.
  split; [done|]. split; [by rewrite Hv|].
  right; right. by rewrite (dotenv_environ_keeps w _ _ Hv).
Qed.

Lemma empty_variable_masks_dotenv_witness :
  environ (dotenv_world empty_id_env) !! "MS_CLIENT_ID" = Some ""
  /\ (_get_client_id false None (dotenv_world empty_id_env)).1
     = Raise (Exn ValueError (Msg client_id_guidance))
  /\ (_get_client_id false None (dotenv_world ∅)).1 = Ok "client-from-dotenv".
Proof.
  split; [reflexivity|]. split; [|vm_compute; reflexivity].
  apply (empty_variable_masks_dotenv false None (dotenv_world empty_id_env)); reflexivity.
Defined.

(** ** Construction *)

Lemma resolve_token_path_total (tp : option string) (w : world) :
  exists p, _resolve_token_path tp w = (Ok p, w).
Proof.
  unfold _resolve_token_path, bind, path_exists, Path_home.
  destruct (truthy_value tp); [by eexists|].
  case_bool_decide; by eexists.
Qed.

Lemma init_probe (tp explicit : option string) (w : world) :
  __init__ tp explicit w
  = (client_id <- _get_client_id (detect_container w) explicit ;;
     token_path <- _resolve_token_path tp ;;
     app <- new_PublicClientApplication client_id
              ("https://login.microsoftonline.com/" ++ "common") ;;
     refresh_token <- _load_refresh_token
                        (Build_OneNoteAuth (detect_container w) client_id "common"
                           ["Notes.Read"] token_path app None) ;;
     ret (Build_OneNoteAuth (detect_container w) client_id "common" ["Notes.Read"]
            token_path app refresh_token)) w.
Proof.
  unfold __init__, detect_container, path_exists. unfold bind at 1 2.
  by destruct (bool_decide (is_Some (fs w !! Path "/.dockerenv"))).
Qed.

(** Construction fails only in the resolver.  Once the resolver has
    returned an identifier, [__init__] returns an instance that carries it,
    the tenant "common", the scope [Notes.Read], the resolved location and
    what [load] finds there, which is absent or a non-empty string; the
    MSAL client is built once, for the authority of that tenant, no token is
    requested and the file system is not changed. *)
Theorem init_builds_instance (tp explicit : option string) (w w1 : world) (cid : string) :
  _get_client_id (detect_container w) explicit w = (Ok cid, w1) ->
  exists self w',
    __init__ tp explicit w = (Ok self, w')
    /\ is_container self = detect_container w
    /\ client_id self = cid
    /\ tenant_id self = "common"
    /\ scope self = ["Notes.Read"]
    /\ app self = MsalApp cid "https://login.microsoftonline.com/common"
    /\ _resolve_token_path tp w1 = (Ok (token_path self), w1)
    /\ _load_refresh_token self
         (record (PublicClientApplication cid "https://login.microsoftonline.com/common") w1)
       = (Ok (refresh_token self), w')
    /\ truthy_value (refresh_token self) = refresh_token self
    /\ calls w'
       = (calls w1 ++ [PublicClientApplication cid "https://login.microsoftonline.com/common"])%list
    /\ fs w' = fs w.
Proof.
  intros Hid. rewrite init_probe.
  rewrite (bind_ok _ _ _ _ _ Hid).
  destruct (resolve_token_path_total tp w1) as [p Hp].
  rewrite (bind_ok _ _ _ _ _ Hp).
  set (w2 := record (PublicClientApplication cid "https://login.microsoftonline.com/common") w1).
  erewrite (bind_ok _ _ _ (MsalApp cid "https://login.microsoftonline.com/common") w2)
    by reflexivity.
  set (self0 := Build_OneNoteAuth (detect_container w) cid "common" ["Notes.Read"] p
                  (MsalApp cid "https://login.microsoftonline.com/common") None).
  destruct (load_total self0 w2) as (rt & w3 & Hload).
  rewrite (bind_ok _ _ _ _ _ Hload).
  eexists _, w3. split; [reflexivity|]. simpl.
  destruct (load_fs self0 w2) as [Hfs _].
  destruct (quiet_load_refresh_token self0 w2) as (Hcalls & _).
  rewrite Hload in Hfs, Hcalls. simpl in Hfs, Hcalls.
  repeat split; try done.
  - by apply load_result_truthy in Hload.
  - rewrite Hfs. simpl.
    destruct (get_client_id_world (detect_container w) explicit w) as [H|[H|(_ & _ & H)]];
      rewrite Hid in H; simpl in H; by rewrite H.
Qed.

Lemma init_builds_instance_witness :
  _get_client_id (detect_container home_world) None home_world
  = (Ok "test-client-id", record (Getenv "MS_CLIENT_ID") home_world)
  /\ exists self w',
       __init__ None None home_world = (Ok self, w')
       /\ client_id self = "test-client-id"
       /\ fs w' = fs home_world.
Proof.
  assert (H : _get_client_id (detect_container home_world) None home_world
              = (Ok "test-client-id", record (Getenv "MS_CLIENT_ID") home_world))
    by reflexivity.
  split; [exact H|].
  destruct (init_builds_instance None None home_world _ _ H)
    as (self & w' & Hi & _ & Hc & _ & _ & _ & _ & _ & _ & _ & Hfs).
  exists self, w'. split; [exact Hi|]. split; [exact Hc|exact Hfs].
Defined.

(** ** The directories a save creates *)

Lemma os_mkdir_fresh (p : path) (w w' : world) :
  os_mkdir p w = (Ok tt, w') ->
  fs w' !! p = Some (Dir (default_dir_mode w)) /\ umask w' = umask w.
Proof.
  unfold os_mkdir, oserror, raise. intros H.
  repeat case_match; simplify_eq; simpl. split; [apply lookup_insert_eq|done].
Qed.

Lemma os_mkdir_raise (p : path) (w w' : world) (e : exn) :
  os_mkdir p w = (Raise e, w') -> w' = w.
Proof.
  unfold os_mkdir, oserror, raise. intros H.
  repeat case_match; by simplify_eq.
Qed.

Lemma accept_existing_dir_inv (p : path) (e : exn) (w w' : world) :
  (d <- is_dir p ;; if d then ret tt else raise e) w = (Ok tt, w') ->
  w' = w /\ exists m, fs w !! p = Some (Dir m).
Proof.
  intros H. apply bind_ok_inv in H as (d & w1 & Hd & H).
  destruct d; [|discriminate].
  apply is_dir_true in Hd as [-> Hm]. by injection H as <-.
Qed.

Lemma mkdir_exist_ok_fresh (p : path) (w w' : world) :
  mkdir_exist_ok p w = (Ok tt, w') ->
  fs w !! p = None ->
  fs w' !! p = Some (Dir (default_dir_mode w)).
Proof.
  unfold mkdir_exist_ok, try_except. intros H Hn.
  destruct (os_mkdir p w) as [[[]|e] w1] eqn:E.
  - injection H as <-. by apply os_mkdir_fresh in E as [? _].
  - apply os_mkdir_raise in E as ->. case_decide; [discriminate|].
    apply accept_existing_dir_inv in H as [_ [m Hm]]. congruence.
Qed.

Lemma mkdir_parents_rev_fresh (rp : list string) (w w' : world) :
  mkdir_parents_rev rp w = (Ok tt, w') ->
  fs w !! rev rp = None ->
  fs w' !! rev rp = Some (Dir (default_dir_mode w)).
Proof.
  rewrite mkdir_parents_rev_eq. unfold try_except. intros H Hn.
  destruct (os_mkdir (rev rp) w) as [[[]|e] w1] eqn:E.
  - injection H as <-. by apply os_mkdir_fresh in E as [? _].
  - apply os_mkdir_raise in E as ->. repeat case_decide; try discriminate.
    + destruct rp as [|c rest]; [discriminate|].
      assert (Hlen : (length rest < length (rev (c :: rest)))%nat).
      { rewrite length_rev. simpl. lia. }
      set (p := rev (c :: rest)) in *.
      apply bind_ok_inv in H as ([] & w2 & Hrec & H).
      assert (Hn2 : fs w2 !! p = None).
      { pose proof (mkdir_parents_rev_longer rest p w Hlen) as Hl.
        rewrite Hrec in Hl. simpl in Hl. by rewrite Hl. }
      destruct (quiet_mkdir_parents_rev rest w) as (_ & _ & Hu & _).
      rewrite Hrec in Hu. simpl in Hu.
      apply mkdir_exist_ok_fresh in H; [|done].
      unfold default_dir_mode in *. by rewrite <- Hu.
    + apply accept_existing_dir_inv in H as [_ [m Hm]]. congruence.
Qed.

Lemma parent_rev (c : string) (rest : list string) :
  parent (rev (c :: rest)) <> rev (c :: rest) ->
  parent (rev (c :: rest)) = rev rest.
Proof.
  simpl. destruct (rev rest) as [|x l] eqn:Hr.
  - simpl. by destruct (is_anchor c).
  - intros _. change ((x :: l) ++ [c])%list with (x :: (l ++ [c]))%list.
    unfold parent. destruct l as [|y l']; [done|].
    change (x :: (y :: l') ++ [c])%list with ((x :: y :: l') ++ [c])%list.
    apply removelast_last.
Qed.

Lemma ensure_token_dir_inv (self : OneNoteAuth) (w w1 : world) :
  _ensure_token_dir self w = (Ok tt, w1) ->
  fs w !! parent (token_path self) = None ->
  exists w2, mkdir_parents (parent (token_path self)) w = (Ok tt, w2)
             /\ forall q n, fs w2 !! q = Some n -> q <> parent (token_path self) ->
                  fs w1 !! q = Some n.
Proof.
  unfold _ensure_token_dir. intros H Hn.
  apply bind_ok_inv in H as (e & w0 & He & H).
  unfold path_exists in He. injection He as <- <-.
  rewrite bool_decide_eq_false_2 in H by (rewrite Hn; by intros [? ?]). simpl in H.
  apply bind_ok_inv in H as ([] & w2 & Hmk & H). exists w2. split; [done|].
  apply bind_ok_inv in H as (name & w3 & Hname & H).
  unfold get_os_name in Hname. injection Hname as <- <-.
  intros q n Hq Hne. destruct (negb (String.eqb (os_name w2) "nt")).
  - apply chmod_ok in H as (n0 & _ & ->). by rewrite lookup_insert_ne.
  - by injection H as <-.
Qed.

(** Only the directory that holds the credential file is restricted.  When
    that directory and the one above it are both missing, a save that
    returns has created the upper one with the default mode, [0o777] less
    the umask; on a platform other than Windows the lower one has mode
    [0o700]. *)
Theorem save_creates_upper_directory_unrestricted (self : OneNoteAuth) (token : string)
    (w w' : world) :
  _save_refresh_token self token w = (Ok tt, w') ->
  fs w !! parent (token_path self) = None ->
  fs w !! parent (parent (token_path self)) = None ->
  parent (parent (token_path self)) <> parent (token_path self) ->
  fs w' !! parent (parent (token_path self)) = Some (Dir (default_dir_mode w))
  /\ (os_name w <> "nt" -> fs w' !! parent (token_path self) = Some (Dir 448)).
Proof.
  intros Hs Hp Hg Hne.
  assert (Hlower : os_name w <> "nt" ->
            fs w' !! parent (token_path self) = Some (Dir 448)).
  { intros Hnt.
    pose proof (save_ok_inv self token w w' Hs) as (w1 & w2 & w3 & He & Hw & Hc & ->).
    rewrite (not_nt w Hnt) in Hc. simpl.
    apply ensure_token_dir_ok in He as [_ Hmk]. specialize (Hmk Hp Hnt).
    apply write_text_ok in Hw as [[m0 Hw] Hnd].
    apply chmod_ok in Hc as (n & _ & ->).
    assert (token_path self <> parent (token_path self))
      by (intros Heq; rewrite <- Heq in Hmk; by apply Hnd in Hmk).
    by rewrite lookup_insert_ne, Hw, lookup_insert_ne. }
  split; [|exact Hlower]. clear Hlower.
  apply save_ok_inv in Hs as (w1 & w2 & w3 & He & Hw & Hc & ->). simpl.
  apply ensure_token_dir_inv in He as (wm & Hmk & Hkeep); [|done].
  set (P := parent (token_path self)) in *. set (G := parent P) in *.
  assert (Hgm : fs wm !! G = Some (Dir (default_dir_mode w))).
  { unfold mkdir_parents in Hmk. rewrite mkdir_parents_rev_eq in Hmk.
    unfold try_except in Hmk.
    destruct (rev P) as [|c rest] eqn:Hrev.
    { exfalso. apply Hne. unfold G. apply (f_equal (@rev string)) in Hrev.
      rewrite rev_involutive in Hrev. by rewrite Hrev. }
    assert (HP : P = rev (c :: rest)) by (by rewrite <- Hrev, rev_involutive).
    assert (HG : G = rev rest).
    { unfold G. rewrite HP. apply parent_rev. rewrite <- HP. exact Hne. }
    rewrite <- HP in Hmk.
    assert (Hmkdir : os_mkdir P w = (Raise (Exn FileNotFoundError (AtPath P)), w)).
    { unfold os_mkdir. rewrite decide_False by done. fold G. by rewrite Hg. }
    rewrite Hmkdir in Hmk. simpl in Hmk.
    rewrite decide_False in Hmk by (fold G; done).
    apply bind_ok_inv in Hmk as ([] & wr & Hrec & Hmk).
    apply mkdir_parents_rev_fresh in Hrec; [|by rewrite <- HG].
    rewrite <- HG in Hrec.
    pose proof (mkdir_exist_ok_other P G wr Hne) as Ho. rewrite Hmk in Ho. simpl in Ho.
    by rewrite Ho. }
  assert (Hg1 : fs w1 !! G = Some (Dir (default_dir_mode w))) by (by apply Hkeep).
  apply write_text_ok in Hw as [[m0 Hw] Hnd].
  assert (Hnt : token_path self <> G) by (intros Heq; rewrite <- Heq in Hg1; by apply Hnd in Hg1).
  assert (Hg2 : fs w2 !! G = Some (Dir (default_dir_mode w)))
    by (by rewrite Hw, lookup_insert_ne).
  destruct (String.eqb (os_name w) "nt").
  - by subst w3.
  - apply chmod_ok in Hc as (n & _ & ->). by rewrite lookup_insert_ne.
Qed.

Lemma save_creates_upper_directory_unrestricted_witness :
  (_save_refresh_token deep_auth "tok" fresh_world).1 = Ok tt
  /\ fs (_save_refresh_token deep_auth "tok" fresh_world).2 !! ["/"; "home"; "user"; "a"]
     = Some (Dir 493)
  /\ fs (_save_refresh_token deep_auth "tok" fresh_world).2 !! ["/"; "home"; "user"; "a"; "b"]
     = Some (Dir 448).
Proof.
  assert (Hs : (_save_refresh_token deep_auth "tok" fresh_world).1 = Ok tt)
    by (vm_compute; reflexivity).
  split; [exact Hs|].
  destruct (save_creates_upper_directory_unrestricted deep_auth "tok" fresh_world _
              (run_ok _ _ _ Hs)) as [Hu Hl].
  - vm_compute. reflexivity.
  - vm_compute. reflexivity.
  - discriminate.
  - split; [exact Hu|]. apply Hl. discriminate.
Defined.

(** ** [get_notebooks] *)

Lemma bindN_done {A B} (m : N A) (k : A -> N B) (s : session) (a : A) (s1 : session) :
  m s = (Done a, s1) -> bindN m k s = k a s1.
Proof. intros H. unfold bindN. by rewrite H. Qed.

Lemma bindN_failed {A B} (m : N A) (k : A -> N B) (s : session) (r : raised) (s1 : session) :
  m s = (Failed r, s1) -> bindN m k s = (Failed r, s1).
Proof. intros H. unfold bindN. by rewrite H. Qed.

Lemma lift_ok {A} (m : M A) (s : session) (a : A) (w : world) :
  m (the_world s) = (Ok a, w) -> lift m s = (Done a, set_world w s).
Proof. intros H. unfold lift. by rewrite H. Qed.

Lemma lift_raise {A} (m : M A) (s : session) (e : exn) (w : world) :
  m (the_world s) = (Raise e, w) -> lift m s = (Failed (Std e), set_world w s).
Proof. intros H. unfold lift. by rewrite H. Qed.


Lemma get_notebooks_request (self : OneNoteAuth) (token : string) (s : session) :
  (resp <- requests_get notebooks_url ("Bearer " ++ token) ;;
   raise_for_status resp ;;
   resp_json resp)%cli s
  = (answer s token, send (notebooks_request token) s).
Proof.
  unfold bindN, requests_get, answer, notebooks_request, raise_for_status, resp_json.
  destruct (server s (sent s) (Request notebooks_url ("Bearer " ++ token))) as [msg|resp];
    [done|].
  destruct ((400 <=? status_code resp) && (status_code resp <? 600)); [done|].
  by destruct (resp_body resp).
Qed.

(** With a non-empty token, [get_notebooks] acquires nothing: the world is
    left as it was (no provider call, no file written) and exactly one
    request is sent, to the notebooks endpoint, with the token as bearer.
    A transport failure, a status from 400 to 599 and a body that is not
    JSON are raised, in that order of precedence; otherwise the body is
    returned. *)
Theorem get_notebooks_with_token (self : OneNoteAuth) (token : string) (s : session) :
  token <> "" ->
  get_notebooks self (Some token) s = (answer s token, send (notebooks_request token) s)
  /\ the_world (get_notebooks self (Some token) s).2 = the_world s
  /\ sent (get_notebooks self (Some token) s).2
     = (sent s ++ [Request "https://graph.microsoft.com/v1.0/me/onenote/notebooks"
                           ("Bearer " ++ token)])%list
  /\ (forall resp, server s (sent s) (notebooks_request token) = inr resp ->
        400 <= status_code resp < 600 ->
        (get_notebooks self (Some token) s).1 = Failed (HTTPError (status_code resp)))
  /\ (forall j, (get_notebooks self (Some token) s).1 = Done j ->
        exists resp, server s (sent s) (notebooks_request token) = inr resp
                     /\ ~ (400 <= status_code resp < 600)
                     /\ resp_body resp = Some j).
Proof.
  intros Ht.
  assert (H : get_notebooks self (Some token) s
              = (answer s token, send (notebooks_request token) s)).
  { unfold get_notebooks. rewrite (truthy_value_some token Ht).
    erewrite bindN_done by reflexivity. apply (get_notebooks_request self). }
  rewrite H. repeat split.
  - intros resp Hr Hs. simpl. unfold answer. rewrite Hr.
    rewrite (proj2 (andb_true_iff _ _)); [done|]. split; [apply Z.leb_le|apply Z.ltb_lt]; lia.
  - simpl. unfold answer. intros j Hj.
    destruct (server s (sent s) (notebooks_request token)) as [msg|resp]; [discriminate|].
    destruct ((400 <=? status_code resp) && (status_code resp <? 600)) eqn:Hb; [discriminate|].
    destruct (resp_body resp) as [j'|] eqn:Hbody; [|discriminate].
    injection Hj as ->. exists resp. repeat split; try done.
    intros [H1 H2]. apply andb_false_iff in Hb as [Hb|Hb].
    + apply Z.leb_gt in Hb. lia.
    + apply Z.ltb_ge in Hb. lia.
Qed.

Lemma get_notebooks_with_token_witness :
  "tok" <> ""
  /\ (get_notebooks home_auth (Some "tok") (start home_world (status_server 401))).1
     = Failed (HTTPError 401)
  /\ the_world (get_notebooks home_auth (Some "tok") (start home_world (status_server 401))).2
     = home_world.
Proof.
  assert (Ht : "tok" <> "") by discriminate.
  split; [exact Ht|].
  destruct (get_notebooks_with_token home_auth "tok" (start home_world (status_server 401)) Ht)
    as (_ & Hw & _ & Hs & _).
  split; [|exact Hw].
  apply (Hs (Response 401 (Some (JDict [])))); [reflexivity|simpl; lia].
Defined.

(** Without a token ([None] or the empty string), [get_notebooks] first
    runs [get_access_token]: an exception of it is raised on and no request
    is sent; a credential it returns is the bearer of the one request. *)
Theorem get_notebooks_without_token (self : OneNoteAuth) (access_token : option string)
    (s : session) :
  truthy_value access_token = None ->
  (forall e w, get_access_token self (the_world s) = (Raise e, w) ->
     get_notebooks self access_token s = (Failed (Std e), set_world w s)
     /\ sent (get_notebooks self access_token s).2 = sent s)
  /\ (forall t w, get_access_token self (the_world s) = (Ok t, w) ->
        get_notebooks self access_token s
        = (answer (set_world w s) t, send (notebooks_request t) (set_world w s))
        /\ sent (get_notebooks self access_token s).2
           = (sent s ++ [notebooks_request t])%list).
Proof.
  intros Hn. unfold get_notebooks. rewrite Hn. split.
  - intros e w H. rewrite (bindN_failed _ _ _ _ _ (lift_raise _ s e w H)). done.
  - intros t w H. rewrite (bindN_done _ _ _ _ _ (lift_ok _ s t w H)).
    rewrite (get_notebooks_request self). done.
Qed.

Lemma get_notebooks_without_token_witness :
  truthy_value (Some "") = None
  /\ (get_notebooks docker_auth (Some "") (start docker_world (ok_server two_notebooks))).1
     = Failed (Std (Exn PermissionError (AtPath docker_path)))
  /\ sent (get_notebooks docker_auth (Some "") (start docker_world (ok_server two_notebooks))).2
     = [].
Proof.
  split; [reflexivity|].
  destruct (get_notebooks_without_token docker_auth (Some "")
              (start docker_world (ok_server two_notebooks)) eq_refl) as [Hr _].
  assert (Hg : (get_access_token docker_auth docker_world).1
               = Raise (Exn PermissionError (AtPath docker_path)))
    by (vm_compute; reflexivity).
  destruct (Hr _ _ (run_raise _ _ _ Hg)) as [H1 H2].
  split; [exact (f_equal fst H1)|exact H2].
Defined.

(** ** [main] *)

Local Ltac nothing_added := exists []; by rewrite app_nil_r.

Local Ltac orderly_split := split; [|split; [|split]].

Lemma orderly_ret {A} (a : A) : orderly (retN a).
Proof. intros s. simpl. orderly_split; [done|nothing_added|nothing_added|done]. Qed.

Lemma orderly_fail {A} (r : raised) : is_Exception r = true -> orderly (@failN A r).
Proof.
  intros Hr s. simpl. orderly_split; [done|nothing_added|nothing_added|].
  by intros r' [= <-].
Qed.

Lemma orderly_bind {A B} (m : N A) (k : A -> N B) :
  orderly m -> (forall a, orderly (k a)) -> orderly (bindN m k).
Proof.
  intros Hm Hk s. unfold bindN.
  destruct (Hm s) as (He & [ls Hc] & [rs Hs] & Hx).
  destruct (m s) as [[a|r] s1]; simpl in *.
  - destruct (Hk a s1) as (He' & [ls' Hc'] & [rs' Hs'] & Hx').
    orderly_split.
    + congruence.
    + exists (ls ++ ls')%list. rewrite Hc', Hc. by rewrite <- app_assoc.
    + exists (rs ++ rs')%list. rewrite Hs', Hs. by rewrite <- app_assoc.
    + exact Hx'.
  - orderly_split; [done|by exists ls|by exists rs|].
    intros r' [= <-]. by apply Hx.
Qed.

Lemma orderly_lift {A} (m : M A) : orderly (lift m).
Proof.
  intros s. unfold lift. destruct (m (the_world s)) as [[a|e] w]; simpl.
  - orderly_split; [done|nothing_added|nothing_added|done].
  - orderly_split; [done|nothing_added|nothing_added|].
    by intros r [= <-].
Qed.

Lemma orderly_out (l : cli_line) : orderly (out l).
Proof. intros s. simpl. orderly_split; [done|by exists [l]|nothing_added|done]. Qed.

Lemma orderly_requests_get (url authorization : string) :
  orderly (requests_get url authorization).
Proof.
  intros s. unfold requests_get.
  destruct (server s (sent s) (Request url authorization)) as [msg|resp]; simpl.
  - orderly_split; [done|nothing_added|by eexists|].
    by intros r [= <-].
  - orderly_split; [done|nothing_added|by eexists|done].
Qed.

Lemma orderly_get_notebooks (self : OneNoteAuth) (access_token : option string) :
  orderly (get_notebooks self access_token).
Proof.
  unfold get_notebooks. apply orderly_bind.
  - destruct (truthy_value access_token); [apply orderly_ret|apply orderly_lift].
  - intros token. apply orderly_bind; [apply orderly_requests_get|].
    intros resp. apply orderly_bind.
    + unfold raise_for_status.
      destruct ((400 <=? status_code resp) && (status_code resp <? 600));
        [by apply orderly_fail|apply orderly_ret].
    + intros _. unfold resp_json.
      destruct (resp_body resp); [apply orderly_ret|by apply orderly_fail].
Qed.

Lemma orderly_py_get (obj : json) (key : string) (default : json) :
  orderly (py_get obj key default).
Proof. destruct obj; simpl; (apply orderly_ret || by apply orderly_fail). Qed.

Lemma orderly_py_len (obj : json) : orderly (py_len obj).
Proof. destruct obj; simpl; (apply orderly_ret || by apply orderly_fail). Qed.

Lemma orderly_py_iter (obj : json) : orderly (py_iter obj).
Proof. destruct obj; simpl; (apply orderly_ret || by apply orderly_fail). Qed.

Lemma orderly_py_getitem (obj : json) (key : string) : orderly (py_getitem obj key).
Proof.
  destruct obj; simpl; try (by apply orderly_fail).
  destruct (assoc key entries); [apply orderly_ret|by apply orderly_fail].
Qed.

Lemma orderly_for_each {A} (l : list A) (body : A -> N unit) :
  (forall x, orderly (body x)) -> orderly (for_each l body).
Proof.
  intros Hb. induction l as [|x r IH]; simpl.
  - apply orderly_ret.
  - apply orderly_bind; [apply Hb|]. intros _. apply IH.
Qed.

Local Ltac orderly_step :=
  first [ apply orderly_lift | apply orderly_out | apply orderly_get_notebooks
        | apply orderly_py_get | apply orderly_py_len | apply orderly_py_iter
        | apply orderly_py_getitem | apply orderly_ret
        | apply orderly_for_each; intros ?; unfold print_notebook
        | apply orderly_bind; [|intros ?] ].

Lemma orderly_main_body (a : args) : orderly (main_body a).
Proof. unfold main_body. repeat orderly_step. Qed.

Lemma orderly_list_notebooks (auth : OneNoteAuth) (token : string) :
  orderly (list_notebooks auth token).
Proof. unfold list_notebooks. repeat orderly_step. Qed.

Lemma main_parsed (a : args) (s : session) :
  main (Parsed a) s
  = try_except_N (main_body a) (fun e => bindN (err e) (fun _ => sys_exit 1)) s.
Proof. reflexivity. Qed.

Lemma main_after_parsing (a : args) (s : session) :
  ((main (Parsed a) s).1 = Done tt
   /\ main_body a s = main (Parsed a) s
   /\ stderr (main (Parsed a) s).2 = stderr s)
  \/ (exists e, (main_body a s).1 = Failed e
                /\ is_Exception e = true
                /\ main (Parsed a) s
                   = (Failed (SystemExit 1), complain e (main_body a s).2)
                /\ stderr (main (Parsed a) s).2 = (stderr s ++ [e])%list).
Proof.
  destruct (orderly_main_body a s) as (He & _ & _ & Hx).
  rewrite main_parsed. unfold try_except_N.
  destruct (main_body a s) as [[[]|e] s1] eqn:Hb; simpl in *.
  - left. done.
  - right. exists e. rewrite (Hx e eq_refl). simpl.
    repeat split; try done. by rewrite He.
Qed.

(** [main] ends in one of three ways.  Argparse does not return the
    arguments (a command line it rejects, or [--help]): its [SystemExit]
    leaves [main] with argparse's status before anything else is done, so
    the world is as it was, no request is sent and [main] has printed
    nothing.  Or the [try] block returns, and so does [main], having printed
    nothing on the error stream: exit status 0.  Or the block raises an
    exception [e]: then [e] is the one line [main] adds to the error stream
    and it raises [SystemExit(1)].  The library calls inside the block are
    taken to raise exceptions only, so argparse is the one source of another
    [SystemExit]. *)
Theorem main_exit_status (p : parsed) (s : session) :
  (exists code, p = Exits code
                /\ main p s = (Failed (SystemExit code), s)
                /\ exit_status (main p s).1 = code)
  \/ (exists a, p = Parsed a
                /\ (main p s).1 = Done tt
                /\ main_body a s = main p s
                /\ stderr (main p s).2 = stderr s
                /\ exit_status (main p s).1 = 0)
  \/ (exists a e, p = Parsed a
                  /\ (main_body a s).1 = Failed e
                  /\ is_Exception e = true
                  /\ main p s = (Failed (SystemExit 1), complain e (main_body a s).2)
                  /\ stderr (main p s).2 = (stderr s ++ [e])%list
                  /\ exit_status (main p s).1 = 1).
Proof.
  destruct p as [a|code].
  - right. destruct (main_after_parsing a s) as [(Hd & Hb & He)|(e & Hb & Hx & Hm & He)].
    + left. exists a. rewrite Hd. done.
    + right. exists a, e. rewrite Hm in *. done.
  - left. by exists code.
Qed.

Lemma main_of_body_done (a : args) (s s1 : session) :
  main_body a s = (Done tt, s1) -> main (Parsed a) s = (Done tt, s1).
Proof. intros H. rewrite main_parsed. unfold try_except_N. by rewrite H. Qed.

Lemma main_of_body_failed (a : args) (s s1 : session) (e : raised) :
  main_body a s = (Failed e, s1) -> is_Exception e = true ->
  main (Parsed a) s = (Failed (SystemExit 1), complain e s1).
Proof.
  intros H He. rewrite main_parsed. unfold try_except_N. rewrite H, He. reflexivity.
Qed.

Lemma main_body_raise (a : args) (s : session) (e : exn) (w : world) :
  acquire a (the_world s) = (Raise e, w) ->
  main_body a s = (Failed (Std e), set_world w s).
Proof.
  unfold acquire, main_body. intros H.
  destruct (__init__ (arg_token_path a) (arg_client_id a) (the_world s))
    as [[auth|e1] w1] eqn:Hi.
  - rewrite (bind_ok _ _ _ _ _ Hi) in H.
    rewrite (bindN_done _ _ _ _ _ (lift_ok _ s auth w1 Hi)).
    destruct (get_access_token auth w1) as [[token|e2] w2] eqn:Hg.
    + rewrite (bind_ok _ _ _ _ _ Hg) in H. discriminate.
    + rewrite (bind_raise _ _ _ _ _ Hg) in H. injection H as -> ->.
      by rewrite (bindN_failed _ _ _ _ _ (lift_raise _ (set_world w1 s) e w Hg)).
  - rewrite (bind_raise _ _ _ _ _ Hi) in H. injection H as -> ->.
    by rewrite (bindN_failed _ _ _ _ _ (lift_raise _ s e w Hi)).
Qed.

Lemma main_body_ok (a : args) (s : session) (auth : OneNoteAuth) (token : string) (w : world) :
  acquire a (the_world s) = (Ok (auth, token), w) ->
  main_body a s = list_notebooks auth token (announced auth token w s).
Proof.
  unfold acquire, main_body. intros H.
  apply bind_ok_inv in H as (auth1 & w1 & Hi & H).
  apply bind_ok_inv in H as (token1 & w2 & Hg & H).
  injection H as -> -> ->.
  rewrite (bindN_done _ _ _ _ _ (lift_ok _ s auth w1 Hi)).
  rewrite (bindN_done _ _ _ _ _ (lift_ok _ (set_world w1 s) token w Hg)).
  transitivity
    (list_notebooks auth token
       (say (Out "Testing OneNote API call...")
          (say (Out (rule ++ nl))
             (say (TokenSavedTo (token_path auth))
                (say (TokenPreview (first10 token) (last10 token))
                   (say (Out rule)
                      (say (Out "ACCESS TOKEN OBTAINED")
                         (say (Out (nl ++ rule))
                            (set_world w (set_world w1 s)))))))))); [reflexivity|].
  f_equal. unfold say, set_world, announced, banner.
  cbn [the_world server sent console stderr]. f_equal.
  by rewrite <- !app_assoc.
Qed.

Lemma for_each_listing (items : list json) (ls : list cli_line) (s : session) :
  listing items = Some ls ->
  for_each items print_notebook s
  = (Done tt, Session (the_world s) (server s) (sent s) (console s ++ ls) (stderr s)).
Proof.
  revert ls s. induction items as [|nb r IH]; intros ls s; simpl.
  - intros [= <-]. rewrite app_nil_r. by destruct s.
  - destruct (notebook_line nb) as [l|] eqn:Hl; [|discriminate].
    destruct (listing r) as [ls'|]; [|discriminate]. intros [= <-].
    destruct nb as [| | | | |d]; try discriminate. simpl in Hl.
    destruct (assoc "displayName" d) as [name|] eqn:Hn; [|discriminate].
    destruct (assoc "id" d) as [id|] eqn:Hid; [|discriminate].
    injection Hl as <-.
    unfold bindN at 1. unfold print_notebook at 1. unfold bindN, py_getitem.
    rewrite Hn, Hid. simpl. rewrite (IH ls') by done. simpl.
    by rewrite <- app_assoc.
Qed.

Lemma print_notebook_fails (nb : json) (s : session) :
  notebook_line nb = None -> print_notebook nb s = (Failed (item_error nb), s).
Proof.
  unfold print_notebook, bindN, py_getitem, item_error.
  destruct nb as [| | | | |d]; try done. simpl.
  destruct (assoc "displayName" d) as [name|]; [|done].
  destruct (assoc "id" d) as [id|]; [discriminate|done].
Qed.

Lemma for_each_stops (pre post : list json) (nb : json) (ls : list cli_line) (s : session) :
  listing pre = Some ls -> notebook_line nb = None ->
  for_each (pre ++ nb :: post) print_notebook s
  = (Failed (item_error nb),
     Session (the_world s) (server s) (sent s) (console s ++ ls) (stderr s)).
Proof.
  intros Hp Hn. revert ls s Hp. induction pre as [|x r IH]; intros ls s; simpl.
  - intros [= <-]. unfold bindN. rewrite (print_notebook_fails nb s Hn).
    rewrite app_nil_r. by destruct s.
  - destruct (notebook_line x) as [l|] eqn:Hl; [|discriminate].
    destruct (listing r) as [ls'|] eqn:Hr; [|discriminate]. intros [= <-].
    assert (Hx : for_each [x] print_notebook s
                 = (Done tt, Session (the_world s) (server s) (sent s) (console s ++ [l])
                                     (stderr s))).
    { apply for_each_listing. simpl. by rewrite Hl. }
    simpl in Hx. unfold bindN in Hx. unfold bindN at 1.
    destruct (print_notebook x s) as [[[]|e] s1]; [|discriminate].
    injection Hx as ->. rewrite (IH ls') by done. simpl.
    by rewrite <- app_assoc.
Qed.

(** The API test from the request to the count line, when the server
    answers with a dict whose [value] is a list. *)
Lemma list_notebooks_items (auth : OneNoteAuth) (token : string) (s : session)
    (resp : response) (d : list (string * json)) (items : list json) :
  token <> "" ->
  server s (sent s) (notebooks_request token) = inr resp ->
  ~ (400 <= status_code resp < 600) ->
  resp_body resp = Some (JDict d) ->
  value_of d = JList items ->
  list_notebooks auth token s
  = for_each items print_notebook
      (say (Retrieved (length items)) (send (notebooks_request token) s)).
Proof.
  intros Ht Hs Hc Hb Hv. unfold list_notebooks.
  assert (Hg : get_notebooks auth (Some token) s
               = (Done (JDict d), send (notebooks_request token) s)).
  { unfold get_notebooks. rewrite (truthy_value_some token Ht).
    erewrite bindN_done by reflexivity. rewrite (get_notebooks_request auth).
    unfold answer. rewrite Hs, Hb.
    destruct ((400 <=? status_code resp) && (status_code resp <? 600)) eqn:Hr; [|done].
    apply andb_true_iff in Hr as [H1 H2]. apply Z.leb_le in H1. apply Z.ltb_lt in H2.
    exfalso. apply Hc. lia. }
  rewrite (bindN_done _ _ _ _ _ Hg). unfold value_of in Hv.
  unfold py_get. erewrite bindN_done by reflexivity. rewrite Hv.
  reflexivity.
Qed.

(** When the instance cannot be built or no access credential is obtained,
    [main] sends no request and prints nothing of its own on the standard
    output: the exception goes to the error stream and the exit status
    is 1. *)
Theorem main_fails_before_request (a : args) (s : session) (e : exn) (w : world) :
  acquire a (the_world s) = (Raise e, w) ->
  main (Parsed a) s = (Failed (SystemExit 1), complain (Std e) (set_world w s))
  /\ sent (main (Parsed a) s).2 = sent s
  /\ console (main (Parsed a) s).2 = console s
  /\ stderr (main (Parsed a) s).2 = (stderr s ++ [Std e])%list
  /\ exit_status (main (Parsed a) s).1 = 1.
Proof.
  intros H. rewrite (main_of_body_failed a s _ _ (main_body_raise a s e w H) eq_refl).
  done.
Qed.

Lemma main_fails_before_request_witness :
  (acquire no_args bare_world).1 = Raise (Exn ValueError (Msg client_id_guidance))
  /\ (main (Parsed no_args) (start bare_world (ok_server two_notebooks))).1 = Failed (SystemExit 1)
  /\ sent (main (Parsed no_args) (start bare_world (ok_server two_notebooks))).2 = []
  /\ console (main (Parsed no_args) (start bare_world (ok_server two_notebooks))).2 = []
  /\ stderr (main (Parsed no_args) (start bare_world (ok_server two_notebooks))).2
     = [Std (Exn ValueError (Msg client_id_guidance))].
Proof.
  assert (Ha : (acquire no_args bare_world).1 = Raise (Exn ValueError (Msg client_id_guidance)))
    by (vm_compute; reflexivity).
  split; [exact Ha|].
  destruct (main_fails_before_request no_args (start bare_world (ok_server two_notebooks))
              _ _ (run_raise _ _ _ Ha)) as (H & Hs & Hc & He & _).
  split; [exact (f_equal fst H)|]. split; [exact Hs|]. split; [exact Hc|exact He].
Defined.

(** When the credential is obtained and the server answers the request
    with a status outside 400-599 and a dict whose [value] (an empty list
    when the key is missing) is a list of notebooks that each have a
    [displayName] and an [id], [main] returns: it has sent that one request,
    and has printed the banner, the number of notebooks and one line per
    notebook in order; the error stream is untouched and the world is the
    one the acquisition left. *)
Theorem main_lists_notebooks (a : args) (s : session) (auth : OneNoteAuth) (token : string)
    (w : world) (resp : response) (d : list (string * json)) (items : list json)
    (ls : list cli_line) :
  acquire a (the_world s) = (Ok (auth, token), w) ->
  token <> "" ->
  server s (sent s) (notebooks_request token) = inr resp ->
  ~ (400 <= status_code resp < 600) ->
  resp_body resp = Some (JDict d) ->
  value_of d = JList items ->
  listing items = Some ls ->
  main (Parsed a) s = (Done tt, listed auth token w (Retrieved (length items) :: ls) s)
  /\ exit_status (main (Parsed a) s).1 = 0
  /\ (assoc "value" d = None -> items = [] /\ ls = []).
Proof.
  intros Ha Ht Hs Hc Hb Hv Hl.
  assert (H : main_body a s = (Done tt, listed auth token w (Retrieved (length items) :: ls) s)).
  { rewrite (main_body_ok a s auth token w Ha).
    rewrite (list_notebooks_items auth token (announced auth token w s) resp d items
               Ht Hs Hc Hb Hv).
    rewrite (for_each_listing items ls _ Hl). unfold listed, announced, say, send.
    cbn [the_world server sent console stderr]. do 2 f_equal.
    rewrite <- !app_assoc. reflexivity. }
  rewrite (main_of_body_done a s _ H). split; [done|]. split; [done|].
  intros Hn. unfold value_of in Hv. rewrite Hn in Hv. injection Hv as <-.
  simpl in Hl. by injection Hl as <-.
Qed.

Lemma main_lists_notebooks_witness :
  (acquire no_args home_world).1 = Ok (home_auth, "new-access-token-xyz")
  /\ (main (Parsed no_args) (start home_world (ok_server two_notebooks))).1 = Done tt
  /\ console (main (Parsed no_args) (start home_world (ok_server two_notebooks))).2
     = (banner "new-access-token-xyz" home_token_path
        ++ [Retrieved 2; Notebook (JStr "Work") (JStr "1-abc");
            Notebook (JStr "Home") (JStr "2-def")])%list
  /\ sent (main (Parsed no_args) (start home_world (ok_server two_notebooks))).2
     = [notebooks_request "new-access-token-xyz"].
Proof.
  assert (Ha : (acquire no_args home_world).1 = Ok (home_auth, "new-access-token-xyz"))
    by (vm_compute; reflexivity).
  split; [exact Ha|].
  assert (Ht : "new-access-token-xyz" <> "") by discriminate.
  assert (Hc : ~ (400 <= status_code (Response 200 (Some two_notebooks)) < 600))
    by (simpl; lia).
  destruct (main_lists_notebooks no_args (start home_world (ok_server two_notebooks))
              home_auth "new-access-token-xyz" _ (Response 200 (Some two_notebooks))
              _ [notebook "Work" "1-abc"; notebook "Home" "2-def"]
              [Notebook (JStr "Work") (JStr "1-abc"); Notebook (JStr "Home") (JStr "2-def")]
              (run_ok _ _ _ Ha) Ht eq_refl Hc eq_refl eq_refl eq_refl) as (H & _ & _).
  split; [exact (f_equal fst H)|].
  split; [exact (f_equal (fun x => console x.2) H)|exact (f_equal (fun x => sent x.2) H)].
Defined.

(** The listing stops at the first item that has no [displayName] or no
    [id]: the count line has announced all the items and the notebooks
    before that one are printed, none after it; the [KeyError] for the
    missing key (a [TypeError] when the item is not a dict) goes to the
    error stream and the exit status is 1. *)
Theorem main_stops_at_malformed_notebook (a : args) (s : session) (auth : OneNoteAuth)
    (token : string) (w : world) (resp : response) (d : list (string * json))
    (pre post : list json) (nb : json) (ls : list cli_line) :
  acquire a (the_world s) = (Ok (auth, token), w) ->
  token <> "" ->
  server s (sent s) (notebooks_request token) = inr resp ->
  ~ (400 <= status_code resp < 600) ->
  resp_body resp = Some (JDict d) ->
  value_of d = JList (pre ++ nb :: post) ->
  listing pre = Some ls ->
  notebook_line nb = None ->
  main (Parsed a) s
  = (Failed (SystemExit 1),
     complain (item_error nb)
       (listed auth token w (Retrieved (length pre + 1 + length post) :: ls) s))
  /\ exit_status (main (Parsed a) s).1 = 1
  /\ (forall e, nb = JDict e -> assoc "displayName" e = None ->
        item_error nb = Std (Exn KeyError (Msg "displayName")))
  /\ (forall e v, nb = JDict e -> assoc "displayName" e = Some v ->
        item_error nb = Std (Exn KeyError (Msg "id"))).
Proof.
  intros Ha Ht Hs Hc Hb Hv Hl Hn.
  assert (H : main_body a s
              = (Failed (item_error nb),
                 listed auth token w (Retrieved (length pre + 1 + length post) :: ls) s)).
  { rewrite (main_body_ok a s auth token w Ha).
    rewrite (list_notebooks_items auth token (announced auth token w s) resp d _
               Ht Hs Hc Hb Hv).
    rewrite (for_each_stops pre post nb ls _ Hl Hn). unfold listed, announced, say, send.
    rewrite length_app. cbn [length].
    replace (length pre + S (length post))%nat with (length pre + 1 + length post)%nat by lia.
    cbn [the_world server sent console stderr]. do 2 f_equal.
    rewrite <- !app_assoc. reflexivity. }
  assert (Hx : is_Exception (item_error nb) = true).
  { unfold item_error. destruct nb; try done. by destruct (assoc "displayName" entries). }
  rewrite (main_of_body_failed a s _ _ H Hx). split; [done|]. split; [done|]. split.
  - intros e -> He. simpl. by rewrite He.
  - intros e v -> He. simpl. by rewrite He.
Qed.

Lemma main_stops_at_malformed_notebook_witness :
  (acquire no_args home_world).1 = Ok (home_auth, "new-access-token-xyz")
  /\ (main (Parsed no_args) (start home_world (ok_server nameless_second))).1 = Failed (SystemExit 1)
  /\ console (main (Parsed no_args) (start home_world (ok_server nameless_second))).2
     = (banner "new-access-token-xyz" home_token_path
        ++ [Retrieved 3; Notebook (JStr "Work") (JStr "1-abc")])%list
  /\ stderr (main (Parsed no_args) (start home_world (ok_server nameless_second))).2
     = [Std (Exn KeyError (Msg "displayName"))].
Proof.
  assert (Ha : (acquire no_args home_world).1 = Ok (home_auth, "new-access-token-xyz"))
    by (vm_compute; reflexivity).
  split; [exact Ha|].
  assert (Ht : "new-access-token-xyz" <> "") by discriminate.
  assert (Hc : ~ (400 <= status_code (Response 200 (Some nameless_second)) < 600))
    by (simpl; lia).
  destruct (main_stops_at_malformed_notebook no_args
              (start home_world (ok_server nameless_second))
              home_auth "new-access-token-xyz" _ (Response 200 (Some nameless_second))
              _ [notebook "Work" "1-abc"] [notebook "Home" "3-ghi"]
              (JDict [("id", JStr "2-def")])
              [Notebook (JStr "Work") (JStr "1-abc")]
              (run_ok _ _ _ Ha) Ht eq_refl Hc eq_refl eq_refl eq_refl eq_refl) as (H & _ & _).
  split; [exact (f_equal fst H)|].
  split; [exact (f_equal (fun x => console x.2) H)|exact (f_equal (fun x => stderr x.2) H)].
Defined.

Lemma main_console (a : args) (s : session) :
  console (main (Parsed a) s).2 = console (main_body a s).2
  /\ sent (main (Parsed a) s).2 = sent (main_body a s).2
  /\ the_world (main (Parsed a) s).2 = the_world (main_body a s).2.
Proof.
  rewrite main_parsed. unfold try_except_N.
  destruct (main_body a s) as [[[]|e] s1]; [done|].
  by destruct (is_Exception e).
Qed.

Lemma substring_all (s : string) (n : nat) :
  (String.length s <= n)%nat -> substring 0 n s = s.
Proof.
  revert n. induction s as [|c r IH]; intros [|n] H; simpl in *; try done; try lia.
  rewrite IH; [done|lia].
Qed.

(** Once the access credential is obtained, the banner with its preview and
    the location of the store is printed whatever the API call does
    afterwards, and the request, if any is sent, comes after.  A credential
    of at most ten characters appears in full in the preview, as its head
    and as its tail. *)
Theorem banner_once_token_obtained (a : args) (s : session) (auth : OneNoteAuth)
    (token : string) (w : world) :
  acquire a (the_world s) = (Ok (auth, token), w) ->
  (exists ls : list cli_line,
     console (main (Parsed a) s).2 = (console s ++ banner token (token_path auth) ++ ls)%list)
  /\ In (TokenPreview (first10 token) (last10 token)) (console (main (Parsed a) s).2)
  /\ In (TokenSavedTo (token_path auth)) (console (main (Parsed a) s).2)
  /\ ((String.length token <= 10)%nat ->
      In (TokenPreview token token) (console (main (Parsed a) s).2)).
Proof.
  intros Ha.
  assert (Hc : exists ls : list cli_line,
             console (main (Parsed a) s).2 = (console s ++ banner token (token_path auth) ++ ls)%list).
  { destruct (main_console a s) as (-> & _ & _).
    rewrite (main_body_ok a s auth token w Ha).
    destruct (orderly_list_notebooks auth token (announced auth token w s))
      as (_ & [ls Hls] & _ & _).
    exists ls. rewrite Hls. unfold announced. cbn [console]. by rewrite <- app_assoc. }
  split; [exact Hc|]. destruct Hc as [ls ->].
  assert (Hp : In (TokenPreview (first10 token) (last10 token))
                  (console s ++ banner token (token_path auth) ++ ls)).
  { apply in_or_app. right. apply in_or_app. left. unfold banner. simpl. tauto. }
  split; [exact Hp|]. split.
  - apply in_or_app. right. apply in_or_app. left. unfold banner. simpl. tauto.
  - intros Hlen. unfold first10, last10 in Hp.
    replace (String.length token - 10)%nat with 0%nat in Hp by lia.
    by rewrite (substring_all token 10 Hlen) in Hp.
Qed.

Lemma banner_once_token_obtained_witness :
  (acquire no_args short_world).1 = Ok (home_auth, "abc123")
  /\ In (TokenPreview "abc123" "abc123")
        (console (main (Parsed no_args) (start short_world (status_server 503))).2).
Proof.
  assert (Ha : (acquire no_args short_world).1 = Ok (home_auth, "abc123"))
    by (vm_compute; reflexivity).
  split; [exact Ha|].
  destruct (banner_once_token_obtained no_args (start short_world (status_server 503))
              home_auth "abc123" _ (run_ok _ _ _ Ha)) as (_ & _ & _ & H).
  apply H. simpl. lia.
Defined.

(** When the credential is obtained but the API call fails (no answer, a
    status from 400 to 599, or a body that is not JSON), [main] has printed
    the banner and nothing after it, has sent the one request, and exits
    with status 1 with that failure on the error stream; the world is the
    one the acquisition left, so a credential saved on the way stays
    saved. *)
Theorem main_api_failure (a : args) (s : session) (auth : OneNoteAuth) (token : string)
    (w : world) (e : raised) :
  acquire a (the_world s) = (Ok (auth, token), w) ->
  token <> "" ->
  answer s token = Failed e ->
  main (Parsed a) s = (Failed (SystemExit 1), complain e (listed auth token w [] s))
  /\ console (main (Parsed a) s).2 = (console s ++ banner token (token_path auth))%list
  /\ the_world (main (Parsed a) s).2 = w
  /\ exit_status (main (Parsed a) s).1 = 1.
Proof.
  intros Ha Ht He.
  assert (Hx : is_Exception e = true).
  { unfold answer in He.
    destruct (server s (sent s) (notebooks_request token)) as [msg|resp];
      [by injection He as <-|].
    destruct ((400 <=? status_code resp) && (status_code resp <? 600));
      [by injection He as <-|].
    destruct (resp_body resp); [discriminate|by injection He as <-]. }
  assert (H : main_body a s = (Failed e, listed auth token w [] s)).
  { rewrite (main_body_ok a s auth token w Ha). unfold list_notebooks.
    destruct (get_notebooks_with_token auth token (announced auth token w s) Ht)
      as (Hg & _).
    rewrite (bindN_failed _ _ _ _ _
               (eq_trans Hg (f_equal (fun r => (r, _)) He))).
    unfold listed, announced, send. cbn [the_world server sent console stderr].
    by rewrite app_nil_r. }
  rewrite (main_of_body_failed a s _ _ H Hx).
  repeat split.
Qed.

Lemma main_api_failure_witness :
  (acquire no_args home_world).1 = Ok (home_auth, "new-access-token-xyz")
  /\ (main (Parsed no_args) (start home_world (status_server 401))).1 = Failed (SystemExit 1)
  /\ stderr (main (Parsed no_args) (start home_world (status_server 401))).2 = [HTTPError 401]
  /\ console (main (Parsed no_args) (start home_world (status_server 401))).2
     = banner "new-access-token-xyz" home_token_path.
Proof.
  assert (Ha : (acquire no_args home_world).1 = Ok (home_auth, "new-access-token-xyz"))
    by (vm_compute; reflexivity).
  split; [exact Ha|].
  assert (Ht : "new-access-token-xyz" <> "") by discriminate.
  destruct (main_api_failure no_args (start home_world (status_server 401))
              home_auth "new-access-token-xyz" _ (HTTPError 401)
              (run_ok _ _ _ Ha) Ht eq_refl) as (H & Hc & _).
  split; [exact (f_equal fst H)|].
  split; [exact (f_equal (fun x => stderr x.2) H)|exact Hc].
Defined.
